(** * ai-hedge-fund: the resilient retrieval layer and the signal aggregator

    A shallow embedding of [src/tools/api.py] (key rotation, retrying
    request executors, provider adapters, fallback chains, pagination and the
    cache-aside getters) and of [aggregate_signals] from
    [app/backend/routes/n8n_analyze.py], with the properties the
    specification states about them.

    Python values travel as [json]; functions that touch the module's global
    state, the cache, the network or the clock live in the monad [M], whose
    outcomes are a returned value, a raised exception, or fuel exhaustion
    (only the two [while True] loops consume fuel). *)

From Stdlib Require Import ZArith Lia List Bool Ascii String.
From Stdlib Require Import PrimFloat SpecFloat FloatOps.
From stdpp Require Import base option list gmap strings pretty.

Set Warnings "-register-all".

Local Open Scope string_scope.
Local Open Scope Z_scope.

(** ** Python strings *)

Module PyStr.

(** [str.upper()] on ASCII text: the letters a..z go to A..Z and every other
    byte is left alone. (Python also maps letters outside ASCII; strings are
    bytes here and such letters are not modelled.) *)
Definition upper_ascii (c : ascii) : ascii :=
  let n := nat_of_ascii c in
  if (97 <=? n)%nat && (n <=? 122)%nat then ascii_of_nat (n - 32) else c.

Fixpoint upper (s : string) : string :=
  match s with
  | EmptyString => EmptyString
  | String c r => String (upper_ascii c) (upper r)
  end.

(** [a < b] and [a <= b] on [str]: lexicographic by code point. *)
Definition lt (a b : string) : bool := String.ltb a b.
Definition le (a b : string) : bool := String.leb a b.

(** [needle in s]. *)
Fixpoint contains (needle s : string) : bool :=
  String.prefix needle s ||
  match s with
  | EmptyString => false
  | String _ r => contains needle r
  end.

(** [s.split(c)[0]]: the part of [s] before the first [c]. *)
Fixpoint before (c : ascii) (s : string) : string :=
  match s with
  | EmptyString => EmptyString
  | String a r => if Ascii.eqb a c then EmptyString else String a (before c r)
  end.

(** Occurrences of a character. *)
Fixpoint count (c : ascii) (s : string) : nat :=
  match s with
  | EmptyString => O
  | String a r => ((if Ascii.eqb a c then 1 else 0) + count c r)%nat
  end.

(** [s * n] for a non-negative [n]. *)
Fixpoint repeat (s : string) (n : nat) : string :=
  match n with
  | O => EmptyString
  | S k => s +:+ repeat s k
  end.

(** [str(n)] for an [int]. *)
Definition of_int (n : Z) : string := pretty n.

(** [min] of a non-empty sequence of strings: the first least element. *)
Fixpoint min_from (m : string) (l : list string) : string :=
  match l with
  | [] => m
  | x :: r => min_from (if lt x m then x else m) r
  end.

End PyStr.

(** ** Python floats (binary64) *)

Module PyFloat.

(** [float(n)] for an [int] that is in range: the nearest double. *)
Definition of_int (n : Z) : float :=
  SF2Prim (binary_normalize prec emax n 0 false).

(** [a / b] on two [int]s, [b] not zero: the correctly rounded quotient. *)
Definition int_truediv (a b : Z) : float :=
  match a, b with
  | Z0, _ => if (b <? 0)%Z then neg_zero else zero
  | Zpos p, Zpos q => SF2Prim (SFdiv prec emax (S754_finite false p 0) (S754_finite false q 0))
  | Zpos p, Zneg q => SF2Prim (SFdiv prec emax (S754_finite false p 0) (S754_finite true q 0))
  | Zneg p, Zpos q => SF2Prim (SFdiv prec emax (S754_finite true p 0) (S754_finite false q 0))
  | Zneg p, Zneg q => SF2Prim (SFdiv prec emax (S754_finite true p 0) (S754_finite true q 0))
  | _, Z0 => nan
  end.

(** The integer nearest to [m * 2^e * 100], ties to even. *)
Definition hundredths (m : positive) (e : Z) : Z :=
  let n := (Zpos m * 100)%Z in
  match e with
  | Zneg k =>
      let d := Z.pow_pos 2 k in
      let q := (n / d)%Z in
      let r := (n mod d)%Z in
      match (2 * r ?= d)%Z with
      | Lt => q
      | Gt => (q + 1)%Z
      | Eq => if Z.even q then q else (q + 1)%Z
      end
  | _ => (n * 2 ^ e)%Z
  end.

(** [round(x, 2)]: the double nearest to [x] rounded to two decimals;
    zeros, infinities and NaN round to themselves. *)
Definition round2 (x : float) : float :=
  match Prim2SF x with
  | S754_finite s m e =>
      match hundredths m e with
      | Zpos k => SF2Prim (SFdiv prec emax (S754_finite s k 0) (S754_finite false 100 0))
      | _ => if s then neg_zero else zero
      end
  | _ => x
  end.

(** Truth value of a float: false exactly for the two zeros. *)
Definition truthy (x : float) : bool := negb (PrimFloat.eqb x zero).

End PyFloat.

(** ** Signal aggregation ([app/backend/routes/n8n_analyze.py]) *)

Module N8n.

Record AgentResult := {
  agent : string;
  agent_display_name : string;
  signal : string;
  confidence : float;
  reasoning : option string
}.

(** [sum(1 for r in agent_results if r.signal.upper() == name)] *)
Definition signal_count (name : string) (agent_results : list AgentResult) : Z :=
  Z.of_nat (length (List.filter (fun r => String.eqb (PyStr.upper (signal r)) name) agent_results)).

Section Aggregate.

(** The builtin [sum] over floats (its summation algorithm is the
    interpreter's). *)
Variable py_sum : list float -> float.

Definition aggregate_signals (agent_results : list AgentResult) : string * float :=
  match agent_results with
  | [] => ("NEUTRAL", zero)
  | _ :: _ =>
      let bullish_count := signal_count "BULLISH" agent_results in
      let bearish_count := signal_count "BEARISH" agent_results in
      let neutral_count := signal_count "NEUTRAL" agent_results in
      let total := Z.of_nat (length agent_results) in
      let '(aggregated_signal, weight) :=
        if (bearish_count <? bullish_count) && (neutral_count <? bullish_count) then
          ("BULLISH", PyFloat.int_truediv bullish_count total)
        else if (bullish_count <? bearish_count) && (neutral_count <? bearish_count) then
          ("BEARISH", PyFloat.int_truediv bearish_count total)
        else
          ("NEUTRAL",
           PyFloat.int_truediv (Z.max neutral_count (Z.min bullish_count bearish_count)) total) in
      let avg_confidence :=
        PrimFloat.div (py_sum (map confidence agent_results)) (PyFloat.of_int total) in
      let aggregated_confidence := PyFloat.round2 (PrimFloat.mul avg_confidence weight) in
      (aggregated_signal, aggregated_confidence)
  end.

(** The confidence formula with a given count in the weight:
    [round(mean_confidence * (count / total), 2)]. *)
Definition weighted_confidence (count : Z) (agent_results : list AgentResult) : float :=
  let total := Z.of_nat (length agent_results) in
  PyFloat.round2
    (PrimFloat.mul
       (PrimFloat.div (py_sum (map confidence agent_results)) (PyFloat.of_int total))
       (PyFloat.int_truediv count total)).

(** The confidence as the specification words it: the weight counts the
    agents that voted for the signal that was returned. *)
Definition chosen_count_confidence (agent_results : list AgentResult) : float :=
  weighted_confidence
    (signal_count (fst (aggregate_signals agent_results)) agent_results)
    agent_results.

End Aggregate.

(** Left-to-right float addition starting from [0]. *)
Definition sum_left (l : list float) : float := fold_left PrimFloat.add l zero.

Definition vote (s : string) (c : float) : AgentResult :=
  {| agent := "a"; agent_display_name := "A"; signal := s; confidence := c; reasoning := None |}.

End N8n.

(** ** Python values and exceptions *)

(** What [response.json()] yields, and what the adapters pick apart. A
    [JDict] lists its bindings; lookup takes the first binding of a key. *)
Inductive json :=
| JNull
| JBool (b : bool)
| JInt (z : Z)
| JFloat (f : float)
| JStr (s : string)
| JList (l : list json)
| JDict (d : list (string * json)).

Inductive exn :=
| RequestsTimeout      (* requests.exceptions.Timeout *)
| ConnectionError      (* any other requests exception *)
| JSONDecodeError
| ValidationError      (* pydantic *)
| TypeError
| ValueError
| AttributeError
| KeyError
| IndexError
| ZeroDivisionError.

(** Pure Python expressions: a value or a raised exception. *)
Inductive res (A : Type) :=
| Ok (a : A)
| Err (e : exn).
Arguments Ok {A} a.
Arguments Err {A} e.

Definition res_bind {A B} (r : res A) (k : A -> res B) : res B :=
  match r with
  | Ok a => k a
  | Err e => Err e
  end.

Declare Scope res_scope.
Delimit Scope res_scope with res.
Notation "'let?' x ':=' r 'in' k" := (res_bind r (fun x => k))
  (at level 10, x name, r at level 200, k at level 200) : res_scope.
Local Open Scope res_scope.

Definition of_option {A} (e : exn) (o : option A) : res A :=
  match o with
  | Some a => Ok a
  | None => Err e
  end.

Module Py.

Definition is_none (v : json) : bool :=
  match v with JNull => true | _ => false end.

(** Truth value testing ([if v], [not v], [a or b]). *)
Definition truthy (v : json) : bool :=
  match v with
  | JNull => false
  | JBool b => b
  | JInt z => negb (z =? 0)
  | JFloat f => PyFloat.truthy f
  | JStr s => negb (String.eqb s "")
  | JList l => match l with [] => false | _ => true end
  | JDict d => match d with [] => false | _ => true end
  end.

Fixpoint assoc (k : string) (d : list (string * json)) : option json :=
  match d with
  | [] => None
  | (k', v) :: r => if String.eqb k k' then Some v else assoc k r
  end.

(** [v.get(k, default)]; only a dict has [get]. *)
Definition get_default (v : json) (k : string) (default : json) : res json :=
  match v with
  | JDict d => Ok (match assoc k d with Some x => x | None => default end)
  | _ => Err AttributeError
  end.

(** [v.get(k)] *)
Definition get (v : json) (k : string) : res json := get_default v k JNull.

(** [v[k]] with a string key. *)
Definition getitem (v : json) (k : string) : res json :=
  match v with
  | JDict d => of_option KeyError (assoc k d)
  | _ => Err TypeError
  end.

(** [v[i]] with a non-negative index. *)
Definition index (v : json) (i : nat) : res json :=
  match v with
  | JList l => of_option IndexError (nth_error l i)
  | JStr s => match String.get i s with
              | Some c => Ok (JStr (String c EmptyString))
              | None => Err IndexError
              end
  | JDict _ => Err KeyError
  | _ => Err TypeError
  end.

(** The items a [for] loop sees. *)
Definition iter (v : json) : res (list json) :=
  match v with
  | JList l => Ok l
  | JStr s => Ok (map (fun c => JStr (String c EmptyString)) (list_ascii_of_string s))
  | JDict d => Ok (map (fun kv => JStr (fst kv)) d)
  | _ => Err TypeError
  end.

(** [isinstance(v, list) and len(v) > 0] *)
Definition nonempty_list (v : json) : bool :=
  match v with JList (_ :: _) => true | _ => false end.

Definition is_dict (v : json) : bool :=
  match v with JDict _ => true | _ => false end.

Definition is_list (v : json) : bool :=
  match v with JList _ => true | _ => false end.

(** [len(v)] *)
Definition len (v : json) : res nat :=
  match v with
  | JList l => Ok (length l)
  | JStr s => Ok (String.length s)
  | JDict d => Ok (length d)
  | _ => Err TypeError
  end.

(** [v * 1_000_000] *)
Definition times_million (v : json) : res json :=
  match v with
  | JInt z => Ok (JInt (z * 1000000))
  | JBool b => Ok (JInt (if b then 1000000 else 0))
  | JFloat f => Ok (JFloat (PrimFloat.mul f (PyFloat.of_int 1000000)))
  | JStr s => Ok (JStr (PyStr.repeat s (Z.to_nat 1000000)))
  | JList l => Ok (JList (concat (repeat l (Z.to_nat 1000000))))
  | JNull | JDict _ => Err TypeError
  end.

(** [v == "literal"] *)
Definition eq_str (v : json) (s : string) : bool :=
  match v with JStr s' => String.eqb s' s | _ => false end.

(** [l[:limit]] *)
Definition slice_to {A} (limit : Z) (l : list A) : list A :=
  if limit <? 0 then take (Z.to_nat (Z.of_nat (length l) + limit)) l
  else take (Z.to_nat limit) l.

End Py.

(** ** Canonical records *)

(** [Price], as [get_prices] builds it. *)
Record Price := {
  open : float;
  high : float;
  low : float;
  close : float;
  volume : Z;
  time : string
}.

(** The numeric fields of [FinancialMetrics] besides [market_cap], in the
    order the adapters pass them. *)
Inductive metric_field :=
| enterprise_value | price_to_earnings_ratio | price_to_book_ratio
| price_to_sales_ratio | enterprise_value_to_ebitda_ratio
| enterprise_value_to_revenue_ratio | free_cash_flow_yield | peg_ratio
| gross_margin | operating_margin | net_margin | return_on_equity
| return_on_assets | return_on_invested_capital
| asset_turnover | inventory_turnover | receivables_turnover
| days_sales_outstanding | operating_cycle | working_capital_turnover
| current_ratio | quick_ratio | cash_ratio | operating_cash_flow_ratio
| debt_to_equity | debt_to_assets | interest_coverage
| revenue_growth | earnings_growth | book_value_growth
| earnings_per_share_growth | free_cash_flow_growth
| operating_income_growth | ebitda_growth
| payout_ratio | earnings_per_share | book_value_per_share
| free_cash_flow_per_share.

Definition all_metric_fields : list metric_field :=
  [ enterprise_value; price_to_earnings_ratio; price_to_book_ratio;
    price_to_sales_ratio; enterprise_value_to_ebitda_ratio;
    enterprise_value_to_revenue_ratio; free_cash_flow_yield; peg_ratio;
    gross_margin; operating_margin; net_margin; return_on_equity;
    return_on_assets; return_on_invested_capital;
    asset_turnover; inventory_turnover; receivables_turnover;
    days_sales_outstanding; operating_cycle; working_capital_turnover;
    current_ratio; quick_ratio; cash_ratio; operating_cash_flow_ratio;
    debt_to_equity; debt_to_assets; interest_coverage;
    revenue_growth; earnings_growth; book_value_growth;
    earnings_per_share_growth; free_cash_flow_growth;
    operating_income_growth; ebitda_growth;
    payout_ratio; earnings_per_share; book_value_per_share;
    free_cash_flow_per_share ].

(** [FinancialMetrics]: every numeric field is [float | None]. *)
Record FinancialMetrics := {
  ticker : string;
  report_period : string;
  period : string;
  currency : string;
  market_cap : option float;
  metric_value : metric_field -> option float
}.

(** Modelled from the spec: [src/data/models.py] is not among the sources. A
    canonical record is a flat set of named fields; of an insider trade the
    code reads [filing_date], of a news item [date], of a line item nothing. *)
Record InsiderTrade := { filing_date : string; trade_fields : json }.
Record CompanyNews := { date : string; news_fields : json }.
Record LineItem := { line_item_fields : json }.

(** ** The interpreter's and the libraries' part

    Conversions, date arithmetic and pydantic validation are the libraries';
    the embedding takes them as given ([Err] is the exception they raise). *)
Class PyLib := {
  (** [float(v)] and [int(v)] *)
  py_float : json -> res float;
  py_int : json -> res Z;
  (** validation of a [float | None] field and of a [str] field *)
  validate_float : json -> res (option float);
  validate_str : json -> res string;
  (** [datetime.strptime(s, "%Y-%m-%d")], as the day's ordinal *)
  strptime : string -> res Z;
  (** [int(dt.timestamp())] of a day *)
  timestamp : Z -> Z;
  (** [datetime.fromtimestamp(ts).strftime("%Y-%m-%d")] *)
  fromtimestamp : json -> res string;
  (** [(a - b) / abs(b)] *)
  growth : json -> json -> res json;
  (** the list a response model holds after validating the body:
      [insider_trades], [news], [search_results] *)
  InsiderTradeResponse : json -> res (list InsiderTrade);
  CompanyNewsResponse : json -> res (list CompanyNews);
  LineItemResponse : json -> res (list LineItem)
}.

(** [os.environ], read by the module. *)
Class Environ := {
  FINNHUB_KEYS : list string;
  FMP_API_KEY : option string;
  FINANCIAL_DATASETS_API_KEY : option string
}.

(** ** The network *)

Inductive Method := GET | POST.

Record Request := {
  method : Method;
  url : string;
  params : list (string * string);
  headers : list (string * string);
  json_data : option json;
  timeout : option Z
}.

Record Response := {
  status_code : Z;
  text : string;
  (** what [response.json()] returns; [None] when the body does not parse *)
  body : option json
}.

Inductive HttpResult :=
| Responded (r : Response)
| Failed (e : exn).

(** The upstream providers: the answer to the [n]-th outbound request. *)
Class Network := http : nat -> Request -> HttpResult.

(** ** The process state *)

(** What the financial-metrics cache holds under a key: dumped records, or
    the raw FMP supplement [{"ratios": .., "keymetrics": ..}]. *)
Inductive MetricsEntry :=
| MetricsDump (m : FinancialMetrics)
| FmpSupplement (ratios keymetrics : json).

(** Modelled from the spec: [src/data/cache.py] is not among the sources. The
    cache is an exact-match key to value store per resource kind with get and
    set; an entry is the list of dumped records ([model_dump] and the
    constructor from a dump are inverse, so a dumped record is kept as the
    record). *)
Record World := {
  prices_cache : gmap string (list Price);
  financial_metrics_cache : gmap string (list MetricsEntry);
  insider_trades_cache : gmap string (list InsiderTrade);
  company_news_cache : gmap string (list CompanyNews);
  (** the global [_finnhub_key_index] *)
  _finnhub_key_index : Z;
  (** outbound requests and [time.sleep] delays, newest first *)
  http_log : list Request;
  sleep_log : list Z
}.

Definition set_prices_cache (c : gmap string (list Price)) (w : World) : World :=
  {| prices_cache := c;
     financial_metrics_cache := financial_metrics_cache w;
     insider_trades_cache := insider_trades_cache w;
     company_news_cache := company_news_cache w;
     _finnhub_key_index := _finnhub_key_index w;
     http_log := http_log w; sleep_log := sleep_log w |}.

Definition set_financial_metrics_cache (c : gmap string (list MetricsEntry)) (w : World) : World :=
  {| prices_cache := prices_cache w;
     financial_metrics_cache := c;
     insider_trades_cache := insider_trades_cache w;
     company_news_cache := company_news_cache w;
     _finnhub_key_index := _finnhub_key_index w;
     http_log := http_log w; sleep_log := sleep_log w |}.

Definition set_insider_trades_cache (c : gmap string (list InsiderTrade)) (w : World) : World :=
  {| prices_cache := prices_cache w;
     financial_metrics_cache := financial_metrics_cache w;
     insider_trades_cache := c;
     company_news_cache := company_news_cache w;
     _finnhub_key_index := _finnhub_key_index w;
     http_log := http_log w; sleep_log := sleep_log w |}.

Definition set_company_news_cache (c : gmap string (list CompanyNews)) (w : World) : World :=
  {| prices_cache := prices_cache w;
     financial_metrics_cache := financial_metrics_cache w;
     insider_trades_cache := insider_trades_cache w;
     company_news_cache := c;
     _finnhub_key_index := _finnhub_key_index w;
     http_log := http_log w; sleep_log := sleep_log w |}.

Definition set_key_index (i : Z) (w : World) : World :=
  {| prices_cache := prices_cache w;
     financial_metrics_cache := financial_metrics_cache w;
     insider_trades_cache := insider_trades_cache w;
     company_news_cache := company_news_cache w;
     _finnhub_key_index := i;
     http_log := http_log w; sleep_log := sleep_log w |}.

Definition log_request (r : Request) (w : World) : World :=
  {| prices_cache := prices_cache w;
     financial_metrics_cache := financial_metrics_cache w;
     insider_trades_cache := insider_trades_cache w;
     company_news_cache := company_news_cache w;
     _finnhub_key_index := _finnhub_key_index w;
     http_log := r :: http_log w; sleep_log := sleep_log w |}.

Definition log_sleep (d : Z) (w : World) : World :=
  {| prices_cache := prices_cache w;
     financial_metrics_cache := financial_metrics_cache w;
     insider_trades_cache := insider_trades_cache w;
     company_news_cache := company_news_cache w;
     _finnhub_key_index := _finnhub_key_index w;
     http_log := http_log w; sleep_log := d :: sleep_log w |}.

(** A fresh process: empty caches, rotation index [0], nothing sent. *)
Definition initial_world : World :=
  {| prices_cache := ∅; financial_metrics_cache := ∅;
     insider_trades_cache := ∅; company_news_cache := ∅;
     _finnhub_key_index := 0; http_log := []; sleep_log := [] |}.

(** ** The monad of module-level code *)

Inductive outcome (A : Type) :=
| Returns (a : A)
| Raises (e : exn)
| OutOfFuel.
Arguments Returns {A} a.
Arguments Raises {A} e.
Arguments OutOfFuel {A}.

Definition M (A : Type) : Type := World -> outcome A * World.

Definition ret {A} (a : A) : M A := fun w => (Returns a, w).

Definition raise {A} (e : exn) : M A := fun w => (Raises e, w).

Definition diverge {A} : M A := fun w => (OutOfFuel, w).

Definition bind {A B} (m : M A) (k : A -> M B) : M B :=
  fun w =>
    match m w with
    | (Returns a, w') => k a w'
    | (Raises e, w') => (Raises e, w')
    | (OutOfFuel, w') => (OutOfFuel, w')
    end.

(** [try: m  except ...: h e]; what [m] did before raising stays done. *)
Definition try_except {A} (m : M A) (h : exn -> M A) : M A :=
  fun w =>
    match m w with
    | (Raises e, w') => h e w'
    | r => r
    end.

Definition lift {A} (r : res A) : M A :=
  match r with
  | Ok a => ret a
  | Err e => raise e
  end.

Declare Scope M_scope.
Delimit Scope M_scope with M.
Bind Scope M_scope with M.
Notation "'let*' x ':=' m 'in' k" := (bind m (fun x => k))
  (at level 10, x name, m at level 200, k at level 200) : M_scope.
Local Open Scope M_scope.

Definition is_timeout (e : exn) : bool :=
  match e with RequestsTimeout => true | _ => false end.

(** [None] or an empty list is false. *)
Definition cache_hit {A} (o : option (list A)) : option (list A) :=
  match o with
  | Some (x :: l) => Some (x :: l)
  | _ => None
  end.

(** How one pass of a loop body ends: go round again with the loop's
    variables, or leave the function with a value. *)
Inductive loop_step (S R : Type) :=
| Next (s : S)
| Stop (r : R).
Arguments Next {S R} s.
Arguments Stop {S R} r.

(** ** [src/tools/api.py] *)

Section Api.

Context {env : Environ} {lib : PyLib} {net : Network}.

(** *** Primitives: the network, the clock, the cache *)

Definition send (req : Request) : M Response :=
  fun w =>
    let w' := log_request req w in
    match http (length (http_log w)) req with
    | Responded r => (Returns r, w')
    | Failed e => (Raises e, w')
    end.

(** [requests.get(url, params=.., headers=.., timeout=..)] *)
Definition requests_get (url : string) (params headers : list (string * string))
    (timeout : option Z) : M Response :=
  send {| method := GET; url := url; params := params; headers := headers;
          json_data := None; timeout := timeout |}.

(** [requests.post(url, headers=.., json=..)] *)
Definition requests_post (url : string) (headers : list (string * string))
    (json_data : option json) : M Response :=
  send {| method := POST; url := url; params := []; headers := headers;
          json_data := json_data; timeout := None |}.

(** [response.json()] *)
Definition response_json (r : Response) : res json :=
  of_option JSONDecodeError (body r).

(** [time.sleep(d)] *)
Definition time_sleep (d : Z) : M unit :=
  fun w => (Returns tt, log_sleep d w).

Definition _cache_get_prices (key : string) : M (option (list Price)) :=
  fun w => (Returns (prices_cache w !! key), w).

Definition _cache_set_prices (key : string) (data : list Price) : M unit :=
  fun w => (Returns tt, set_prices_cache (<[key := data]> (prices_cache w)) w).

Definition _cache_get_financial_metrics (key : string) : M (option (list MetricsEntry)) :=
  fun w => (Returns (financial_metrics_cache w !! key), w).

Definition _cache_set_financial_metrics (key : string) (data : list MetricsEntry) : M unit :=
  fun w => (Returns tt,
            set_financial_metrics_cache (<[key := data]> (financial_metrics_cache w)) w).

Definition _cache_get_insider_trades (key : string) : M (option (list InsiderTrade)) :=
  fun w => (Returns (insider_trades_cache w !! key), w).

Definition _cache_set_insider_trades (key : string) (data : list InsiderTrade) : M unit :=
  fun w => (Returns tt,
            set_insider_trades_cache (<[key := data]> (insider_trades_cache w)) w).

Definition _cache_get_company_news (key : string) : M (option (list CompanyNews)) :=
  fun w => (Returns (company_news_cache w !! key), w).

Definition _cache_set_company_news (key : string) (data : list CompanyNews) : M unit :=
  fun w => (Returns tt,
            set_company_news_cache (<[key := data]> (company_news_cache w)) w).

(** *** Finnhub key rotation *)

(** [FINNHUB_KEYS[_finnhub_key_index % len(FINNHUB_KEYS)]], then the index
    goes up by one. *)
Definition _get_next_finnhub_key : M string :=
  fun w =>
    let n := Z.of_nat (length FINNHUB_KEYS) in
    if n =? 0 then (Raises ZeroDivisionError, w)
    else
      match FINNHUB_KEYS !! Z.to_nat (_finnhub_key_index w mod n) with
      | Some key => (Returns key, set_key_index (_finnhub_key_index w + 1) w)
      | None => (Raises IndexError, w)
      end.

(** The [for attempt in range(..)] loop of [_finnhub_request], with [n]
    attempts left. *)
Fixpoint _finnhub_attempts (n : nat) (endpoint : string) (params : list (string * string))
    (keys_tried : gset string) : M json :=
  match n with
  | O => ret JNull
  | S n' =>
      let* key := _get_next_finnhub_key in
      let* step :=
        try_except
          (let* response :=
             requests_get ("https://finnhub.io/api/v1" +:+ "/" +:+ endpoint)
               (params ++ [("token", key)]) [] (Some 10) in
           if status_code response =? 200 then
             let* data := lift (response_json response) in
             if Py.is_dict data &&
                  match Py.get data "error" with Ok v => Py.truthy v | Err _ => false end
             then ret (Stop JNull)
             else ret (Stop data)
           else if status_code response =? 429 then
             let keys_tried' := {[ key ]} ∪ keys_tried in
             if (Z.of_nat (length FINNHUB_KEYS) <=? Z.of_nat (size keys_tried')) then
               let* _ := time_sleep 5 in
               ret (Next ∅)
             else ret (Next keys_tried')
           else if status_code response =? 403 then ret (Stop JNull)
           else ret (Stop JNull))
          (fun e => if is_timeout e then ret (Next keys_tried) else ret (Stop JNull)) in
      match step with
      | Stop v => ret v
      | Next kt => _finnhub_attempts n' endpoint params kt
      end
  end.

Definition _finnhub_request (endpoint : string) (params : list (string * string))
    (max_retries : Z) : M json :=
  _finnhub_attempts (Z.to_nat (max_retries * Z.of_nat (length FINNHUB_KEYS)))
    endpoint params ∅.

(** *** The linear-backoff executor *)

(** The [for attempt in range(max_retries + 1)] loop of [_make_api_request],
    with [remaining] passes left; [None] is falling off the end. *)
Fixpoint _make_api_attempts (remaining : nat) (attempt : Z) (url : string)
    (headers : list (string * string)) (method : string) (json_data : option json)
    (max_retries : Z) : M (option Response) :=
  match remaining with
  | O => ret None
  | S remaining' =>
      let* response :=
        (if String.eqb (PyStr.upper method) "POST"
         then requests_post url headers json_data
         else requests_get url [] headers None) in
      if (status_code response =? 429) && (attempt <? max_retries) then
        let delay := 60 + 30 * attempt in
        let* _ := time_sleep delay in
        _make_api_attempts remaining' (attempt + 1) url headers method json_data max_retries
      else ret (Some response)
  end.

Definition _make_api_request (url : string) (headers : list (string * string))
    (method : string) (json_data : option json) (max_retries : Z) : M (option Response) :=
  _make_api_attempts (Z.to_nat (max_retries + 1)) 0 url headers method json_data max_retries.

(** [response.status_code] of what [_make_api_request] returned. *)
Definition status_of (response : option Response) : M Z :=
  match response with
  | Some r => ret (status_code r)
  | None => raise AttributeError
  end.


(** *** Financial metrics: the Finnhub adapter with the FMP supplement *)

(** The three dictionaries the Finnhub adapter reads fields from. *)
Inductive source :=
| Metric          (* [metric], from Finnhub's stock/metric *)
| FmpRatios       (* [fmp_ratios] *)
| FmpKeyMetrics.  (* [fmp_keymetrics] *)

(** The field mapping of [_get_financial_metrics_finnhub]: for each field the
    [x.get(key)] operands of its [or] chain, left to right. *)
Definition finnhub_candidates (f : metric_field) : list (source * string) :=
  match f with
  | enterprise_value => [(Metric, "enterpriseValue")]
  | price_to_earnings_ratio => [(Metric, "peNormalizedAnnual"); (Metric, "peTTM")]
  | price_to_book_ratio => [(Metric, "pbQuarterly"); (Metric, "pbAnnual")]
  | price_to_sales_ratio => [(Metric, "psTTM"); (Metric, "psAnnual")]
  | enterprise_value_to_ebitda_ratio => [(Metric, "currentEv/freeCashFlowTTM")]
  | enterprise_value_to_revenue_ratio => [(FmpKeyMetrics, "evToSales")]
  | free_cash_flow_yield =>
      [(Metric, "freeCashFlowYieldTTM"); (FmpKeyMetrics, "freeCashFlowYield")]
  | peg_ratio => [(Metric, "pegRatio"); (FmpRatios, "priceToEarningsGrowthRatio")]
  | gross_margin => [(Metric, "grossMarginTTM"); (FmpRatios, "grossProfitMargin")]
  | operating_margin => [(Metric, "operatingMarginTTM"); (FmpRatios, "operatingProfitMargin")]
  | net_margin => [(Metric, "netProfitMarginTTM"); (FmpRatios, "netProfitMargin")]
  | return_on_equity =>
      [(Metric, "roeTTM"); (Metric, "roeRfy"); (FmpKeyMetrics, "returnOnEquity")]
  | return_on_assets =>
      [(Metric, "roaTTM"); (Metric, "roaRfy"); (FmpKeyMetrics, "returnOnAssets")]
  | return_on_invested_capital =>
      [(Metric, "roicTTM"); (FmpKeyMetrics, "returnOnInvestedCapital")]
  | asset_turnover => [(Metric, "assetTurnoverTTM"); (FmpRatios, "assetTurnover")]
  | inventory_turnover => [(Metric, "inventoryTurnoverTTM"); (FmpRatios, "inventoryTurnover")]
  | receivables_turnover =>
      [(Metric, "receivablesTurnoverTTM"); (FmpRatios, "receivablesTurnover")]
  | days_sales_outstanding => [(FmpKeyMetrics, "daysOfSalesOutstanding")]
  | operating_cycle => [(FmpKeyMetrics, "operatingCycle")]
  | working_capital_turnover => [(FmpRatios, "workingCapitalTurnoverRatio")]
  | current_ratio =>
      [(Metric, "currentRatioQuarterly"); (Metric, "currentRatioAnnual");
       (FmpRatios, "currentRatio")]
  | quick_ratio =>
      [(Metric, "quickRatioQuarterly"); (Metric, "quickRatioAnnual");
       (FmpRatios, "quickRatio")]
  | cash_ratio => [(Metric, "cashRatioQuarterly"); (FmpRatios, "cashRatio")]
  | operating_cash_flow_ratio => [(FmpRatios, "operatingCashFlowRatio")]
  | debt_to_equity =>
      [(Metric, "totalDebt/totalEquityQuarterly"); (FmpRatios, "debtToEquityRatio")]
  | debt_to_assets => [(FmpRatios, "debtToAssetsRatio")]
  | interest_coverage => [(FmpRatios, "interestCoverageRatio")]
  | revenue_growth => [(Metric, "revenueGrowthQuarterlyYoy"); (Metric, "revenueGrowth3Y")]
  | earnings_growth => [(Metric, "epsGrowthQuarterlyYoy"); (Metric, "epsGrowth3Y")]
  | book_value_growth => [(Metric, "bookValueShareGrowth5Y")]
  | earnings_per_share_growth => [(Metric, "epsGrowth5Y")]
  | free_cash_flow_growth => [(Metric, "freeCashFlowGrowth5Y")]
  | operating_income_growth => [(Metric, "ebitdaGrowth5Y")]
  | ebitda_growth => [(Metric, "ebitdaGrowth5Y")]
  | payout_ratio => [(Metric, "payoutRatioTTM"); (FmpRatios, "dividendPayoutRatio")]
  | earnings_per_share => [(Metric, "epsTTM"); (FmpRatios, "netIncomePerShare")]
  | book_value_per_share =>
      [(Metric, "bookValuePerShareQuarterly"); (FmpRatios, "bookValuePerShare")]
  | free_cash_flow_per_share =>
      [(Metric, "freeCashFlowPerShareTTM"); (FmpRatios, "freeCashFlowPerShare")]
  end.

(** [e1 or e2 or .. or en]: the first operand that is true, else the last
    one; operands after the chosen one are not evaluated. *)
Fixpoint or_chain (operands : list (res json)) : res json :=
  match operands with
  | [] => Ok JNull
  | [e] => e
  | e :: rest =>
      let? v := e in
      if Py.truthy v then Ok v else or_chain rest
  end.

Definition source_dict (metric fmp_ratios fmp_keymetrics : json) (s : source) : json :=
  match s with
  | Metric => metric
  | FmpRatios => fmp_ratios
  | FmpKeyMetrics => fmp_keymetrics
  end.

(** The expression passed for field [f]. *)
Definition finnhub_field (metric fmp_ratios fmp_keymetrics : json) (f : metric_field) : res json :=
  or_chain
    (map (fun c => Py.get (source_dict metric fmp_ratios fmp_keymetrics (fst c)) (snd c))
         (finnhub_candidates f)).

(** The keyword arguments are evaluated in order, then validated. *)
Fixpoint eval_fields (field : metric_field -> res json) (fs : list metric_field) : res unit :=
  match fs with
  | [] => Ok tt
  | f :: rest => let? _ := field f in eval_fields field rest
  end.

Fixpoint validate_fields (field : metric_field -> res json) (fs : list metric_field) : res unit :=
  match fs with
  | [] => Ok tt
  | f :: rest =>
      let? v := field f in
      let? _ := validate_float v in
      validate_fields field rest
  end.

Definition validated (r : res json) : option float :=
  match r with
  | Ok v => match validate_float v with Ok x => x | Err _ => None end
  | Err _ => None
  end.

(** [FinancialMetrics(ticker=.., report_period=.., .., market_cap=.., ..)] *)
Definition build_FinancialMetrics (ticker : string) (report_period period currency : res json)
    (market_cap : res json) (field : metric_field -> res json) : res FinancialMetrics :=
  let? report_period := report_period in
  let? period := period in
  let? currency := currency in
  let? market_cap := market_cap in
  let? _ := eval_fields field all_metric_fields in
  let? report_period := validate_str report_period in
  let? period := validate_str period in
  let? currency := validate_str currency in
  let? market_cap := validate_float market_cap in
  let? _ := validate_fields field all_metric_fields in
  Ok {| ticker := ticker; report_period := report_period; period := period;
        currency := currency; market_cap := market_cap;
        metric_value := fun f => validated (field f) |}.

(** [fmp_api_key and (metric.get("pegRatio") is None or ..)] *)
Definition needs_fmp (fmp_api_key : option string) (metric : json) : res bool :=
  match fmp_api_key with
  | None => Ok false
  | Some k =>
      if String.eqb k "" then Ok false
      else
        let? peg := Py.get metric "pegRatio" in
        if Py.is_none peg then Ok true
        else
          let? roic := Py.get metric "roicTTM" in
          if Py.is_none roic then Ok true
          else
            let? fcf := Py.get metric "freeCashFlowPerShareTTM" in
            Ok (Py.is_none fcf)
  end.

(** [data[0]] when the body is a non-empty list, else the [{}] the local
    started with. *)
Definition first_row (data : json) : json :=
  match data with
  | JList (x :: _) => x
  | _ => JDict []
  end.

Definition fmp_url (endpoint ticker fmp_api_key : string) : string :=
  "https://financialmodelingprep.com/stable/" +:+ endpoint +:+ "?symbol=" +:+ ticker
    +:+ "&apikey=" +:+ fmp_api_key.

(** The inner [try: .. except: pass] that fetches the supplement; the result
    is the pair of locals [fmp_ratios], [fmp_keymetrics] as the block leaves
    them. *)
Definition fetch_fmp_supplement (ticker fmp_api_key fmp_cache_key : string) : M (json * json) :=
  try_except
    (let* ratios_resp := requests_get (fmp_url "ratios" ticker fmp_api_key) [] [] (Some 5) in
     let* fmp_ratios :=
       (if status_code ratios_resp =? 200 then
          let* data := lift (response_json ratios_resp) in ret (first_row data)
        else ret (JDict [])) in
     try_except
       (let* km_resp :=
          requests_get (fmp_url "key-metrics" ticker fmp_api_key) [] [] (Some 5) in
        let* fmp_keymetrics :=
          (if status_code km_resp =? 200 then
             let* data := lift (response_json km_resp) in ret (first_row data)
           else ret (JDict [])) in
        let* _ :=
          (if Py.truthy fmp_ratios || Py.truthy fmp_keymetrics then
             _cache_set_financial_metrics fmp_cache_key
               [FmpSupplement fmp_ratios fmp_keymetrics]
           else ret tt) in
        ret (fmp_ratios, fmp_keymetrics))
       (fun _ => ret (fmp_ratios, JDict [])))
    (fun _ => ret (JDict [], JDict [])).

(** [cached_fmp[0].get("ratios", {})] and [.get("keymetrics", {})]: a dumped
    record has neither key. *)
Definition supplement_of_entry (e : MetricsEntry) : json * json :=
  match e with
  | FmpSupplement r k => (r, k)
  | MetricsDump _ => (JDict [], JDict [])
  end.

Definition _get_financial_metrics_finnhub (ticker end_date period : string) (limit : Z)
    : M (list FinancialMetrics) :=
  try_except
    (let* metrics_data :=
       _finnhub_request "stock/metric" [("symbol", ticker); ("metric", "all")] 3 in
     if negb (Py.truthy metrics_data) then ret []
     else
       let* metric := lift (Py.get_default metrics_data "metric" (JDict [])) in
       if negb (Py.truthy metric) then ret []
       else
         let* profile_data := _finnhub_request "stock/profile2" [("symbol", ticker)] 3 in
         let* market_cap :=
           lift (if Py.truthy profile_data then
                   let? v := Py.get_default profile_data "marketCapitalization" (JInt 0) in
                   Py.times_million v
                 else Ok JNull) in
         let* currency :=
           lift (if Py.truthy profile_data then
                   Py.get_default profile_data "currency" (JStr "USD")
                 else Ok (JStr "USD")) in
         let fmp_api_key := FMP_API_KEY in
         let* needs := lift (needs_fmp fmp_api_key metric) in
         let* supplement :=
           (match needs, fmp_api_key with
            | true, Some key =>
                let fmp_cache_key := "fmp_supplement_" +:+ ticker in
                let* cached_fmp := _cache_get_financial_metrics fmp_cache_key in
                match cache_hit cached_fmp with
                | Some (e :: _) => ret (supplement_of_entry e)
                | _ => fetch_fmp_supplement ticker key fmp_cache_key
                end
            | _, _ => ret (JDict [], JDict [])
            end) in
         let* metrics :=
           lift (build_FinancialMetrics ticker (Ok (JStr end_date)) (Ok (JStr period))
                   (Ok currency) (Ok market_cap)
                   (finnhub_field metric (fst supplement) (snd supplement))) in
         ret [metrics])
    (fun _ => ret []).

(** [_get_market_cap_finnhub] *)
Definition _get_market_cap_finnhub (ticker : string) : M json :=
  try_except
    (let* data := _finnhub_request "stock/profile2" [("symbol", ticker)] 3 in
     if Py.truthy data then
       let* mc := lift (Py.get data "marketCapitalization") in
       if Py.truthy mc then
         let* v := lift (Py.getitem data "marketCapitalization") in
         lift (Py.times_million v)
       else ret JNull
     else ret JNull)
    (fun _ => ret JNull).

(** *** Prices: the Finnhub and Yahoo adapters *)

(** The complement of the test [date_str < start_date or date_str > end_date]
    that makes both adapters skip a row. *)
Definition in_window (start_date end_date date_str : string) : bool :=
  negb (PyStr.lt date_str start_date || PyStr.lt end_date date_str).

(** [float(column[i])] *)
Definition float_at (column : json) (i : nat) : res float :=
  let? v := Py.index column i in py_float v.

(** [int(column[i])] *)
Definition int_at (column : json) (i : nat) : res Z :=
  let? v := Py.index column i in py_int v.

(** The [for i, ts in enumerate(timestamps)] loop of [_get_prices_finnhub],
    from row [i] on. *)
Fixpoint finnhub_rows (start_date end_date : string) (opens highs lows closes volumes : json)
    (i : nat) (timestamps : list json) : res (list Price) :=
  match timestamps with
  | [] => Ok []
  | ts :: rest =>
      let? date_str := fromtimestamp ts in
      if PyStr.lt date_str start_date || PyStr.lt end_date date_str then
        finnhub_rows start_date end_date opens highs lows closes volumes (S i) rest
      else
        let? o := float_at opens i in
        let? h := float_at highs i in
        let? l := float_at lows i in
        let? c := float_at closes i in
        let? v := int_at volumes i in
        let? prices := finnhub_rows start_date end_date opens highs lows closes volumes (S i) rest in
        Ok ({| open := o; high := h; low := l; close := c; volume := v; time := date_str |}
              :: prices)
  end.

Definition _get_prices_finnhub (ticker start_date end_date : string) : M (list Price) :=
  try_except
    (let* start_dt := lift (strptime start_date) in
     let* end_dt := lift (strptime end_date) in
     let start_ts := timestamp start_dt in
     let end_ts := timestamp end_dt + 86400 in
     let* data :=
       _finnhub_request "stock/candle"
         [("symbol", ticker); ("resolution", "D");
          ("from", PyStr.of_int start_ts); ("to", PyStr.of_int end_ts)] 3 in
     if negb (Py.truthy data) then ret []
     else
       let* s := lift (Py.get data "s") in
       if negb (Py.eq_str s "ok") then ret []
       else
         let* timestamps := lift (Py.get_default data "t" (JList [])) in
         let* opens := lift (Py.get_default data "o" (JList [])) in
         let* highs := lift (Py.get_default data "h" (JList [])) in
         let* lows := lift (Py.get_default data "l" (JList [])) in
         let* closes := lift (Py.get_default data "c" (JList [])) in
         let* volumes := lift (Py.get_default data "v" (JList [])) in
         if negb (Py.truthy timestamps) then ret []
         else
           let* items := lift (Py.iter timestamps) in
           lift (finnhub_rows start_date end_date opens highs lows closes volumes 0 items))
    (fun _ => ret []).

Definition YAHOO_USER_AGENT : string :=
  "Mozilla/5.0 (Macintosh; Intel Mac OS X 10_15_7) AppleWebKit/537.36".

(** The Yahoo [range] parameter for a span of [days_diff] days. *)
Definition yahoo_range (days_diff : Z) : string :=
  if days_diff <=? 5 then "5d"
  else if days_diff <=? 30 then "1mo"
  else if days_diff <=? 90 then "3mo"
  else if days_diff <=? 180 then "6mo"
  else if days_diff <=? 365 then "1y"
  else if days_diff <=? 730 then "2y"
  else "5y".

(** [any(quotes.get(k, [None])[i] is None for k in keys)] *)
Fixpoint any_none (quotes : json) (i : nat) (keys : list string) : res bool :=
  match keys with
  | [] => Ok false
  | k :: rest =>
      let? column := Py.get_default quotes k (JList [JNull]) in
      let? v := Py.index column i in
      if Py.is_none v then Ok true else any_none quotes i rest
  end.

(** [float(quotes[k][i])] and [int(quotes[k][i])] *)
Definition quote_float (quotes : json) (k : string) (i : nat) : res float :=
  let? column := Py.getitem quotes k in float_at column i.

Definition quote_int (quotes : json) (k : string) (i : nat) : res Z :=
  let? column := Py.getitem quotes k in int_at column i.

(** The [for i, ts in enumerate(timestamps)] loop of [_get_prices_yahoo]. *)
Fixpoint yahoo_rows (start_date end_date : string) (quotes : json)
    (i : nat) (timestamps : list json) : res (list Price) :=
  match timestamps with
  | [] => Ok []
  | ts :: rest =>
      let? date_str := fromtimestamp ts in
      if PyStr.lt date_str start_date || PyStr.lt end_date date_str then
        yahoo_rows start_date end_date quotes (S i) rest
      else
        let? skip := any_none quotes i ["open"; "high"; "low"; "close"; "volume"] in
        if skip then yahoo_rows start_date end_date quotes (S i) rest
        else
          let? o := quote_float quotes "open" i in
          let? h := quote_float quotes "high" i in
          let? l := quote_float quotes "low" i in
          let? c := quote_float quotes "close" i in
          let? v := quote_int quotes "volume" i in
          let? prices := yahoo_rows start_date end_date quotes (S i) rest in
          Ok ({| open := o; high := h; low := l; close := c; volume := v; time := date_str |}
                :: prices)
  end.

Definition _get_prices_yahoo (ticker start_date end_date : string) : M (list Price) :=
  try_except
    (let* start_dt := lift (strptime start_date) in
     let* end_dt := lift (strptime end_date) in
     let days_diff := end_dt - start_dt in
     let range_param := yahoo_range days_diff in
     let url :=
       "https://query1.finance.yahoo.com/v8/finance/chart/" +:+ ticker
         +:+ "?interval=1d&range=" +:+ range_param in
     let* response := requests_get url [] [("User-Agent", YAHOO_USER_AGENT)] (Some 10) in
     if negb (status_code response =? 200) then ret []
     else
       let* data := lift (response_json response) in
       let* chart := lift (Py.get_default data "chart" (JDict [])) in
       let* results := lift (Py.get chart "result") in
       if negb (Py.truthy results) then ret []
       else
         let* result :=
           lift (let? c := Py.getitem data "chart" in
                 let? r := Py.getitem c "result" in
                 Py.index r 0) in
         let* timestamps := lift (Py.get_default result "timestamp" (JList [])) in
         let* quotes :=
           lift (let? ind := Py.get_default result "indicators" (JDict []) in
                 let? q := Py.get_default ind "quote" (JList [JDict []]) in
                 Py.index q 0) in
         if negb (Py.truthy timestamps) || negb (Py.truthy quotes) then ret []
         else
           let* items := lift (Py.iter timestamps) in
           lift (yahoo_rows start_date end_date quotes 0 items))
    (fun _ => ret []).

(** *** [get_prices] *)

Definition prices_cache_key (ticker start_date end_date : string) : string :=
  ticker +:+ "_" +:+ start_date +:+ "_" +:+ end_date.

(** The part of [get_prices] after a cache miss: the Yahoo then Finnhub
    chain, and the write-through of a non-empty result. *)
Definition fetch_prices (cache_key ticker start_date end_date : string) : M (list Price) :=
  let* prices := _get_prices_yahoo ticker start_date end_date in
  let* prices :=
    (match prices with
     | [] => _get_prices_finnhub ticker start_date end_date
     | _ :: _ => ret prices
     end) in
  match prices with
  | [] => ret []
  | _ :: _ =>
      let* _ := _cache_set_prices cache_key prices in
      ret prices
  end.

Definition get_prices (ticker start_date end_date : string) (api_key : option string)
    : M (list Price) :=
  let cache_key := prices_cache_key ticker start_date end_date in
  let* cached := _cache_get_prices cache_key in
  match cache_hit cached with
  | Some cached_data => ret cached_data
  | None => fetch_prices cache_key ticker start_date end_date
  end.

(** *** Financial metrics: the FMP adapter and [get_financial_metrics] *)

(** [rows[i] if i < len(rows) and isinstance(rows, list) else {}] *)
Definition row_or_empty (rows : json) (i : nat) : res json :=
  let? n := Py.len rows in
  if (i <? n)%nat && Py.is_list rows then Py.index rows i else Ok (JDict []).

(** [(cur[k] - prev[k]) / abs(prev[k])] when both [prev.get(k)] and
    [cur.get(k)] are true, else [None]. *)
Definition fmp_growth (prev_inc inc : json) (k : string) : res json :=
  let? p := Py.get prev_inc k in
  if Py.truthy p then
    let? c := Py.get inc k in
    if Py.truthy c then growth c p else Ok JNull
  else Ok JNull.

(** The keyword arguments of the record built for one row of [ratios]. *)
Definition fmp_field (ratio km inc revenue_growth_v earnings_growth_v : json)
    (f : metric_field) : res json :=
  match f with
  | enterprise_value => Py.get km "enterpriseValue"
  | price_to_earnings_ratio => Py.get ratio "priceToEarningsRatio"
  | price_to_book_ratio => Py.get ratio "priceToBookRatio"
  | price_to_sales_ratio => Py.get ratio "priceToSalesRatio"
  | enterprise_value_to_ebitda_ratio => Py.get km "evToEBITDA"
  | enterprise_value_to_revenue_ratio => Py.get km "evToSales"
  | free_cash_flow_yield => Py.get km "freeCashFlowYield"
  | peg_ratio => Py.get ratio "priceToEarningsGrowthRatio"
  | gross_margin => Py.get ratio "grossProfitMargin"
  | operating_margin => Py.get ratio "operatingProfitMargin"
  | net_margin => Py.get ratio "netProfitMargin"
  | return_on_equity => Py.get km "returnOnEquity"
  | return_on_assets => Py.get km "returnOnAssets"
  | return_on_invested_capital => Py.get km "returnOnInvestedCapital"
  | asset_turnover => Py.get ratio "assetTurnover"
  | inventory_turnover => Py.get ratio "inventoryTurnover"
  | receivables_turnover => Py.get ratio "receivablesTurnover"
  | days_sales_outstanding => Py.get km "daysOfSalesOutstanding"
  | operating_cycle => Py.get km "operatingCycle"
  | working_capital_turnover => Py.get ratio "workingCapitalTurnoverRatio"
  | current_ratio => Py.get ratio "currentRatio"
  | quick_ratio => Py.get ratio "quickRatio"
  | cash_ratio => Py.get ratio "cashRatio"
  | operating_cash_flow_ratio => Py.get ratio "operatingCashFlowRatio"
  | debt_to_equity => Py.get ratio "debtToEquityRatio"
  | debt_to_assets => Py.get ratio "debtToAssetsRatio"
  | interest_coverage => Py.get ratio "interestCoverageRatio"
  | revenue_growth => Ok revenue_growth_v
  | earnings_growth => Ok earnings_growth_v
  | book_value_growth => Ok JNull
  | earnings_per_share_growth => Ok JNull
  | free_cash_flow_growth => Ok JNull
  | operating_income_growth => Ok JNull
  | ebitda_growth => Ok JNull
  | payout_ratio => Py.get ratio "dividendPayoutRatio"
  | earnings_per_share =>
      or_chain [Py.get ratio "netIncomePerShare";
                if Py.truthy inc then Py.get inc "eps" else Ok JNull]
  | book_value_per_share => Py.get ratio "bookValuePerShare"
  | free_cash_flow_per_share => Py.get ratio "freeCashFlowPerShare"
  end.

(** One pass of [for i, ratio in enumerate(ratios[:limit])]. *)
Definition fmp_record (ticker end_date period : string) (keymetrics income profile : json)
    (i : nat) (ratio : json) : res FinancialMetrics :=
  let? km := row_or_empty keymetrics i in
  let? inc := row_or_empty income i in
  let? prof :=
    (if Py.truthy profile && Py.is_list profile then Py.index profile 0 else Ok (JDict [])) in
  let? n := Py.len income in
  let? growths :=
    (if (i + 1 <? n)%nat && Py.is_list income then
       let? prev_inc := Py.index income (i + 1) in
       let? rg := fmp_growth prev_inc inc "revenue" in
       let? eg := fmp_growth prev_inc inc "netIncome" in
       Ok (rg, eg)
     else Ok (JNull, JNull)) in
  build_FinancialMetrics ticker
    (Py.get_default ratio "date" (JStr end_date))
    (if String.eqb period "ttm" then Py.get_default ratio "period" (JStr "FY")
     else Ok (JStr period))
    (Py.get_default prof "currency" (JStr "USD"))
    (or_chain [Py.get prof "marketCap"; Py.get km "marketCap"])
    (fmp_field ratio km inc (fst growths) (snd growths)).

Fixpoint fmp_records (ticker end_date period : string) (keymetrics income profile : json)
    (i : nat) (ratios : list json) : res (list FinancialMetrics) :=
  match ratios with
  | [] => Ok []
  | ratio :: rest =>
      let? metrics := fmp_record ticker end_date period keymetrics income profile i ratio in
      let? metrics_list := fmp_records ticker end_date period keymetrics income profile (S i) rest in
      Ok (metrics :: metrics_list)
  end.

(** [resp.status_code == 200 and ("Premium" in resp.text or "Special" in resp.text)] *)
Definition premium_only (resp : Response) : bool :=
  (status_code resp =? 200) &&
  (PyStr.contains "Premium" (text resp) || PyStr.contains "Special" (text resp)).

(** [resp.json() if resp.status_code == 200 else []] *)
Definition json_or_empty (resp : Response) : res json :=
  if status_code resp =? 200 then response_json resp else Ok (JList []).

Definition _get_financial_metrics_fmp (ticker end_date period : string) (limit : Z)
    : M (list FinancialMetrics) :=
  match FMP_API_KEY with
  | None => ret []
  | Some fmp_api_key =>
      if String.eqb fmp_api_key "" then ret []
      else
        try_except
          (let* ratios_resp :=
             requests_get (fmp_url "ratios" ticker fmp_api_key) [] [] (Some 10) in
           let* keymetrics_resp :=
             requests_get (fmp_url "key-metrics" ticker fmp_api_key) [] [] (Some 10) in
           let* income_resp :=
             requests_get (fmp_url "income-statement" ticker fmp_api_key) [] [] (Some 10) in
           let* profile_resp :=
             requests_get (fmp_url "profile" ticker fmp_api_key) [] [] (Some 10) in
           if premium_only ratios_resp || premium_only keymetrics_resp then ret []
           else
             let* ratios := lift (json_or_empty ratios_resp) in
             let* keymetrics := lift (json_or_empty keymetrics_resp) in
             let* income := lift (json_or_empty income_resp) in
             let* profile := lift (json_or_empty profile_resp) in
             match ratios with
             | JList (r :: rs) =>
                 lift (fmp_records ticker end_date period keymetrics income profile 0
                         (Py.slice_to limit (r :: rs)))
             | _ => ret []
             end)
          (fun _ => ret [])
  end.

Definition financial_metrics_cache_key (ticker period end_date : string) (limit : Z) : string :=
  ticker +:+ "_" +:+ period +:+ "_" +:+ end_date +:+ "_" +:+ PyStr.of_int limit.

(** The records rebuilt from the cached dumps, one per entry; an entry that
    is not a dumped record fails validation. *)
Fixpoint load_financial_metrics (entries : list MetricsEntry) : res (list FinancialMetrics) :=
  match entries with
  | [] => Ok []
  | MetricsDump m :: rest =>
      let? ms := load_financial_metrics rest in Ok (m :: ms)
  | FmpSupplement _ _ :: _ => Err ValidationError
  end.

(** The part of [get_financial_metrics] after a cache miss. *)
Definition fetch_financial_metrics (cache_key ticker end_date period : string) (limit : Z)
    : M (list FinancialMetrics) :=
  let* financial_metrics := _get_financial_metrics_finnhub ticker end_date period limit in
  let* financial_metrics :=
    (match financial_metrics with
     | [] => _get_financial_metrics_fmp ticker end_date period limit
     | _ :: _ => ret financial_metrics
     end) in
  match financial_metrics with
  | [] => ret []
  | _ :: _ =>
      let* _ := _cache_set_financial_metrics cache_key (map MetricsDump financial_metrics) in
      ret financial_metrics
  end.

Definition get_financial_metrics (ticker end_date period : string) (limit : Z)
    (api_key : option string) : M (list FinancialMetrics) :=
  let cache_key := financial_metrics_cache_key ticker period end_date limit in
  let* cached := _cache_get_financial_metrics cache_key in
  match cache_hit cached with
  | Some cached_data => lift (load_financial_metrics cached_data)
  | None => fetch_financial_metrics cache_key ticker end_date period limit
  end.

(** *** Line items *)

(** [headers = {}], plus [X-API-KEY] when [api_key or os.environ.get(..)] is
    true. *)
Definition financial_datasets_headers (api_key : option string) : list (string * string) :=
  let financial_api_key :=
    match api_key with
    | Some k => if String.eqb k "" then FINANCIAL_DATASETS_API_KEY else Some k
    | None => FINANCIAL_DATASETS_API_KEY
    end in
  match financial_api_key with
  | Some k => if String.eqb k "" then [] else [("X-API-KEY", k)]
  | None => []
  end.

Definition search_line_items (ticker : string) (line_items : list string) (end_date period : string)
    (limit : Z) (api_key : option string) : M (list LineItem) :=
  let headers := financial_datasets_headers api_key in
  let url := "https://api.financialdatasets.ai/financials/search/line-items" in
  let body :=
    JDict [("tickers", JList [JStr ticker]);
           ("line_items", JList (map JStr line_items));
           ("end_date", JStr end_date);
           ("period", JStr period);
           ("limit", JInt limit)] in
  let* response := _make_api_request url headers "POST" (Some body) 3 in
  let* status := status_of response in
  if negb (status =? 200) then ret []
  else
    match response with
    | None => raise AttributeError
    | Some r =>
        match (let? data := response_json r in LineItemResponse data) with
        | Err _ => ret []
        | Ok search_results =>
            match search_results with
            | [] => ret []
            | _ :: _ => ret (Py.slice_to limit search_results)
            end
        end
    end.

(** *** The paginated feeds

    [get_insider_trades] and [get_company_news] run the same [while True]
    loop; they differ in the page url, the response model and the date field
    of a record. *)

(** [start_date] is true: not [None] and not empty. *)
Definition given (start_date : option string) : option string :=
  match start_date with
  | Some s => if String.eqb s "" then None else Some s
  | None => None
  end.

(** [min(r.date for r in page).split("T")[0]] of a non-empty page. *)
Definition oldest_day {A} (date_of : A -> string) (first : A) (others : list A) : string :=
  PyStr.before "T" (PyStr.min_from (date_of first) (map date_of others)).

Section Feed.

Context {A : Type}.
Variable date_of : A -> string.
Variable response_model : json -> res (list A).
(** the url of the page that ends at a given [current_end_date] *)
Variable page_url : string -> string.
Variable headers : list (string * string).
Variable start_date : option string.
Variable limit : Z.

(** The [while True] loop, entered with the records gathered so far and the
    cursor; [fuel] bounds the number of passes. *)
Fixpoint feed_loop (fuel : nat) (all_records : list A) (current_end_date : string)
    : M (list A) :=
  match fuel with
  | O => diverge
  | S fuel' =>
      let url := page_url current_end_date in
      let* response := _make_api_request url headers "GET" None 3 in
      match response with
      | None => raise AttributeError
      | Some r =>
          if negb (status_code r =? 200) then ret all_records
          else
            match (let? data := response_json r in response_model data) with
            | Err _ => ret all_records
            | Ok [] => ret all_records
            | Ok (first :: others) =>
                let page := first :: others in
                let all_records := (all_records ++ page)%list in
                match given start_date with
                | None => ret all_records
                | Some start =>
                    if Z.of_nat (length page) <? limit then ret all_records
                    else
                      let current_end_date := oldest_day date_of first others in
                      if PyStr.le current_end_date start then ret all_records
                      else feed_loop fuel' all_records current_end_date
                end
            end
      end
  end.

End Feed.

Definition feed_cache_key (ticker : string) (start_date : option string) (end_date : string)
    (limit : Z) : string :=
  ticker +:+ "_" +:+ match given start_date with Some s => s | None => "none" end
    +:+ "_" +:+ end_date +:+ "_" +:+ PyStr.of_int limit.

(** [&filing_date_gte=..] or [&start_date=..], only when [start_date] is true. *)
Definition optional_param (name : string) (start_date : option string) : string :=
  match given start_date with
  | Some s => "&" +:+ name +:+ "=" +:+ s
  | None => ""
  end.

Definition insider_trades_url (ticker : string) (start_date : option string) (limit : Z)
    (current_end_date : string) : string :=
  "https://api.financialdatasets.ai/insider-trades/?ticker=" +:+ ticker
    +:+ "&filing_date_lte=" +:+ current_end_date
    +:+ optional_param "filing_date_gte" start_date
    +:+ "&limit=" +:+ PyStr.of_int limit.

(** The part of [get_insider_trades] after a cache miss. *)
Definition fetch_insider_trades (fuel : nat) (cache_key ticker end_date : string)
    (start_date : option string) (limit : Z) (api_key : option string)
    : M (list InsiderTrade) :=
  let headers := financial_datasets_headers api_key in
  let* all_trades :=
    feed_loop filing_date InsiderTradeResponse
      (insider_trades_url ticker start_date limit) headers start_date limit
      fuel [] end_date in
  match all_trades with
  | [] => ret []
  | _ :: _ =>
      let* _ := _cache_set_insider_trades cache_key all_trades in
      ret all_trades
  end.

Definition get_insider_trades (fuel : nat) (ticker end_date : string)
    (start_date : option string) (limit : Z) (api_key : option string)
    : M (list InsiderTrade) :=
  let cache_key := feed_cache_key ticker start_date end_date limit in
  let* cached := _cache_get_insider_trades cache_key in
  match cache_hit cached with
  | Some cached_data => ret cached_data
  | None => fetch_insider_trades fuel cache_key ticker end_date start_date limit api_key
  end.

Definition company_news_url (ticker : string) (start_date : option string) (limit : Z)
    (current_end_date : string) : string :=
  "https://api.financialdatasets.ai/news/?ticker=" +:+ ticker
    +:+ "&end_date=" +:+ current_end_date
    +:+ optional_param "start_date" start_date
    +:+ "&limit=" +:+ PyStr.of_int limit.

(** The part of [get_company_news] after a cache miss. *)
Definition fetch_company_news (fuel : nat) (cache_key ticker end_date : string)
    (start_date : option string) (limit : Z) (api_key : option string)
    : M (list CompanyNews) :=
  let headers := financial_datasets_headers api_key in
  let* all_news :=
    feed_loop date CompanyNewsResponse
      (company_news_url ticker start_date limit) headers start_date limit
      fuel [] end_date in
  match all_news with
  | [] => ret []
  | _ :: _ =>
      let* _ := _cache_set_company_news cache_key all_news in
      ret all_news
  end.

Definition get_company_news (fuel : nat) (ticker end_date : string)
    (start_date : option string) (limit : Z) (api_key : option string)
    : M (list CompanyNews) :=
  let cache_key := feed_cache_key ticker start_date end_date limit in
  let* cached := _cache_get_company_news cache_key in
  match cache_hit cached with
  | Some cached_data => ret cached_data
  | None => fetch_company_news fuel cache_key ticker end_date start_date limit api_key
  end.

(** *** Runs used to state the properties *)

(** [n] consecutive calls of [_get_next_finnhub_key], with what each
    returned. *)
Fixpoint acquire_keys (n : nat) : M (list string) :=
  match n with
  | O => ret []
  | S k =>
      let* key := _get_next_finnhub_key in
      let* keys := acquire_keys k in
      ret (key :: keys)
  end.

(** The request [_make_api_request] sends for a method. *)
Definition api_request (url : string) (headers : list (string * string)) (method : string)
    (json_data : option json) : Request :=
  if String.eqb (PyStr.upper method) "POST"
  then {| method := POST; url := url; params := []; headers := headers;
          json_data := json_data; timeout := None |}
  else {| method := GET; url := url; params := []; headers := headers;
          json_data := None; timeout := None |}.

(** *** Market capitalisation *)

(** [_get_market_cap_fmp] *)
Definition _get_market_cap_fmp (ticker : string) : M json :=
  match FMP_API_KEY with
  | None => ret JNull
  | Some fmp_api_key =>
      if String.eqb fmp_api_key "" then ret JNull
      else
        try_except
          (let* response :=
             requests_get (fmp_url "profile" ticker fmp_api_key) [] [] (Some 10) in
           if negb (status_code response =? 200) then ret JNull
           else
             let* data := lift (response_json response) in
             if Py.nonempty_list data then
               let* row := lift (Py.index data 0) in
               lift (Py.get row "marketCap")
             else ret JNull)
          (fun _ => ret JNull)
  end.

(** A [float | None] field of a record as a Python value. *)
Definition of_field (x : option float) : json :=
  match x with
  | Some f => JFloat f
  | None => JNull
  end.

(** [record.market_cap] *)
Definition market_cap_of (record : FinancialMetrics) : json := of_field (market_cap record).

(** [get_market_cap]: Finnhub's profile, then the first record of
    [get_financial_metrics] (default period and limit), then FMP's profile;
    each step runs only while the value so far is false. *)
Definition get_market_cap (ticker end_date : string) (api_key : option string) : M json :=
  let* market_cap := _get_market_cap_finnhub ticker in
  let* market_cap :=
    (if negb (Py.truthy market_cap) then
       let* financial_metrics := get_financial_metrics ticker end_date "ttm" 10 api_key in
       match financial_metrics with
       | first :: _ => ret (market_cap_of first)
       | [] => ret market_cap
       end
     else ret market_cap) in
  if negb (Py.truthy market_cap) then _get_market_cap_fmp ticker
  else ret market_cap.

(** *** The requests the module builds *)

(** The request of one attempt of [_finnhub_request] made with [key]. *)
Definition finnhub_call (endpoint : string) (params : list (string * string)) (key : string)
    : Request :=
  {| method := GET; url := "https://finnhub.io/api/v1" +:+ "/" +:+ endpoint;
     params := (params ++ [("token", key)])%list; headers := [];
     json_data := None; timeout := Some 10 |}.

(** The chart request of [_get_prices_yahoo]. *)
Definition yahoo_call (ticker range_param : string) : Request :=
  {| method := GET;
     url := "https://query1.finance.yahoo.com/v8/finance/chart/" +:+ ticker
              +:+ "?interval=1d&range=" +:+ range_param;
     params := []; headers := [("User-Agent", YAHOO_USER_AGENT)];
     json_data := None; timeout := Some 10 |}.

(** A request to an FMP endpoint. *)
Definition fmp_call (endpoint ticker fmp_api_key : string) (timeout : Z) : Request :=
  {| method := GET; url := fmp_url endpoint ticker fmp_api_key;
     params := []; headers := []; json_data := None; timeout := Some timeout |}.
End Api.

(** ** Sample surroundings

    A small interpreter stand-in (numbers, ISO dates, plain response models),
    environments and scripted providers, used to run the embedding. *)

Module Sample.

Definition is_digit (c : ascii) : bool :=
  let n := nat_of_ascii c in (48 <=? n)%nat && (n <=? 57)%nat.

Definition digit (c : ascii) : Z := Z.of_nat (nat_of_ascii c) - 48.

(** Days from 0001-01-01 (ordinal 1) of a civil date. *)
Definition ordinal (y m d : Z) : Z :=
  let y' := if m <=? 2 then y - 1 else y in
  let era := y' / 400 in
  let yoe := y' - era * 400 in
  let mp := (m + 9) mod 12 in
  let doy := (153 * mp + 2) / 5 + d - 1 in
  let doe := yoe * 365 + yoe / 4 - yoe / 100 + doy in
  era * 146097 + doe - 305.

(** Accepts exactly [YYYY-MM-DD]. *)
Definition iso_strptime (s : string) : res Z :=
  match list_ascii_of_string s with
  | [y1; y2; y3; y4; h1; m1; m2; h2; d1; d2] =>
      if forallb is_digit [y1; y2; y3; y4; m1; m2; d1; d2]
         && Ascii.eqb h1 "-" && Ascii.eqb h2 "-"
      then
        let y := 1000 * digit y1 + 100 * digit y2 + 10 * digit y3 + digit y4 in
        let m := 10 * digit m1 + digit m2 in
        let d := 10 * digit d1 + digit d2 in
        if (1 <=? m) && (m <=? 12) && (1 <=? d) && (d <=? 31) then Ok (ordinal y m d)
        else Err ValueError
      else Err ValueError
  | _ => Err ValueError
  end.

Definition two_digits (n : Z) : string :=
  if n <? 10 then "0" +:+ PyStr.of_int n else PyStr.of_int n.

Definition four_digits (n : Z) : string :=
  if n <? 10 then "000" +:+ PyStr.of_int n
  else if n <? 100 then "00" +:+ PyStr.of_int n
  else if n <? 1000 then "0" +:+ PyStr.of_int n
  else PyStr.of_int n.

(** The civil date of a day ordinal, as [YYYY-MM-DD]. *)
Definition iso_of_ordinal (n : Z) : string :=
  let z := n + 305 in
  let era := z / 146097 in
  let doe := z - era * 146097 in
  let yoe := (doe - doe / 1460 + doe / 36524 - doe / 146096) / 365 in
  let doy := doe - (365 * yoe + yoe / 4 - yoe / 100) in
  let mp := (5 * doy + 2) / 153 in
  let d := doy - (153 * mp + 2) / 5 + 1 in
  let m := if mp <? 10 then mp + 3 else mp - 9 in
  let y := yoe + era * 400 + (if m <=? 2 then 1 else 0) in
  four_digits y +:+ "-" +:+ two_digits m +:+ "-" +:+ two_digits d.

(** The epoch, 1970-01-01, is day 719163; the clock is UTC. *)
Definition utc_timestamp (day : Z) : Z := (day - 719163) * 86400.

Definition utc_fromtimestamp (ts : json) : res string :=
  match ts with
  | JInt n => Ok (iso_of_ordinal (n / 86400 + 719163))
  | _ => Err TypeError
  end.

Definition num_float (v : json) : res float :=
  match v with
  | JInt z => Ok (PyFloat.of_int z)
  | JFloat f => Ok f
  | JBool b => Ok (if b then one else zero)
  | _ => Err TypeError
  end.

Definition num_int (v : json) : res Z :=
  match v with
  | JInt z => Ok z
  | JBool b => Ok (if b then 1 else 0)
  | _ => Err TypeError
  end.

Definition field_float (v : json) : res (option float) :=
  match v with
  | JNull => Ok None
  | JInt z => Ok (Some (PyFloat.of_int z))
  | JFloat f => Ok (Some f)
  | _ => Err ValidationError
  end.

Definition field_str (v : json) : res string :=
  match v with
  | JStr s => Ok s
  | _ => Err ValidationError
  end.

Definition num_growth (a b : json) : res json :=
  let? x := num_float a in
  let? y := num_float b in
  if PrimFloat.eqb y zero then Err ZeroDivisionError
  else Ok (JFloat (PrimFloat.div (PrimFloat.sub x y) (PrimFloat.abs y))).

(** A record whose date is under [key]; the other fields are kept whole. *)
Definition dated {A} (mk : string -> json -> A) (key : string) (v : json) : res A :=
  match Py.get v key with
  | Ok (JStr d) => Ok (mk d v)
  | _ => Err ValidationError
  end.

Fixpoint each {A} (f : json -> res A) (l : list json) : res (list A) :=
  match l with
  | [] => Ok []
  | x :: r => let? a := f x in let? rest := each f r in Ok (a :: rest)
  end.

Definition listed {A} (key : string) (f : json -> res A) (data : json) : res (list A) :=
  match Py.get data key with
  | Ok (JList l) => each f l
  | _ => Err ValidationError
  end.

Definition lib : PyLib := {|
  py_float := num_float;
  py_int := num_int;
  validate_float := field_float;
  validate_str := field_str;
  strptime := iso_strptime;
  timestamp := utc_timestamp;
  fromtimestamp := utc_fromtimestamp;
  growth := num_growth;
  InsiderTradeResponse := listed "insider_trades" (dated Build_InsiderTrade "filing_date");
  CompanyNewsResponse := listed "news" (dated Build_CompanyNews "date");
  LineItemResponse := listed "search_results" (fun v => Ok (Build_LineItem v))
|}.

(** Three Finnhub keys, no FMP key, a Financial Datasets key. *)
Definition env : Environ := {|
  FINNHUB_KEYS := ["k1"; "k2"; "k3"];
  FMP_API_KEY := None;
  FINANCIAL_DATASETS_API_KEY := Some "fd"
|}.

Definition reply (status : Z) (v : json) : HttpResult :=
  Responded {| status_code := status; text := ""; body := Some v |}.

(** Every provider answers 500. *)
Definition all_down : Network := fun _ _ => reply 500 JNull.

(** Every request times out. *)
Definition unreachable : Network := fun _ _ => Failed RequestsTimeout.

(** Every connection fails. *)
Definition refused : Network := fun _ _ => Failed ConnectionError.

(** Yahoo's chart body for one trading day, 2024-01-07 (1704585600). *)
Definition yahoo_body : json :=
  JDict [("chart",
          JDict [("result",
                  JList [JDict [("timestamp", JList [JInt 1704585600]);
                                ("indicators",
                                 JDict [("quote",
                                         JList [JDict [("open", JList [JInt 10]);
                                                       ("high", JList [JInt 12]);
                                                       ("low", JList [JInt 9]);
                                                       ("close", JList [JInt 11]);
                                                       ("volume", JList [JInt 100])]])])]])])].

(** Every request is answered with that body. *)
Definition yahoo_up : Network := fun _ _ => reply 200 yahoo_body.

(** Every provider answers 429. *)
Definition throttled : Network := fun _ _ => reply 429 JNull.

Definition trade (day : string) : json := JDict [("filing_date", JStr day)].

(** The insider-trades endpoint answers every request with the same full
    page of two trades filed on 2024-01-05. *)
Definition stuck_feed : Network :=
  fun _ _ => reply 200 (JDict [("insider_trades", JList [trade "2024-01-05"; trade "2024-01-05"])]).

Definition news_item (day : string) : json := JDict [("date", JStr day)].

(** The same for the news endpoint. *)
Definition stuck_news : Network :=
  fun _ _ => reply 200 (JDict [("news", JList [news_item "2024-01-05"; news_item "2024-01-05"])]).

(** Finnhub alone: stock/metric answers with [metric], stock/profile2 with
    [profile], everything else is not found. *)
Definition finnhub_only (metric profile : json) : Network :=
  fun _ req =>
    if String.eqb (url req) "https://finnhub.io/api/v1/stock/metric" then
      reply 200 (JDict [("metric", metric)])
    else if String.eqb (url req) "https://finnhub.io/api/v1/stock/profile2" then
      reply 200 profile
    else reply 404 JNull.

(** A company with a normalized P/E of 0, a trailing P/E of 15 and no debt. *)
Definition zero_first_metric : json :=
  JDict [("peNormalizedAnnual", JInt 0); ("peTTM", JInt 15);
         ("totalDebt/totalEquityQuarterly", JInt 0);
         ("pegRatio", JInt 2); ("roicTTM", JInt 12);
         ("freeCashFlowPerShareTTM", JInt 3)].

Definition full_profile : json :=
  JDict [("marketCapitalization", JInt 3000); ("currency", JStr "USD")].

(** A profile without [marketCapitalization]. *)
Definition bare_profile : json :=
  JDict [("name", JStr "Acme Corp"); ("currency", JStr "USD")].

(** The first request is answered 429, every later one times out. *)
Definition throttled_then_unreachable : Network :=
  fun n _ => if Nat.eqb n 0 then reply 429 JNull else Failed RequestsTimeout.

(** The first request gets a full page of two trades filed on 2024-01-05,
    every later connection fails. *)
Definition page_then_refused : Network :=
  fun n _ =>
    if Nat.eqb n 0 then
      reply 200 (JDict [("insider_trades", JList [trade "2024-01-05"; trade "2024-01-05"])])
    else Failed ConnectionError.

(** A feed that pages: asked for the records up to 2024-01-08 it has one
    left, asked for anything else it answers a full page of two. *)
Definition paged_feed : Network :=
  fun _ req =>
    if PyStr.contains "filing_date_lte=2024-01-08&" (url req) then
      reply 200 (JDict [("insider_trades", JList [trade "2024-01-07"])])
    else
      reply 200 (JDict [("insider_trades", JList [trade "2024-01-09"; trade "2024-01-08"])]).

(** The same for the news endpoint. *)
Definition paged_news : Network :=
  fun _ req =>
    if PyStr.contains "end_date=2024-01-08&" (url req) then
      reply 200 (JDict [("news", JList [news_item "2024-01-07"])])
    else
      reply 200 (JDict [("news", JList [news_item "2024-01-09"; news_item "2024-01-08"])]).

(** A measure of cursors that the paged feeds lower. *)
Definition paged_rank (cursor : string) : nat :=
  if String.eqb cursor "2024-01-08" then 0%nat else 1%nat.

(** One vote each way. *)
Definition split_votes : list N8n.AgentResult :=
  [N8n.vote "BULLISH" one; N8n.vote "BEARISH" one].

(** The line-items search answers every request with three results. *)
Definition line_items_up : Network :=
  fun _ _ =>
    reply 200 (JDict [("search_results",
                       JList [JDict [("revenue", JInt 1)];
                              JDict [("revenue", JInt 2)];
                              JDict [("revenue", JInt 3)]])]).

(** The same results under another agent name, in lower case, with a
    reasoning. *)
Definition split_votes_lower : list N8n.AgentResult :=
  [ {| N8n.agent := "b"; N8n.agent_display_name := "B"; N8n.signal := "bullish";
       N8n.confidence := one; N8n.reasoning := Some "momentum" |};
    {| N8n.agent := "c"; N8n.agent_display_name := "C"; N8n.signal := "Bearish";
       N8n.confidence := one; N8n.reasoning := None |} ].

End Sample.

(** ** The specification's own formulas *)

(** The linear backoff schedule: [base + step * i] for attempt index [i]. *)
Definition linear_backoff (base step : Z) (i : nat) : Z := base + step * Z.of_nat i.

(** ** Predicates on computations and worlds *)

Section Predicates.

Context {env : Environ} {lib : PyLib} {net : Network}.

(** The key handed out when the counter stands at [i]. *)
Definition key_at (i : Z) : option string :=
  FINNHUB_KEYS !! Z.to_nat (i mod Z.of_nat (length FINNHUB_KEYS)).

(** [preserves R m]: whatever [m] does, the world it ends in is related by
    [R] to the one it started from. *)
Definition preserves {A} (R : World -> World -> Prop) (m : M A) : Prop :=
  forall w, R w (snd (m w)).

(** Relations that logging a request, sleeping and advancing the key index
    respect. *)
Class Frame (R : World -> World -> Prop) : Prop := {
  frame_refl w : R w w;
  frame_trans w1 w2 w3 : R w1 w2 -> R w2 w3 -> R w1 w3;
  frame_log_request r w : R w (log_request r w);
  frame_log_sleep d w : R w (log_sleep d w);
  frame_set_key_index i w : R w (set_key_index i w)
}.

(** [m] never runs out of fuel. *)
Definition total {A} (m : M A) : Prop := forall w, fst (m w) <> OutOfFuel.

(** [m] returns a value from every world: it neither raises nor diverges. *)
Definition always_returns {A} (m : M A) : Prop :=
  forall w, exists a, fst (m w) = Returns a.

(** The four caches are as they were. *)
Definition same_caches (w w' : World) : Prop :=
  prices_cache w' = prices_cache w
  /\ financial_metrics_cache w' = financial_metrics_cache w
  /\ insider_trades_cache w' = insider_trades_cache w
  /\ company_news_cache w' = company_news_cache w.

(** The caches are as they were, except perhaps the financial-metrics entry
    under [key]. *)
Definition same_caches_but (key : string) (w w' : World) : Prop :=
  prices_cache w' = prices_cache w
  /\ (forall k, k <> key -> financial_metrics_cache w' !! k = financial_metrics_cache w !! k)
  /\ insider_trades_cache w' = insider_trades_cache w
  /\ company_news_cache w' = company_news_cache w.

(** No request is taken back: the log can only grow. *)
Definition log_le (w w' : World) : Prop :=
  (length (http_log w) <= length (http_log w'))%nat.

(** [m] sends at least one request, whatever the world. *)
Definition sends {A} (m : M A) : Prop :=
  forall w, (length (http_log w) < length (http_log (snd (m w))))%nat.

(** Whatever value [m] returns satisfies [P]. *)
Definition yields {A} (P : A -> Prop) (m : M A) : Prop :=
  forall w a w', m w = (Returns a, w') -> P a.

(** Every record of [prices] is dated within [start_date .. end_date] under
    string comparison. *)
Definition within_window (start_date end_date : string) (prices : list Price) : Prop :=
  Forall (fun p => PyStr.le start_date (time p) = true /\ PyStr.le (time p) end_date = true)
         prices.

Definition no_underscore (s : string) : Prop := PyStr.count "_" s = O.

(** Each prices entry keeps to the window its key was built from, for any
    reading of the key as ticker and two dates free of underscores. *)
Definition prices_cache_windowed (w : World) : Prop :=
  forall ticker start_date end_date prices,
    no_underscore start_date -> no_underscore end_date ->
    prices_cache w !! prices_cache_key ticker start_date end_date = Some prices ->
    within_window start_date end_date prices.

(** The prices cache is as it was. *)
Definition same_prices_cache (w w' : World) : Prop :=
  prices_cache w' = prices_cache w.

(** The worlds a process can be in: it starts fresh and changes only through
    calls of the module's functions, the public getters and the helpers
    behind them. ([get_price_data] acts on the world as [get_prices] does.) *)
Inductive reachable : World -> Prop :=
| reachable_initial : reachable initial_world
| reachable_get_prices ticker start_date end_date api_key w :
    reachable w ->
    reachable (snd (get_prices ticker start_date end_date api_key w))
| reachable_get_financial_metrics ticker end_date period limit api_key w :
    reachable w ->
    reachable (snd (get_financial_metrics ticker end_date period limit api_key w))
| reachable_search_line_items ticker line_items end_date period limit api_key w :
    reachable w ->
    reachable (snd (search_line_items ticker line_items end_date period limit api_key w))
| reachable_get_insider_trades fuel ticker end_date start_date limit api_key w :
    reachable w ->
    reachable (snd (get_insider_trades fuel ticker end_date start_date limit api_key w))
| reachable_get_company_news fuel ticker end_date start_date limit api_key w :
    reachable w ->
    reachable (snd (get_company_news fuel ticker end_date start_date limit api_key w))
| reachable_get_market_cap ticker end_date api_key w :
    reachable w ->
    reachable (snd (get_market_cap ticker end_date api_key w))
| reachable_get_market_cap_finnhub ticker w :
    reachable w ->
    reachable (snd (_get_market_cap_finnhub ticker w))
| reachable_get_market_cap_fmp ticker w :
    reachable w ->
    reachable (snd (_get_market_cap_fmp ticker w))
| reachable_get_prices_finnhub ticker start_date end_date w :
    reachable w ->
    reachable (snd (_get_prices_finnhub ticker start_date end_date w))
| reachable_get_prices_yahoo ticker start_date end_date w :
    reachable w ->
    reachable (snd (_get_prices_yahoo ticker start_date end_date w))
| reachable_get_financial_metrics_finnhub ticker end_date period limit w :
    reachable w ->
    reachable (snd (_get_financial_metrics_finnhub ticker end_date period limit w))
| reachable_get_financial_metrics_fmp ticker end_date period limit w :
    reachable w ->
    reachable (snd (_get_financial_metrics_fmp ticker end_date period limit w))
| reachable_finnhub_request endpoint params max_retries w :
    reachable w ->
    reachable (snd (_finnhub_request endpoint params max_retries w))
| reachable_get_next_finnhub_key w :
    reachable w ->
    reachable (snd (_get_next_finnhub_key w))
| reachable_make_api_request url headers method json_data max_retries w :
    reachable w ->
    reachable (snd (_make_api_request url headers method json_data max_retries w)).

(** [feed_reaches .. n all_records cursor w all_records' cursor' w']: entered
    with [all_records], [cursor] and the world [w], the [while True] loop of
    a feed comes, after [n] passes that each got a full page dated after
    [start_date], to a pass entered with [all_records'], [cursor'] and
    [w']. *)
Inductive feed_reaches {A} (date_of : A -> string) (response_model : json -> res (list A))
    (page_url : string -> string) (headers : list (string * string))
    (start_date : option string) (limit : Z)
    : nat -> list A -> string -> World -> list A -> string -> World -> Prop :=
| feed_reaches_here all_records cursor w :
    feed_reaches date_of response_model page_url headers start_date limit
      0 all_records cursor w all_records cursor w
| feed_reaches_next n all_records cursor w all_records' cursor' w' r w1 first others start :
    feed_reaches date_of response_model page_url headers start_date limit
      n all_records cursor w all_records' cursor' w' ->
    _make_api_request (page_url cursor') headers "GET" None 3 w' = (Returns (Some r), w1) ->
    status_code r = 200 ->
    (let? data := response_json r in response_model data) = Ok (first :: others) ->
    given start_date = Some start ->
    limit <= Z.of_nat (length (first :: others)) ->
    PyStr.le (oldest_day date_of first others) start = false ->
    feed_reaches date_of response_model page_url headers start_date limit
      (S n) all_records cursor w
      (all_records' ++ first :: others)%list (oldest_day date_of first others) w1.

End Predicates.

(** ** Predicates on the traffic *)

Section Traffic.

Context {env : Environ} {lib : PyLib} {net : Network}.

(** The providers the module talks to. *)
Inductive provider := Finnhub | Yahoo | Fmp | FinancialDatasets.

(** [addressed p r]: [r] is a request to provider [p] as the module builds
    them: to Finnhub with a key of the pool as [token], to Yahoo's chart
    endpoint, to FMP with the configured key in the url, to Financial
    Datasets with the headers of [_make_api_request]'s callers. *)
Inductive addressed : provider -> Request -> Prop :=
| to_finnhub endpoint params key :
    key ∈ FINNHUB_KEYS -> addressed Finnhub (finnhub_call endpoint params key)
| to_yahoo ticker range_param : addressed Yahoo (yahoo_call ticker range_param)
| to_fmp endpoint ticker fmp_api_key timeout :
    FMP_API_KEY = Some fmp_api_key ->
    addressed Fmp (fmp_call endpoint ticker fmp_api_key timeout)
| to_financial_datasets path api_key method json_data :
    addressed FinancialDatasets
      (api_request ("https://api.financialdatasets.ai/" +:+ path)
         (financial_datasets_headers api_key) method json_data).

(** A request to one of the providers in [allowed]. *)
Definition routed (allowed : list provider) (r : Request) : Prop :=
  exists p, p ∈ allowed /\ addressed p r.

(** From [w] to [w'] the request log grew by requests that all satisfy [P],
    and, unless [rotates], the key index stayed where it was. *)
Definition traffic (P : Request -> Prop) (rotates : bool) (w w' : World) : Prop :=
  (exists sent, http_log w' = (sent ++ http_log w)%list /\ Forall P sent)
  /\ (rotates = false -> _finnhub_key_index w' = _finnhub_key_index w).

(** The key index, the request log and the sleep log are as they were. *)
Definition quiet (w w' : World) : Prop :=
  _finnhub_key_index w' = _finnhub_key_index w
  /\ http_log w' = http_log w
  /\ sleep_log w' = sleep_log w.

(** Nothing happened: the world is the one before. *)
Definition unchanged (w w' : World) : Prop := w' = w.

End Traffic.

(** * Properties *)

Section Properties.

Context {env : Environ} {lib : PyLib} {net : Network}.

(** ** The monad *)

Lemma bind_returns {A B} (m : M A) (k : A -> M B) w a w' :
  m w = (Returns a, w') -> bind m k w = k a w'.
Proof. intros H. unfold bind. by rewrite H. Qed.

Lemma bind_raises {A B} (m : M A) (k : A -> M B) w e w' :
  m w = (Raises e, w') -> bind m k w = (Raises e, w').
Proof. intros H. unfold bind. by rewrite H. Qed.

Lemma bind_out_of_fuel {A B} (m : M A) (k : A -> M B) w w' :
  m w = (OutOfFuel, w') -> bind m k w = (OutOfFuel, w').
Proof. intros H. unfold bind. by rewrite H. Qed.

(** ** Key rotation *)


Lemma key_at_is_Some i : FINNHUB_KEYS <> [] -> is_Some (key_at i).
Proof.
  intros Hne. unfold key_at. apply lookup_lt_is_Some.
  assert (0 < Z.of_nat (length FINNHUB_KEYS)) by (destruct FINNHUB_KEYS; [done | simpl; lia]).
  pose proof (Z.mod_pos_bound i _ H). lia.
Qed.

Lemma next_key_step w key :
  key_at (_finnhub_key_index w) = Some key ->
  FINNHUB_KEYS <> [] ->
  _get_next_finnhub_key w = (Returns key, set_key_index (_finnhub_key_index w + 1) w).
Proof.
  intros Hk Hne. unfold _get_next_finnhub_key, key_at in *.
  destruct (Z.eqb_spec (Z.of_nat (length FINNHUB_KEYS)) 0) as [H0 | _].
  - destruct FINNHUB_KEYS; [done | simpl in H0; lia].
  - by rewrite Hk.
Qed.

Lemma set_key_index_twice i j w : set_key_index j (set_key_index i w) = set_key_index j w.
Proof. reflexivity. Qed.

Lemma acquire_keys_run n w :
  FINNHUB_KEYS <> [] ->
  exists keys,
    acquire_keys n w
      = (Returns keys, if n is O then w else set_key_index (_finnhub_key_index w + Z.of_nat n) w)
    /\ length keys = n
    /\ forall k, (k < n)%nat -> keys !! k = key_at (_finnhub_key_index w + Z.of_nat k).
Proof.
  intros Hne. revert w. induction n as [| n IH]; intros w.
  - exists []. split; [done | split; [done | intros k Hk; lia]].
  - destruct (key_at_is_Some (_finnhub_key_index w) Hne) as [key Hkey].
    destruct (IH (set_key_index (_finnhub_key_index w + 1) w)) as (keys & Hrun & Hlen & Hks).
    exists (key :: keys). split; [| split].
    + cbn [acquire_keys]. erewrite bind_returns by (by apply next_key_step).
      erewrite bind_returns by exact Hrun.
      unfold ret. f_equal. destruct n; cbn.
      * f_equal. 
      * rewrite set_key_index_twice. f_equal. lia.
    + simpl. by rewrite Hlen.
    + intros [| k] Hk.
      * simpl. rewrite Z.add_0_r. done.
      * simpl. rewrite Hks by lia. cbn. f_equal. lia.
Qed.

(** C5. For a rotation pool of N credentials and any counter value, N+1
    consecutive calls of [_get_next_finnhub_key] succeed; the call number k
    (from 0) returns the pool entry at (counter + k) mod N and the counter
    ends N+1 higher; the first N results are the pool rotated to start at
    counter mod N, so they are N distinct credentials when the pool's are
    distinct; the (N+1)th result is the first again. *)
Theorem key_rotation_round_robin (w : World) :
  FINNHUB_KEYS <> [] ->
  let N := length FINNHUB_KEYS in
  let c := _finnhub_key_index w in
  exists keys w',
    acquire_keys (S N) w = (Returns keys, w')
    /\ _finnhub_key_index w' = c + Z.of_nat (S N)
    /\ (forall k, (k <= N)%nat ->
          keys !! k = FINNHUB_KEYS !! Z.to_nat ((c + Z.of_nat k) mod Z.of_nat N))
    /\ take N keys = rotate (Z.to_nat (c mod Z.of_nat N)) FINNHUB_KEYS
    /\ keys !! N = keys !! O
    /\ (NoDup FINNHUB_KEYS -> NoDup (take N keys)).
Proof.
  intros Hne N c.
  assert (HN : 0 < Z.of_nat N) by (subst N; destruct FINNHUB_KEYS; [done | simpl; lia]).
  destruct (acquire_keys_run (S N) w Hne) as (keys & Hrun & Hlen & Hks).
  assert (Hrot : take N keys = rotate (Z.to_nat (c mod Z.of_nat N)) FINNHUB_KEYS).
  { apply list_eq. intros i.
    destruct (decide (i < N)%nat) as [Hi | Hi].
    - rewrite lookup_take_lt by lia. rewrite Hks by lia.
      rewrite lookup_rotate_r by (subst N; lia).
      unfold key_at, rotate_nat_add. fold N. fold c. do 2 f_equal.
      rewrite Z2Nat.id by (pose proof (Z.mod_pos_bound c _ HN); lia).
      by rewrite Zplus_mod_idemp_l.
    - rewrite !lookup_ge_None_2; [done | |].
      + rewrite length_rotate. subst N. lia.
      + rewrite length_take. lia. }
  exists keys, (set_key_index (c + Z.of_nat (S N)) w).
  split; [exact Hrun |]. split; [done |]. split; [| split; [exact Hrot | split]].
  - intros k Hk. by rewrite Hks by lia.
  - rewrite !Hks by lia. unfold key_at. fold N. fold c. do 2 f_equal.
    rewrite Z.add_0_r. replace (c + Z.of_nat N) with (c + 1 * Z.of_nat N) by lia.
    by rewrite Z_mod_plus_full.
  - intros Hnd. rewrite Hrot. unfold rotate.
    rewrite Permutation_app_comm, take_drop. exact Hnd.
Qed.

(** ** The linear-backoff executor *)

Lemma api_send url headers method json_data :
  (if String.eqb (PyStr.upper method) "POST"
   then requests_post url headers json_data
   else requests_get url [] headers None)
  = send (api_request url headers method json_data).
Proof. unfold api_request. by destruct (String.eqb _ _). Qed.

Lemma send_responded req w r :
  http (length (http_log w)) req = Responded r ->
  send req w = (Returns r, log_request req w).
Proof. intros H. unfold send. by rewrite H. Qed.

Lemma send_failed req w e :
  http (length (http_log w)) req = Failed e ->
  send req w = (Raises e, log_request req w).
Proof. intros H. unfold send. by rewrite H. Qed.

Lemma make_api_attempts_run url headers method json_data max_retries (k : nat) :
  forall remaining attempt w r,
    (k < remaining)%nat ->
    attempt + Z.of_nat k <= max_retries ->
    (forall i, (i < k)%nat ->
       exists ri, http (length (http_log w) + i) (api_request url headers method json_data)
                    = Responded ri /\ status_code ri = 429) ->
    http (length (http_log w) + k) (api_request url headers method json_data) = Responded r ->
    (status_code r <> 429 \/ attempt + Z.of_nat k = max_retries) ->
    exists w',
      _make_api_attempts remaining attempt url headers method json_data max_retries w
        = (Returns (Some r), w')
      /\ sleep_log w'
         = (rev (map (fun i => 60 + 30 * (attempt + Z.of_nat i)) (seq 0 k)) ++ sleep_log w)%list
      /\ length (http_log w') = (length (http_log w) + S k)%nat.
Proof.
  induction k as [| k IH]; intros remaining attempt w r Hrem Hatt H429 Hlast Hstop.
  - destruct remaining as [| remaining']; [lia |].
    cbn [_make_api_attempts]. rewrite api_send.
    rewrite Nat.add_0_r in Hlast.
    erewrite bind_returns by (by apply send_responded).
    assert ((status_code r =? 429) && (attempt <? max_retries) = false) as ->.
    { apply andb_false_iff. destruct Hstop as [Hs | Hm].
      - left. by apply Z.eqb_neq.
      - right. apply Z.ltb_ge. lia. }
    eexists. split; [reflexivity |]. split; [done | simpl; lia].
  - destruct remaining as [| remaining']; [lia |].
    destruct (H429 O ltac:(lia)) as (r0 & Hr0 & Hs0).
    rewrite Nat.add_0_r in Hr0.
    cbn [_make_api_attempts]. rewrite api_send.
    erewrite bind_returns by (by apply send_responded).
    assert ((status_code r0 =? 429) && (attempt <? max_retries) = true) as ->.
    { apply andb_true_iff. split; [by apply Z.eqb_eq | apply Z.ltb_lt; lia]. }
    unfold time_sleep at 1.
    erewrite bind_returns by reflexivity.
    set (w1 := log_sleep _ _).
    destruct (IH remaining' (attempt + 1) w1 r) as (w' & Hrun & Hsl & Hlog).
    + lia.
    + lia.
    + intros i Hi. destruct (H429 (S i) ltac:(lia)) as (ri & Hri & Hsi).
      exists ri. split; [| done]. subst w1. cbn. by rewrite <- Nat.add_succ_r.
    + subst w1. cbn. by rewrite <- Nat.add_succ_r.
    + destruct Hstop; [by left | right; lia].
    + exists w'. split; [exact Hrun |]. split.
      * rewrite Hsl. subst w1. cbn [sleep_log log_sleep log_request].
        cbn [seq map rev]. rewrite <- seq_shift, map_map.
        rewrite <- app_assoc. cbn [app]. rewrite Z.add_0_r.
        do 2 f_equal. apply map_ext. intros i. lia.
      * rewrite Hlog. subst w1. cbn. lia.
Qed.

(** C6. In [_make_api_request], when the first k answers are 429 (k at most
    [max_retries]) and the next one is either not a 429 or the answer to the
    final attempt, the executor sleeps exactly k times, the i-th sleep (from
    0) lasting 60 + 30*i, sends k+1 requests and returns that last answer,
    a final 429 included; the delays never decrease from one attempt to the
    next. *)
Theorem linear_backoff_schedule (url : string) (headers : list (string * string))
    (method : string) (json_data : option json) (max_retries : Z) (k : nat)
    (w : World) (r : Response) :
  Z.of_nat k <= max_retries ->
  (forall i, (i < k)%nat ->
     exists ri, http (length (http_log w) + i) (api_request url headers method json_data)
                  = Responded ri /\ status_code ri = 429) ->
  http (length (http_log w) + k) (api_request url headers method json_data) = Responded r ->
  (status_code r <> 429 \/ Z.of_nat k = max_retries) ->
  exists w',
    _make_api_request url headers method json_data max_retries w = (Returns (Some r), w')
    /\ rev (take k (sleep_log w')) = map (linear_backoff 60 30) (seq 0 k)
    /\ sleep_log w' = (take k (sleep_log w') ++ sleep_log w)%list
    /\ length (http_log w') = (length (http_log w) + S k)%nat
    /\ (forall i j, (i <= j)%nat -> linear_backoff 60 30 i <= linear_backoff 60 30 j).
Proof.
  intros Hk H429 Hlast Hstop.
  destruct (make_api_attempts_run url headers method json_data max_retries k
              (Z.to_nat (max_retries + 1)) 0 w r) as (w' & Hrun & Hsl & Hlog);
    [lia | lia | done | done | (destruct Hstop; [by left | right; lia]) |].
  exists w'. split; [exact Hrun |].
  assert (Hlen : length (rev (map (fun i => 60 + 30 * (0 + Z.of_nat i)) (seq 0 k))) = k)
    by (by rewrite length_rev, length_map, length_seq).
  assert (Htake : take k (sleep_log w')
                  = rev (map (fun i => 60 + 30 * (0 + Z.of_nat i)) (seq 0 k))).
  { rewrite Hsl. rewrite take_app_length'; done. }
  split; [| split; [| split]].
  - rewrite Htake, rev_involutive. apply map_ext. intros i. unfold linear_backoff. lia.
  - by rewrite Htake.
  - exact Hlog.
  - intros i j Hij. unfold linear_backoff. lia.
Qed.

(** ** Signal aggregation *)

Lemma aggregate_signals_cases (py_sum : list float -> float) (r : N8n.AgentResult)
    (rs : list N8n.AgentResult) :
  let results := r :: rs in
  let bullish := N8n.signal_count "BULLISH" results in
  let bearish := N8n.signal_count "BEARISH" results in
  let neutral := N8n.signal_count "NEUTRAL" results in
  (bearish < bullish /\ neutral < bullish
   /\ N8n.aggregate_signals py_sum results
      = ("BULLISH", N8n.weighted_confidence py_sum bullish results))
  \/ (~ (bearish < bullish /\ neutral < bullish)
      /\ bullish < bearish /\ neutral < bearish
      /\ N8n.aggregate_signals py_sum results
         = ("BEARISH", N8n.weighted_confidence py_sum bearish results))
  \/ (~ (bearish < bullish /\ neutral < bullish)
      /\ ~ (bullish < bearish /\ neutral < bearish)
      /\ N8n.aggregate_signals py_sum results
         = ("NEUTRAL",
            N8n.weighted_confidence py_sum (Z.max neutral (Z.min bullish bearish)) results)).
Proof.
  intros results bullish bearish neutral.
  unfold N8n.aggregate_signals, N8n.weighted_confidence.
  fold results. fold bullish bearish neutral. cbv zeta.
  destruct ((bearish <? bullish) && (neutral <? bullish)) eqn:Hb.
  - left. apply andb_true_iff in Hb as [H1 H2].
    apply Z.ltb_lt in H1, H2. done.
  - apply andb_false_iff in Hb.
    destruct ((bullish <? bearish) && (neutral <? bearish)) eqn:Hr.
    + right. left. apply andb_true_iff in Hr as [H1 H2].
      apply Z.ltb_lt in H1, H2. split; [| done].
      intros [? ?]. destruct Hb as [Hb | Hb]; apply Z.ltb_ge in Hb; lia.
    + right. right. apply andb_false_iff in Hr. split; [| split; [| done]].
      * intros [? ?]. destruct Hb as [Hb | Hb]; apply Z.ltb_ge in Hb; lia.
      * intros [? ?]. destruct Hr as [Hr | Hr]; apply Z.ltb_ge in Hr; lia.
Qed.

(** C10 (as amended). [aggregate_signals] returns ("NEUTRAL", 0.0) for an
    empty list. For a non-empty list it returns "BULLISH" exactly when the
    bullish count exceeds both the bearish and the neutral count, "BEARISH"
    exactly when the bearish count exceeds both others, and "NEUTRAL"
    otherwise; the confidence is round(mean_confidence * (c / total), 2),
    where c is the bullish count for "BULLISH", the bearish count for
    "BEARISH", and max(neutral, min(bullish, bearish)) for "NEUTRAL". *)
Theorem aggregate_signals_majority (py_sum : list float -> float) (r : N8n.AgentResult)
    (rs : list N8n.AgentResult) :
  let results := r :: rs in
  let bullish := N8n.signal_count "BULLISH" results in
  let bearish := N8n.signal_count "BEARISH" results in
  let neutral := N8n.signal_count "NEUTRAL" results in
  let out := N8n.aggregate_signals py_sum results in
  N8n.aggregate_signals py_sum [] = ("NEUTRAL", zero)
  /\ (fst out = "BULLISH" <-> bearish < bullish /\ neutral < bullish)
  /\ (fst out = "BEARISH" <-> bullish < bearish /\ neutral < bearish)
  /\ (fst out = "BULLISH" \/ fst out = "BEARISH" \/ fst out = "NEUTRAL")
  /\ (fst out = "BULLISH" -> snd out = N8n.weighted_confidence py_sum bullish results)
  /\ (fst out = "BEARISH" -> snd out = N8n.weighted_confidence py_sum bearish results)
  /\ (fst out = "NEUTRAL" ->
      snd out
      = N8n.weighted_confidence py_sum (Z.max neutral (Z.min bullish bearish)) results).
Proof.
  cbv zeta. split; [reflexivity |].
  pose proof (aggregate_signals_cases py_sum r rs) as H. cbv zeta in H.
  destruct H as [(H1 & H2 & Hout) | [(Hn & H1 & H2 & Hout) | (Hn1 & Hn2 & Hout)]];
    rewrite Hout; cbn [fst snd].
  - repeat split; try done; try (intros [? ?]; lia); auto.
  - repeat split; try done; try (intros [? ?]; lia); auto.
  - repeat split; try done; auto.
Qed.

(** ** What a computation leaves alone

    [preserves R m]: whatever [m] does, the world it ends in is related by
    [R] to the one it started from. For a preorder [R] this composes along
    [bind] and [try_except], so it follows the shape of the code. *)



Create HintDb frame.

Section Preserves.

Context (R : World -> World -> Prop) `{!Frame R}.

Lemma preserves_ret {A} (a : A) : preserves R (ret a).
Proof. intros w. apply frame_refl. Qed.

Lemma preserves_raise {A} e : preserves R (@raise A e).
Proof. intros w. apply frame_refl. Qed.

Lemma preserves_diverge {A} : preserves R (@diverge A).
Proof. intros w. apply frame_refl. Qed.

Lemma preserves_lift {A} (r : res A) : preserves R (lift r).
Proof. destruct r; [apply preserves_ret | apply preserves_raise]. Qed.

Lemma preserves_bind {A B} (m : M A) (k : A -> M B) :
  preserves R m -> (forall a, preserves R (k a)) -> preserves R (bind m k).
Proof.
  intros Hm Hk w. unfold bind. specialize (Hm w).
  destruct (m w) as [[a | e |] w1]; cbn in *; [| done | done].
  eapply frame_trans; [exact Hm | apply Hk].
Qed.

Lemma preserves_try {A} (m : M A) (h : exn -> M A) :
  preserves R m -> (forall e, preserves R (h e)) -> preserves R (try_except m h).
Proof.
  intros Hm Hh w. unfold try_except. specialize (Hm w).
  destruct (m w) as [[a | e |] w1]; cbn in *; [done | | done].
  eapply frame_trans; [exact Hm | apply Hh].
Qed.

Lemma preserves_send req : preserves R (send req).
Proof. intros w. unfold send. destruct (http _ _); apply frame_log_request. Qed.

Lemma preserves_requests_get u p h t : preserves R (requests_get u p h t).
Proof. apply preserves_send. Qed.

Lemma preserves_requests_post u h j : preserves R (requests_post u h j).
Proof. apply preserves_send. Qed.

Lemma preserves_time_sleep d : preserves R (time_sleep d).
Proof. intros w. apply frame_log_sleep. Qed.

Lemma preserves_next_key : preserves R _get_next_finnhub_key.
Proof.
  intros w. unfold _get_next_finnhub_key.
  destruct (_ =? _); [apply frame_refl |].
  destruct (_ !! _); [apply frame_set_key_index | apply frame_refl].
Qed.

Lemma preserves_cache_get_prices k : preserves R (_cache_get_prices k).
Proof. intros w. apply frame_refl. Qed.

Lemma preserves_cache_get_financial_metrics k : preserves R (_cache_get_financial_metrics k).
Proof. intros w. apply frame_refl. Qed.

Lemma preserves_cache_get_insider_trades k : preserves R (_cache_get_insider_trades k).
Proof. intros w. apply frame_refl. Qed.

Lemma preserves_cache_get_company_news k : preserves R (_cache_get_company_news k).
Proof. intros w. apply frame_refl. Qed.

End Preserves.

#[local] Hint Resolve preserves_ret preserves_raise preserves_diverge preserves_lift
  preserves_send preserves_requests_get preserves_requests_post preserves_time_sleep
  preserves_next_key preserves_cache_get_prices preserves_cache_get_financial_metrics
  preserves_cache_get_insider_trades preserves_cache_get_company_news : frame.

(** Follow the shape of a computation: sequencing, handlers, branches. *)
Ltac frame_step :=
  lazymatch goal with
  | |- preserves _ (bind _ _) => apply preserves_bind; [try apply _ | | intros ?]
  | |- preserves _ (try_except _ _) => apply preserves_try; [try apply _ | | intros ?]
  | |- preserves _ (if ?c then _ else _) => destruct c
  | |- preserves _ (match ?x with _ => _ end) => destruct x
  | |- preserves _ (let _ := _ in _) => cbv zeta
  | |- preserves _ _ => solve [eauto with frame typeclass_instances]
  end.

Ltac frame := repeat frame_step.

Section PreservesCode.

Context (R : World -> World -> Prop) `{!Frame R}.

Lemma preserves_finnhub_attempts n endpoint params keys_tried :
  preserves R (_finnhub_attempts n endpoint params keys_tried).
Proof.
  revert keys_tried. induction n as [| n IH]; intros keys_tried; cbn [_finnhub_attempts].
  - frame.
  - frame; apply IH.
Qed.

Lemma preserves_finnhub_request endpoint params max_retries :
  preserves R (_finnhub_request endpoint params max_retries).
Proof. apply preserves_finnhub_attempts. Qed.

Lemma preserves_make_api_attempts remaining attempt url headers method json_data max_retries :
  preserves R (_make_api_attempts remaining attempt url headers method json_data max_retries).
Proof.
  revert attempt. induction remaining as [| n IH]; intros attempt; cbn [_make_api_attempts].
  - frame.
  - frame; apply IH.
Qed.

Lemma preserves_make_api_request url headers method json_data max_retries :
  preserves R (_make_api_request url headers method json_data max_retries).
Proof. apply preserves_make_api_attempts. Qed.

End PreservesCode.

#[local] Hint Resolve preserves_finnhub_request preserves_make_api_request : frame.

Section PreservesAdapters.

Context (R : World -> World -> Prop) `{!Frame R}.

Lemma preserves_get_prices_yahoo ticker start_date end_date :
  preserves R (_get_prices_yahoo ticker start_date end_date).
Proof. unfold _get_prices_yahoo. frame. Qed.

Lemma preserves_get_prices_finnhub ticker start_date end_date :
  preserves R (_get_prices_finnhub ticker start_date end_date).
Proof. unfold _get_prices_finnhub. frame. Qed.

Lemma preserves_get_financial_metrics_fmp ticker end_date period limit :
  preserves R (_get_financial_metrics_fmp ticker end_date period limit).
Proof. unfold _get_financial_metrics_fmp. frame. Qed.

Lemma preserves_feed_loop {A} (date_of : A -> string) response_model page_url headers
    start_date limit fuel all_records current_end_date :
  preserves R (feed_loop date_of response_model page_url headers start_date limit
                 fuel all_records current_end_date).
Proof.
  revert all_records current_end_date.
  induction fuel as [| fuel IH]; intros all_records current_end_date; cbn [feed_loop].
  - frame.
  - frame; apply IH.
Qed.

Lemma preserves_search_line_items ticker line_items end_date period limit api_key :
  preserves R (search_line_items ticker line_items end_date period limit api_key).
Proof. unfold search_line_items, status_of. frame. Qed.

(** The Finnhub metrics adapter also writes the FMP supplement, under its
    own key. *)
Lemma preserves_get_financial_metrics_finnhub ticker end_date period limit :
  (forall data w,
     R w (set_financial_metrics_cache
            (<["fmp_supplement_" +:+ ticker := data]> (financial_metrics_cache w)) w)) ->
  preserves R (_get_financial_metrics_finnhub ticker end_date period limit).
Proof.
  intros Hset.
  assert (Hc : forall data,
             preserves R (_cache_set_financial_metrics ("fmp_supplement_" +:+ ticker) data))
    by (intros data w; apply Hset).
  unfold _get_financial_metrics_finnhub, fetch_fmp_supplement. frame.
Qed.

End PreservesAdapters.

(** ** Computations that need no fuel, and computations that always return *)


Create HintDb total.

Lemma total_ret {A} (a : A) : total (ret a).
Proof. by intros w. Qed.

Lemma total_raise {A} e : total (@raise A e).
Proof. by intros w. Qed.

Lemma total_lift {A} (r : res A) : total (lift r).
Proof. destruct r; [apply total_ret | apply total_raise]. Qed.

Lemma total_bind {A B} (m : M A) (k : A -> M B) :
  total m -> (forall a, total (k a)) -> total (bind m k).
Proof.
  intros Hm Hk w. unfold bind. specialize (Hm w).
  destruct (m w) as [[a | e |] w1]; cbn in *; [apply Hk | done | done].
Qed.

Lemma total_try {A} (m : M A) (h : exn -> M A) :
  total m -> (forall e, total (h e)) -> total (try_except m h).
Proof.
  intros Hm Hh w. unfold try_except. specialize (Hm w).
  destruct (m w) as [[a | e |] w1]; cbn in *; [done | apply Hh | done].
Qed.

Lemma total_send req : total (send req).
Proof. intros w. unfold send. by destruct (http _ _). Qed.

Lemma total_requests_get u p h t : total (requests_get u p h t).
Proof. apply total_send. Qed.

Lemma total_requests_post u h j : total (requests_post u h j).
Proof. apply total_send. Qed.

Lemma total_time_sleep d : total (time_sleep d).
Proof. by intros w. Qed.

Lemma total_next_key : total _get_next_finnhub_key.
Proof.
  intros w. unfold _get_next_finnhub_key.
  destruct (_ =? _); [done |]. by destruct (_ !! _).
Qed.

Lemma total_cache_get_prices k : total (_cache_get_prices k).
Proof. by intros w. Qed.

Lemma total_cache_set_prices k d : total (_cache_set_prices k d).
Proof. by intros w. Qed.

Lemma total_cache_get_financial_metrics k : total (_cache_get_financial_metrics k).
Proof. by intros w. Qed.

Lemma total_cache_set_financial_metrics k d : total (_cache_set_financial_metrics k d).
Proof. by intros w. Qed.

#[local] Hint Resolve total_ret total_raise total_lift total_send total_requests_get
  total_requests_post total_time_sleep total_next_key total_cache_get_prices
  total_cache_set_prices total_cache_get_financial_metrics
  total_cache_set_financial_metrics : total.

Ltac total_step :=
  lazymatch goal with
  | |- total (bind _ _) => apply total_bind; [| intros ?]
  | |- total (try_except _ _) => apply total_try; [| intros ?]
  | |- total (if ?c then _ else _) => destruct c
  | |- total (match ?x with _ => _ end) => destruct x
  | |- total (let _ := _ in _) => cbv zeta
  | |- total _ => solve [eauto with total]
  end.

Ltac totality := repeat total_step.

Lemma total_finnhub_attempts n endpoint params keys_tried :
  total (_finnhub_attempts n endpoint params keys_tried).
Proof.
  revert keys_tried. induction n as [| n IH]; intros keys_tried; cbn [_finnhub_attempts].
  - totality.
  - totality; apply IH.
Qed.

Lemma total_finnhub_request endpoint params max_retries :
  total (_finnhub_request endpoint params max_retries).
Proof. apply total_finnhub_attempts. Qed.

Lemma total_make_api_attempts remaining attempt url headers method json_data max_retries :
  total (_make_api_attempts remaining attempt url headers method json_data max_retries).
Proof.
  revert attempt. induction remaining as [| n IH]; intros attempt; cbn [_make_api_attempts].
  - totality.
  - totality; apply IH.
Qed.

Lemma total_make_api_request url headers method json_data max_retries :
  total (_make_api_request url headers method json_data max_retries).
Proof. apply total_make_api_attempts. Qed.

#[local] Hint Resolve total_finnhub_request total_make_api_request : total.

(** A handler that returns turns a total body into a computation that always
    returns: the shape of every provider adapter. *)
Lemma try_except_always_returns {A} (m : M A) (h : exn -> M A) :
  total m -> (forall e, always_returns (h e)) -> always_returns (try_except m h).
Proof.
  intros Hm Hh w. unfold try_except. specialize (Hm w).
  destruct (m w) as [[a | e |] w1]; cbn in *; [by eexists | apply Hh | done].
Qed.

Lemma always_returns_ret {A} (a : A) : always_returns (ret a).
Proof. intros w. by eexists. Qed.

Lemma always_returns_bind {A B} (m : M A) (k : A -> M B) :
  always_returns m -> (forall a, always_returns (k a)) -> always_returns (bind m k).
Proof.
  intros Hm Hk w. unfold bind. destruct (Hm w) as [a Ha].
  destruct (m w) as [o w1]. cbn in Ha. subst o. apply Hk.
Qed.

Lemma always_returns_get_prices_yahoo ticker start_date end_date :
  always_returns (_get_prices_yahoo ticker start_date end_date).
Proof.
  apply try_except_always_returns; [totality | intros; apply always_returns_ret].
Qed.

Lemma always_returns_get_prices_finnhub ticker start_date end_date :
  always_returns (_get_prices_finnhub ticker start_date end_date).
Proof.
  apply try_except_always_returns; [totality | intros; apply always_returns_ret].
Qed.

Lemma always_returns_get_financial_metrics_finnhub ticker end_date period limit :
  always_returns (_get_financial_metrics_finnhub ticker end_date period limit).
Proof.
  apply try_except_always_returns; [| intros; apply always_returns_ret].
  unfold fetch_fmp_supplement. totality.
Qed.

Lemma always_returns_get_financial_metrics_fmp ticker end_date period limit :
  always_returns (_get_financial_metrics_fmp ticker end_date period limit).
Proof.
  unfold _get_financial_metrics_fmp.
  destruct FMP_API_KEY as [k |]; [| apply always_returns_ret].
  destruct (String.eqb k ""); [apply always_returns_ret |].
  apply try_except_always_returns; [totality | intros; apply always_returns_ret].
Qed.

Lemma always_returns_get_market_cap_finnhub ticker :
  always_returns (_get_market_cap_finnhub ticker).
Proof.
  apply try_except_always_returns; [totality | intros; apply always_returns_ret].
Qed.

(** ** Cache-aside *)


#[local] Instance same_caches_frame : Frame same_caches.
Proof.
  split; unfold same_caches; try done.
  intros w1 w2 w3 (? & ? & ? & ?) (? & ? & ? & ?). repeat split; congruence.
Qed.


#[local] Instance same_caches_but_frame key : Frame (same_caches_but key).
Proof.
  split; unfold same_caches_but; try done.
  intros w1 w2 w3 (? & H12 & ? & ?) (? & H23 & ? & ?).
  repeat split; try congruence. intros k Hk. rewrite H23, H12; done.
Qed.

#[local] Instance same_prices_cache_frame : Frame same_prices_cache.
Proof. split; unfold same_prices_cache; try done. intros; congruence. Qed.

Lemma same_caches_but_set key data w :
  same_caches_but key w
    (set_financial_metrics_cache (<[key := data]> (financial_metrics_cache w)) w).
Proof.
  repeat split; try done. intros k Hk. cbn. by rewrite lookup_insert_ne.
Qed.

(** *** The supplement key is never a result key *)

Lemma count_append c a b :
  PyStr.count c (a +:+ b) = (PyStr.count c a + PyStr.count c b)%nat.
Proof.
  induction a as [| x a IH]; [done |].
  change (String x a +:+ b) with (String x (a +:+ b)). cbn [PyStr.count]. rewrite IH. lia.
Qed.

Lemma supplement_key_distinct ticker period end_date limit :
  financial_metrics_cache_key ticker period end_date limit <> "fmp_supplement_" +:+ ticker.
Proof.
  intros Heq. apply (f_equal (PyStr.count "_")) in Heq.
  unfold financial_metrics_cache_key in Heq. rewrite !count_append in Heq.
  cbn in Heq. lia.
Qed.

(** *** Hits and misses *)

Lemma cache_hit_Some {A} (o : option (list A)) d :
  cache_hit o = Some d -> o = Some d /\ d <> [].
Proof. destruct o as [[| x l] |]; cbn; intros H; by simplify_eq. Qed.


Lemma get_prices_hit ticker start_date end_date api_key w d :
  cache_hit (prices_cache w !! prices_cache_key ticker start_date end_date) = Some d ->
  get_prices ticker start_date end_date api_key w = (Returns d, w).
Proof. intros H. unfold get_prices, bind, _cache_get_prices. by rewrite H. Qed.

Lemma get_prices_miss ticker start_date end_date api_key w :
  cache_hit (prices_cache w !! prices_cache_key ticker start_date end_date) = None ->
  get_prices ticker start_date end_date api_key w
  = fetch_prices (prices_cache_key ticker start_date end_date) ticker start_date end_date w.
Proof. intros H. unfold get_prices, bind, _cache_get_prices. by rewrite H. Qed.

Lemma get_financial_metrics_hit ticker end_date period limit api_key w d :
  cache_hit (financial_metrics_cache w
               !! financial_metrics_cache_key ticker period end_date limit) = Some d ->
  get_financial_metrics ticker end_date period limit api_key w
  = lift (load_financial_metrics d) w.
Proof. intros H. unfold get_financial_metrics, bind, _cache_get_financial_metrics. by rewrite H. Qed.

Lemma get_financial_metrics_miss ticker end_date period limit api_key w :
  cache_hit (financial_metrics_cache w
               !! financial_metrics_cache_key ticker period end_date limit) = None ->
  get_financial_metrics ticker end_date period limit api_key w
  = fetch_financial_metrics (financial_metrics_cache_key ticker period end_date limit)
      ticker end_date period limit w.
Proof. intros H. unfold get_financial_metrics, bind, _cache_get_financial_metrics. by rewrite H. Qed.

Lemma get_insider_trades_hit fuel ticker end_date start_date limit api_key w d :
  cache_hit (insider_trades_cache w !! feed_cache_key ticker start_date end_date limit) = Some d ->
  get_insider_trades fuel ticker end_date start_date limit api_key w = (Returns d, w).
Proof. intros H. unfold get_insider_trades, bind, _cache_get_insider_trades. by rewrite H. Qed.

Lemma get_insider_trades_miss fuel ticker end_date start_date limit api_key w :
  cache_hit (insider_trades_cache w !! feed_cache_key ticker start_date end_date limit) = None ->
  get_insider_trades fuel ticker end_date start_date limit api_key w
  = fetch_insider_trades fuel (feed_cache_key ticker start_date end_date limit)
      ticker end_date start_date limit api_key w.
Proof. intros H. unfold get_insider_trades, bind, _cache_get_insider_trades. by rewrite H. Qed.

Lemma get_company_news_hit fuel ticker end_date start_date limit api_key w d :
  cache_hit (company_news_cache w !! feed_cache_key ticker start_date end_date limit) = Some d ->
  get_company_news fuel ticker end_date start_date limit api_key w = (Returns d, w).
Proof. intros H. unfold get_company_news, bind, _cache_get_company_news. by rewrite H. Qed.

Lemma get_company_news_miss fuel ticker end_date start_date limit api_key w :
  cache_hit (company_news_cache w !! feed_cache_key ticker start_date end_date limit) = None ->
  get_company_news fuel ticker end_date start_date limit api_key w
  = fetch_company_news fuel (feed_cache_key ticker start_date end_date limit)
      ticker end_date start_date limit api_key w.
Proof. intros H. unfold get_company_news, bind, _cache_get_company_news. by rewrite H. Qed.

(** *** What a fetch leaves in the cache *)

(** Run an adapter that always returns and leaves the caches related by [R]. *)
Lemma run_adapter {A} (R : World -> World -> Prop) (m : M A) w :
  always_returns m -> preserves R m ->
  exists a w', m w = (Returns a, w') /\ R w w'.
Proof.
  intros Hr Hp. destruct (Hr w) as [a Ha]. specialize (Hp w).
  destruct (m w) as [o w']. cbn in *. subst o. by exists a, w'.
Qed.

Lemma fetch_prices_outcome key ticker start_date end_date w :
  exists prices w',
    fetch_prices key ticker start_date end_date w = (Returns prices, w')
    /\ financial_metrics_cache w' = financial_metrics_cache w
    /\ insider_trades_cache w' = insider_trades_cache w
    /\ company_news_cache w' = company_news_cache w
    /\ ((prices = [] /\ prices_cache w' = prices_cache w)
        \/ (prices <> [] /\ prices_cache w' = <[key := prices]> (prices_cache w))).
Proof.
  unfold fetch_prices.
  destruct (run_adapter same_caches (_get_prices_yahoo ticker start_date end_date) w
              (always_returns_get_prices_yahoo _ _ _)
              (preserves_get_prices_yahoo same_caches _ _ _))
    as (l1 & w1 & E1 & (P1 & M1 & T1 & N1)).
  erewrite bind_returns by exact E1.
  destruct l1 as [| p1 l1].
  - destruct (run_adapter same_caches (_get_prices_finnhub ticker start_date end_date) w1
                (always_returns_get_prices_finnhub _ _ _)
                (preserves_get_prices_finnhub same_caches _ _ _))
      as (l2 & w2 & E2 & (P2 & M2 & T2 & N2)).
    erewrite bind_returns by exact E2.
    destruct l2 as [| p2 l2].
    + exists [], w2. repeat split; try congruence. left. split; congruence.
    + eexists (p2 :: l2), _. split; [reflexivity |]. cbn.
      repeat split; try congruence. right. split; [done | congruence].
  - erewrite bind_returns by reflexivity.
    eexists (p1 :: l1), _. split; [reflexivity |]. cbn.
    repeat split; try congruence. right. split; [done | congruence].
Qed.

Lemma fetch_financial_metrics_outcome ticker end_date period limit w :
  let key := financial_metrics_cache_key ticker period end_date limit in
  exists metrics w',
    fetch_financial_metrics key ticker end_date period limit w = (Returns metrics, w')
    /\ prices_cache w' = prices_cache w
    /\ insider_trades_cache w' = insider_trades_cache w
    /\ company_news_cache w' = company_news_cache w
    /\ ((metrics = []
         /\ financial_metrics_cache w' !! key = financial_metrics_cache w !! key)
        \/ (metrics <> []
            /\ financial_metrics_cache w' !! key = Some (map MetricsDump metrics))).
Proof.
  intros key. unfold fetch_financial_metrics.
  pose proof (supplement_key_distinct ticker period end_date limit) as Hkey. fold key in Hkey.
  destruct (run_adapter (same_caches_but ("fmp_supplement_" +:+ ticker))
              (_get_financial_metrics_finnhub ticker end_date period limit) w
              (always_returns_get_financial_metrics_finnhub _ _ _ _)
              (preserves_get_financial_metrics_finnhub _ _ _ _ _
                 (fun data w0 => same_caches_but_set _ data w0)))
    as (l1 & w1 & E1 & (P1 & M1 & T1 & N1)).
  erewrite bind_returns by exact E1.
  destruct l1 as [| m1 l1].
  - destruct (run_adapter same_caches
                (_get_financial_metrics_fmp ticker end_date period limit) w1
                (always_returns_get_financial_metrics_fmp _ _ _ _)
                (preserves_get_financial_metrics_fmp same_caches _ _ _ _))
      as (l2 & w2 & E2 & (P2 & M2 & T2 & N2)).
    erewrite bind_returns by exact E2.
    destruct l2 as [| m2 l2].
    + exists [], w2. repeat split; try congruence. left. split; [done |].
      rewrite M2. by apply M1.
    + eexists (m2 :: l2), _. split; [reflexivity |]. cbn.
      repeat split; try congruence. right. split; [done |]. by rewrite lookup_insert_eq.
  - erewrite bind_returns by reflexivity.
    eexists (m1 :: l1), _. split; [reflexivity |]. cbn.
    repeat split; try congruence. right. split; [done |]. by rewrite lookup_insert_eq.
Qed.


(** The feed loop, then the write-through. *)
Lemma fetch_insider_trades_outcome fuel key ticker end_date start_date limit api_key w o w' :
  fetch_insider_trades fuel key ticker end_date start_date limit api_key w = (o, w') ->
  prices_cache w' = prices_cache w
  /\ financial_metrics_cache w' = financial_metrics_cache w
  /\ company_news_cache w' = company_news_cache w
  /\ ((o = Returns [] \/ (exists e, o = Raises e) \/ o = OutOfFuel)
      /\ insider_trades_cache w' = insider_trades_cache w
      \/ exists trades, o = Returns trades /\ trades <> []
           /\ insider_trades_cache w' = <[key := trades]> (insider_trades_cache w)).
Proof.
  unfold fetch_insider_trades. intros Hrun.
  pose proof (preserves_feed_loop same_caches filing_date InsiderTradeResponse
                (insider_trades_url ticker start_date limit)
                (financial_datasets_headers api_key) start_date limit fuel [] end_date w)
    as (P1 & M1 & T1 & N1).
  unfold bind in Hrun.
  destruct (feed_loop _ _ _ _ _ _ _ _ _ w) as [[[| t l] | e |] w1]; cbn in *;
    unfold ret, bind in Hrun; cbn in Hrun; simplify_eq.
  - repeat split; try done. left. split; [by left | done].
  - cbn. repeat split; try done. right. exists (t :: l). cbn.
    repeat split; [done | congruence].
  - repeat split; try done. left. split; [right; left; by eexists | done].
  - repeat split; try done. left. split; [by right; right | done].
Qed.

Lemma fetch_company_news_outcome fuel key ticker end_date start_date limit api_key w o w' :
  fetch_company_news fuel key ticker end_date start_date limit api_key w = (o, w') ->
  prices_cache w' = prices_cache w
  /\ financial_metrics_cache w' = financial_metrics_cache w
  /\ insider_trades_cache w' = insider_trades_cache w
  /\ ((o = Returns [] \/ (exists e, o = Raises e) \/ o = OutOfFuel)
      /\ company_news_cache w' = company_news_cache w
      \/ exists news, o = Returns news /\ news <> []
           /\ company_news_cache w' = <[key := news]> (company_news_cache w)).
Proof.
  unfold fetch_company_news. intros Hrun.
  pose proof (preserves_feed_loop same_caches date CompanyNewsResponse
                (company_news_url ticker start_date limit)
                (financial_datasets_headers api_key) start_date limit fuel [] end_date w)
    as (P1 & M1 & T1 & N1).
  unfold bind in Hrun.
  destruct (feed_loop _ _ _ _ _ _ _ _ _ w) as [[[| t l] | e |] w1]; cbn in *;
    unfold ret, bind in Hrun; cbn in Hrun; simplify_eq.
  - repeat split; try done. left. split; [by left | done].
  - cbn. repeat split; try done. right. exists (t :: l). cbn.
    repeat split; [done | congruence].
  - repeat split; try done. left. split; [right; left; by eexists | done].
  - repeat split; try done. left. split; [by right; right | done].
Qed.

(** *** What the getters leave of the prices cache *)

Lemma preserves_get_market_cap_fmp (R : World -> World -> Prop) `{!Frame R} tk :
  preserves R (_get_market_cap_fmp tk).
Proof. unfold _get_market_cap_fmp. frame. Qed.

Lemma preserves_get_market_cap_finnhub (R : World -> World -> Prop) `{!Frame R} tk :
  preserves R (_get_market_cap_finnhub tk).
Proof. unfold _get_market_cap_finnhub. frame. Qed.

(** What a call of [get_financial_metrics] leaves of the other caches. *)
Lemma get_financial_metrics_other_caches tk end_date period limit api_key w :
  let w' := snd (get_financial_metrics tk end_date period limit api_key w) in
  prices_cache w' = prices_cache w
  /\ insider_trades_cache w' = insider_trades_cache w
  /\ company_news_cache w' = company_news_cache w.
Proof.
  cbv zeta.
  destruct (cache_hit (financial_metrics_cache w
                         !! financial_metrics_cache_key tk period end_date limit))
    as [d |] eqn:Hhit.
  - rewrite (get_financial_metrics_hit _ _ _ _ _ _ d Hhit).
    by destruct (load_financial_metrics d).
  - rewrite get_financial_metrics_miss by done.
    destruct (fetch_financial_metrics_outcome tk end_date period limit w)
      as (m & w1 & E & Hp & Hi & Hn & _).
    by rewrite E.
Qed.

Lemma preserves_prices_get_financial_metrics tk end_date period limit api_key :
  preserves same_prices_cache (get_financial_metrics tk end_date period limit api_key).
Proof. intros w. apply get_financial_metrics_other_caches. Qed.

Lemma preserves_prices_get_insider_trades fuel tk end_date start_date limit api_key :
  preserves same_prices_cache (get_insider_trades fuel tk end_date start_date limit api_key).
Proof.
  intros w. unfold same_prices_cache.
  destruct (cache_hit (insider_trades_cache w !! feed_cache_key tk start_date end_date limit))
    as [d |] eqn:Hhit.
  - by rewrite (get_insider_trades_hit _ _ _ _ _ _ _ d Hhit).
  - rewrite get_insider_trades_miss by done.
    destruct (fetch_insider_trades fuel (feed_cache_key tk start_date end_date limit)
                tk end_date start_date limit api_key w) as [o w1] eqn:E.
    by apply fetch_insider_trades_outcome in E as (Hp & _).
Qed.

Lemma preserves_prices_get_company_news fuel tk end_date start_date limit api_key :
  preserves same_prices_cache (get_company_news fuel tk end_date start_date limit api_key).
Proof.
  intros w. unfold same_prices_cache.
  destruct (cache_hit (company_news_cache w !! feed_cache_key tk start_date end_date limit))
    as [d |] eqn:Hhit.
  - by rewrite (get_company_news_hit _ _ _ _ _ _ _ d Hhit).
  - rewrite get_company_news_miss by done.
    destruct (fetch_company_news fuel (feed_cache_key tk start_date end_date limit)
                tk end_date start_date limit api_key w) as [o w1] eqn:E.
    by apply fetch_company_news_outcome in E as (Hp & _).
Qed.

Lemma preserves_prices_get_market_cap tk end_date api_key :
  preserves same_prices_cache (get_market_cap tk end_date api_key).
Proof.
  unfold get_market_cap.
  apply (preserves_bind same_prices_cache);
    [apply (preserves_get_market_cap_finnhub same_prices_cache) |].
  intros v1. apply (preserves_bind same_prices_cache).
  - destruct (negb (Py.truthy v1)); [| apply (preserves_ret same_prices_cache)].
    apply (preserves_bind same_prices_cache);
      [apply preserves_prices_get_financial_metrics |].
    intros [| first rest]; apply (preserves_ret same_prices_cache).
  - intros v2. destruct (negb (Py.truthy v2)); [| apply (preserves_ret same_prices_cache)].
    apply (preserves_get_market_cap_fmp same_prices_cache).
Qed.

Lemma always_returns_get_prices ticker start_date end_date api_key :
  always_returns (get_prices ticker start_date end_date api_key).
Proof.
  intros w.
  destruct (cache_hit (prices_cache w !! prices_cache_key ticker start_date end_date))
    as [d |] eqn:Hhit.
  - rewrite (get_prices_hit _ _ _ _ _ d Hhit). by eexists.
  - rewrite get_prices_miss by done.
    destruct (fetch_prices_outcome (prices_cache_key ticker start_date end_date)
                ticker start_date end_date w) as (l & w1 & E & _).
    rewrite E. by eexists.
Qed.

(** ** Outbound requests *)


#[local] Instance log_le_frame : Frame log_le.
Proof. split; unfold log_le; intros; cbn; lia. Qed.


Lemma sends_send req : sends (send req).
Proof. intros w. unfold send. destruct (http _ _); cbn; lia. Qed.

Lemma sends_bind_l {A B} (m : M A) (k : A -> M B) :
  sends m -> (forall a, preserves log_le (k a)) -> sends (bind m k).
Proof.
  intros Hm Hk w. unfold bind. specialize (Hm w).
  destruct (m w) as [[a | e |] w1]; cbn in *; [| done | done].
  specialize (Hk a w1). unfold log_le in Hk. lia.
Qed.

Lemma sends_bind_r {A B} (m : M A) (k : A -> M B) :
  always_returns m -> preserves log_le m -> (forall a, sends (k a)) -> sends (bind m k).
Proof.
  intros Hr Hp Hk w. unfold bind.
  destruct (run_adapter log_le m w Hr Hp) as (a & w1 & E & Hle). rewrite E.
  specialize (Hk a w1). unfold log_le in Hle. lia.
Qed.

Lemma sends_try {A} (m : M A) (h : exn -> M A) :
  sends m -> (forall e, preserves log_le (h e)) -> sends (try_except m h).
Proof.
  intros Hm Hh w. unfold try_except. specialize (Hm w).
  destruct (m w) as [[a | e |] w1]; cbn in *; [done | | done].
  specialize (Hh e w1). unfold log_le in Hh. lia.
Qed.

Lemma always_returns_lift_Ok {A} (a : A) : always_returns (lift (Ok a)).
Proof. apply always_returns_ret. Qed.

Lemma log_le_set_prices_cache c w : log_le w (set_prices_cache c w).
Proof. unfold log_le. cbn. lia. Qed.

Lemma log_le_set_financial_metrics_cache c w : log_le w (set_financial_metrics_cache c w).
Proof. unfold log_le. cbn. lia. Qed.

Lemma log_le_set_insider_trades_cache c w : log_le w (set_insider_trades_cache c w).
Proof. unfold log_le. cbn. lia. Qed.

Lemma log_le_set_company_news_cache c w : log_le w (set_company_news_cache c w).
Proof. unfold log_le. cbn. lia. Qed.

Lemma preserves_log_cache_set_prices k d : preserves log_le (_cache_set_prices k d).
Proof. intros w. apply log_le_set_prices_cache. Qed.

Lemma preserves_log_cache_set_financial_metrics k d :
  preserves log_le (_cache_set_financial_metrics k d).
Proof. intros w. apply log_le_set_financial_metrics_cache. Qed.

Lemma preserves_log_cache_set_insider_trades k d :
  preserves log_le (_cache_set_insider_trades k d).
Proof. intros w. apply log_le_set_insider_trades_cache. Qed.

Lemma preserves_log_cache_set_company_news k d :
  preserves log_le (_cache_set_company_news k d).
Proof. intros w. apply log_le_set_company_news_cache. Qed.

#[local] Hint Resolve preserves_log_cache_set_prices preserves_log_cache_set_financial_metrics
  preserves_log_cache_set_insider_trades preserves_log_cache_set_company_news
  preserves_get_prices_yahoo preserves_get_prices_finnhub
  preserves_get_financial_metrics_fmp preserves_feed_loop : frame.

Lemma preserves_log_finnhub_metrics ticker end_date period limit :
  preserves log_le (_get_financial_metrics_finnhub ticker end_date period limit).
Proof.
  apply preserves_get_financial_metrics_finnhub; [apply _ |].
  intros data w. apply log_le_set_financial_metrics_cache.
Qed.

#[local] Hint Resolve preserves_log_finnhub_metrics : frame.

(** With a key in the pool, [_finnhub_request] reaches the network. *)
Lemma finnhub_request_sends endpoint params :
  FINNHUB_KEYS <> [] -> sends (_finnhub_request endpoint params 3).
Proof.
  intros Hne. unfold _finnhub_request.
  destruct (Z.to_nat (3 * Z.of_nat (length FINNHUB_KEYS))) as [| n] eqn:Hn.
  { destruct FINNHUB_KEYS; [done | cbn in Hn; lia]. }
  cbn [_finnhub_attempts].
  apply sends_bind_r; [| apply preserves_next_key; apply _ |].
  { intros w. destruct (key_at_is_Some (_finnhub_key_index w) Hne) as [key Hkey].
    exists key. by rewrite (next_key_step w key). }
  intros key. apply sends_bind_l.
  - apply sends_try.
    + apply sends_bind_l; [apply sends_send | intros r; frame].
    + intros e. frame.
  - intros step. destruct step; [| frame].
    apply preserves_finnhub_attempts; apply _.
Qed.

Lemma get_prices_yahoo_sends ticker start_date end_date d1 d2 :
  strptime start_date = Ok d1 -> strptime end_date = Ok d2 ->
  sends (_get_prices_yahoo ticker start_date end_date).
Proof.
  intros H1 H2. unfold _get_prices_yahoo. rewrite H1, H2.
  apply sends_try; [| intros e; frame].
  apply sends_bind_r; [apply always_returns_lift_Ok | frame |]. intros ?.
  apply sends_bind_r; [apply always_returns_lift_Ok | frame |]. intros ?.
  cbv zeta. apply sends_bind_l; [apply sends_send | intros r; frame].
Qed.

Lemma fetch_prices_sends key ticker start_date end_date d1 d2 :
  strptime start_date = Ok d1 -> strptime end_date = Ok d2 ->
  sends (fetch_prices key ticker start_date end_date).
Proof.
  intros H1 H2. unfold fetch_prices.
  apply sends_bind_l; [by eapply get_prices_yahoo_sends | intros l; frame].
Qed.

Lemma fetch_financial_metrics_sends key ticker end_date period limit :
  FINNHUB_KEYS <> [] -> sends (fetch_financial_metrics key ticker end_date period limit).
Proof.
  intros Hne. unfold fetch_financial_metrics.
  apply sends_bind_l; [| intros l; frame].
  unfold _get_financial_metrics_finnhub.
  apply sends_try; [| intros e; frame].
  apply sends_bind_l; [by apply finnhub_request_sends |].
  intros metrics_data. unfold fetch_fmp_supplement. frame.
Qed.

Lemma make_api_request_sends url headers method json_data :
  sends (_make_api_request url headers method json_data 3).
Proof.
  unfold _make_api_request. change (Z.to_nat (3 + 1)) with 4%nat. cbn [_make_api_attempts].
  rewrite api_send. apply sends_bind_l; [apply sends_send |].
  intros r. frame; apply preserves_make_api_attempts; apply _.
Qed.

Lemma feed_loop_sends {A} (date_of : A -> string) response_model page_url headers
    start_date limit fuel all_records current_end_date :
  sends (feed_loop date_of response_model page_url headers start_date limit
           (S fuel) all_records current_end_date).
Proof.
  cbn [feed_loop]. cbv zeta.
  apply sends_bind_l; [apply make_api_request_sends | intros r; frame].
Qed.

Lemma fetch_insider_trades_sends fuel key ticker end_date start_date limit api_key :
  sends (fetch_insider_trades (S fuel) key ticker end_date start_date limit api_key).
Proof.
  unfold fetch_insider_trades. cbv zeta.
  apply sends_bind_l; [apply feed_loop_sends | intros l; frame].
Qed.

Lemma fetch_company_news_sends fuel key ticker end_date start_date limit api_key :
  sends (fetch_company_news (S fuel) key ticker end_date start_date limit api_key).
Proof.
  unfold fetch_company_news. cbv zeta.
  apply sends_bind_l; [apply feed_loop_sends | intros l; frame].
Qed.

(** *** An empty result is not cached *)

Lemma get_prices_empty ticker start_date end_date api_key w w' :
  get_prices ticker start_date end_date api_key w = (Returns [], w') ->
  cache_hit (prices_cache w !! prices_cache_key ticker start_date end_date) = None
  /\ prices_cache w' = prices_cache w.
Proof.
  intros Hrun.
  destruct (cache_hit (prices_cache w !! prices_cache_key ticker start_date end_date))
    as [d |] eqn:Hhit.
  - apply cache_hit_Some in Hhit as Hd. rewrite (get_prices_hit _ _ _ _ _ d Hhit) in Hrun.
    destruct Hd as [_ Hd]. by simplify_eq.
  - split; [done |]. rewrite get_prices_miss in Hrun by done.
    destruct (fetch_prices_outcome (prices_cache_key ticker start_date end_date)
                ticker start_date end_date w)
      as (l & w1 & E & _ & _ & _ & [[-> Hc] | [Hl Hc]]); rewrite E in Hrun; by simplify_eq.
Qed.

Lemma get_financial_metrics_empty ticker end_date period limit api_key w w' :
  get_financial_metrics ticker end_date period limit api_key w = (Returns [], w') ->
  let key := financial_metrics_cache_key ticker period end_date limit in
  cache_hit (financial_metrics_cache w !! key) = None
  /\ financial_metrics_cache w' !! key = financial_metrics_cache w !! key.
Proof.
  intros Hrun key. subst key.
  destruct (cache_hit (financial_metrics_cache w !! _)) as [d |] eqn:Hhit.
  - apply cache_hit_Some in Hhit as Hd. destruct Hd as [_ Hd].
    rewrite (get_financial_metrics_hit _ _ _ _ _ _ d Hhit) in Hrun.
    destruct d as [| [m | r k] d]; [done | |]; cbn in Hrun.
    + destruct (load_financial_metrics d); cbn in Hrun; by simplify_eq.
    + by simplify_eq.
  - split; [done |]. rewrite get_financial_metrics_miss in Hrun by done.
    destruct (fetch_financial_metrics_outcome ticker end_date period limit w)
      as (l & w1 & E & _ & _ & _ & [[-> Hc] | [Hl Hc]]);
      rewrite E in Hrun; by simplify_eq.
Qed.

Lemma get_insider_trades_empty fuel ticker end_date start_date limit api_key w w' :
  get_insider_trades fuel ticker end_date start_date limit api_key w = (Returns [], w') ->
  cache_hit (insider_trades_cache w !! feed_cache_key ticker start_date end_date limit) = None
  /\ insider_trades_cache w' = insider_trades_cache w.
Proof.
  intros Hrun.
  destruct (cache_hit (insider_trades_cache w !! feed_cache_key ticker start_date end_date limit))
    as [d |] eqn:Hhit.
  - apply cache_hit_Some in Hhit as Hd. destruct Hd as [_ Hd].
    rewrite (get_insider_trades_hit _ _ _ _ _ _ _ d Hhit) in Hrun. by simplify_eq.
  - split; [done |]. rewrite get_insider_trades_miss in Hrun by done.
    apply fetch_insider_trades_outcome in Hrun
      as (_ & _ & _ & [[_ Hc] | (l & Hl & Hne & _)]); [done | by simplify_eq].
Qed.

Lemma get_company_news_empty fuel ticker end_date start_date limit api_key w w' :
  get_company_news fuel ticker end_date start_date limit api_key w = (Returns [], w') ->
  cache_hit (company_news_cache w !! feed_cache_key ticker start_date end_date limit) = None
  /\ company_news_cache w' = company_news_cache w.
Proof.
  intros Hrun.
  destruct (cache_hit (company_news_cache w !! feed_cache_key ticker start_date end_date limit))
    as [d |] eqn:Hhit.
  - apply cache_hit_Some in Hhit as Hd. destruct Hd as [_ Hd].
    rewrite (get_company_news_hit _ _ _ _ _ _ _ d Hhit) in Hrun. by simplify_eq.
  - split; [done |]. rewrite get_company_news_miss in Hrun by done.
    apply fetch_company_news_outcome in Hrun
      as (_ & _ & _ & [[_ Hc] | (l & Hl & Hne & _)]); [done | by simplify_eq].
Qed.

(** C1. For each of [get_prices], [get_financial_metrics],
    [get_insider_trades] and [get_company_news]: when a call returns the
    empty list, the cache entry under its key is what it was before the call
    (for prices and the two feeds the whole cache of that kind is), and a
    following call with the same parameters is not served from the cache: it
    runs the provider chain again, and that sends at least one request
    (for prices when both dates parse, for financial metrics when the key
    pool is not empty, for the feeds when the loop is entered). *)
Theorem empty_result_never_cached :
  (forall ticker start_date end_date api_key w w',
     get_prices ticker start_date end_date api_key w = (Returns [], w') ->
     let key := prices_cache_key ticker start_date end_date in
     prices_cache w' = prices_cache w
     /\ get_prices ticker start_date end_date api_key w'
        = fetch_prices key ticker start_date end_date w'
     /\ (forall d1 d2, strptime start_date = Ok d1 -> strptime end_date = Ok d2 ->
           (length (http_log w')
            < length (http_log (snd (get_prices ticker start_date end_date api_key w'))))%nat))
  /\ (forall ticker end_date period limit api_key w w',
        get_financial_metrics ticker end_date period limit api_key w = (Returns [], w') ->
        let key := financial_metrics_cache_key ticker period end_date limit in
        financial_metrics_cache w' !! key = financial_metrics_cache w !! key
        /\ get_financial_metrics ticker end_date period limit api_key w'
           = fetch_financial_metrics key ticker end_date period limit w'
        /\ (FINNHUB_KEYS <> [] ->
            (length (http_log w')
             < length (http_log
                 (snd (get_financial_metrics ticker end_date period limit api_key w'))))%nat))
  /\ (forall fuel ticker end_date start_date limit api_key w w',
        get_insider_trades fuel ticker end_date start_date limit api_key w = (Returns [], w') ->
        let key := feed_cache_key ticker start_date end_date limit in
        insider_trades_cache w' = insider_trades_cache w
        /\ forall fuel',
             get_insider_trades fuel' ticker end_date start_date limit api_key w'
             = fetch_insider_trades fuel' key ticker end_date start_date limit api_key w'
             /\ (fuel' <> O ->
                 (length (http_log w')
                  < length (http_log
                      (snd (get_insider_trades fuel' ticker end_date start_date limit
                              api_key w'))))%nat))
  /\ (forall fuel ticker end_date start_date limit api_key w w',
        get_company_news fuel ticker end_date start_date limit api_key w = (Returns [], w') ->
        let key := feed_cache_key ticker start_date end_date limit in
        company_news_cache w' = company_news_cache w
        /\ forall fuel',
             get_company_news fuel' ticker end_date start_date limit api_key w'
             = fetch_company_news fuel' key ticker end_date start_date limit api_key w'
             /\ (fuel' <> O ->
                 (length (http_log w')
                  < length (http_log
                      (snd (get_company_news fuel' ticker end_date start_date limit
                              api_key w'))))%nat)).
Proof.
  split; [| split; [| split]].
  - intros ticker start_date end_date api_key w w' Hrun key.
    apply get_prices_empty in Hrun as [Hmiss Hc].
    assert (Hmiss' : cache_hit (prices_cache w' !! key) = None) by (by rewrite Hc).
    split; [done |]. split; [by apply get_prices_miss |].
    intros d1 d2 H1 H2. rewrite get_prices_miss by done.
    by eapply fetch_prices_sends.
  - intros ticker end_date period limit api_key w w' Hrun key.
    apply get_financial_metrics_empty in Hrun as [Hmiss Hc]. fold key in Hmiss, Hc.
    assert (Hmiss' : cache_hit (financial_metrics_cache w' !! key) = None) by (by rewrite Hc).
    split; [done |]. split; [by apply get_financial_metrics_miss |].
    intros Hne. rewrite get_financial_metrics_miss by done.
    by apply fetch_financial_metrics_sends.
  - intros fuel ticker end_date start_date limit api_key w w' Hrun key.
    apply get_insider_trades_empty in Hrun as [Hmiss Hc]. fold key in Hmiss.
    assert (Hmiss' : cache_hit (insider_trades_cache w' !! key) = None) by (by rewrite Hc).
    split; [done |]. intros fuel'. split; [by apply get_insider_trades_miss |].
    intros Hf. rewrite get_insider_trades_miss by done.
    destruct fuel' as [| f]; [done |]. apply fetch_insider_trades_sends.
  - intros fuel ticker end_date start_date limit api_key w w' Hrun key.
    apply get_company_news_empty in Hrun as [Hmiss Hc]. fold key in Hmiss.
    assert (Hmiss' : cache_hit (company_news_cache w' !! key) = None) by (by rewrite Hc).
    split; [done |]. intros fuel'. split; [by apply get_company_news_miss |].
    intros Hf. rewrite get_company_news_miss by done.
    destruct fuel' as [| f]; [done |]. apply fetch_company_news_sends.
Qed.

(** *** A repeated call is served from the cache *)


(** ** The price window *)

Lemma not_lt_le a b : PyStr.lt a b = false -> PyStr.le b a = true.
Proof.
  unfold PyStr.lt, PyStr.le, String.ltb, String.leb.
  rewrite (String.compare_antisym b a). by destruct (String.compare a b).
Qed.

(** A row that passes the adapters' test lies in the window. *)
Lemma passes_filter start_date end_date date_str :
  PyStr.lt date_str start_date || PyStr.lt end_date date_str = false ->
  PyStr.le start_date date_str = true /\ PyStr.le date_str end_date = true.
Proof. intros [H1 H2]%orb_false_iff. split; by apply not_lt_le. Qed.

Lemma finnhub_rows_within start_date end_date opens highs lows closes volumes timestamps :
  forall i prices,
    finnhub_rows start_date end_date opens highs lows closes volumes i timestamps = Ok prices ->
    within_window start_date end_date prices.
Proof.
  induction timestamps as [| ts rest IH]; intros i prices Hrows; cbn [yahoo_rows finnhub_rows res_bind] in Hrows.
  - simplify_eq. constructor.
  - destruct (fromtimestamp ts) as [date_str |]; cbn [yahoo_rows finnhub_rows res_bind] in Hrows; [| done].
    destruct (PyStr.lt date_str start_date || PyStr.lt end_date date_str) eqn:Hf.
    + by eapply IH.
    + destruct (float_at opens i); cbn [yahoo_rows finnhub_rows res_bind] in Hrows; [| done].
      destruct (float_at highs i); cbn [yahoo_rows finnhub_rows res_bind] in Hrows; [| done].
      destruct (float_at lows i); cbn [yahoo_rows finnhub_rows res_bind] in Hrows; [| done].
      destruct (float_at closes i); cbn [yahoo_rows finnhub_rows res_bind] in Hrows; [| done].
      destruct (int_at volumes i); cbn [yahoo_rows finnhub_rows res_bind] in Hrows; [| done].
      destruct (finnhub_rows _ _ _ _ _ _ _ (S i) rest) as [l |] eqn:Hrest;
        cbn [yahoo_rows finnhub_rows res_bind] in Hrows; [| done].
      simplify_eq. constructor; [by apply passes_filter | by eapply IH].
Qed.

Lemma yahoo_rows_within start_date end_date quotes timestamps :
  forall i prices,
    yahoo_rows start_date end_date quotes i timestamps = Ok prices ->
    within_window start_date end_date prices.
Proof.
  induction timestamps as [| ts rest IH]; intros i prices Hrows; cbn [yahoo_rows finnhub_rows res_bind] in Hrows.
  - simplify_eq. constructor.
  - destruct (fromtimestamp ts) as [date_str |]; cbn [yahoo_rows finnhub_rows res_bind] in Hrows; [| done].
    destruct (PyStr.lt date_str start_date || PyStr.lt end_date date_str) eqn:Hf.
    + by eapply IH.
    + destruct (any_none quotes i _) as [[|] |]; cbn [yahoo_rows finnhub_rows res_bind] in Hrows; [by eapply IH | | done].
      destruct (quote_float quotes "open" i); cbn [yahoo_rows finnhub_rows res_bind] in Hrows; [| done].
      destruct (quote_float quotes "high" i); cbn [yahoo_rows finnhub_rows res_bind] in Hrows; [| done].
      destruct (quote_float quotes "low" i); cbn [yahoo_rows finnhub_rows res_bind] in Hrows; [| done].
      destruct (quote_float quotes "close" i); cbn [yahoo_rows finnhub_rows res_bind] in Hrows; [| done].
      destruct (quote_int quotes "volume" i); cbn [yahoo_rows finnhub_rows res_bind] in Hrows; [| done].
      destruct (yahoo_rows _ _ _ (S i) rest) as [l |] eqn:Hrest; cbn [yahoo_rows finnhub_rows res_bind] in Hrows; [| done].
      simplify_eq. constructor; [by apply passes_filter | by eapply IH].
Qed.

(** *** Results of computations *)

Lemma yields_ret {A} (P : A -> Prop) a : P a -> yields P (ret a).
Proof. intros H w a' w' E. unfold ret in E. by simplify_eq. Qed.

Lemma yields_raise {A} (P : A -> Prop) e : yields P (raise e).
Proof. intros w a' w' E. unfold raise in E. by simplify_eq. Qed.

Lemma yields_lift {A} (P : A -> Prop) (r : res A) :
  (forall a, r = Ok a -> P a) -> yields P (lift r).
Proof. intros H. destruct r; [apply yields_ret; auto | apply yields_raise]. Qed.

Lemma yields_bind {A B} (P : B -> Prop) (m : M A) (k : A -> M B) :
  (forall a, yields P (k a)) -> yields P (bind m k).
Proof.
  intros Hk w b w' E. unfold bind in E.
  destruct (m w) as [[a | e |] w1]; [by eapply Hk | done | done].
Qed.

Lemma yields_try {A} (P : A -> Prop) (m : M A) (h : exn -> M A) :
  yields P m -> (forall e, yields P (h e)) -> yields P (try_except m h).
Proof.
  intros Hm Hh w a w' E. unfold try_except in E.
  destruct (m w) as [[a1 | e |] w1] eqn:Em; [| by eapply Hh | done].
  simplify_eq. by eapply Hm.
Qed.

Ltac yields_step :=
  lazymatch goal with
  | |- yields _ (bind _ _) => apply yields_bind; intros ?
  | |- yields _ (try_except _ _) => apply yields_try; [| intros ?]
  | |- yields _ (if ?c then _ else _) => destruct c
  | |- yields _ (match ?x with _ => _ end) => destruct x
  | |- yields _ (let _ := _ in _) => cbv zeta
  | |- yields _ (ret []) => apply yields_ret; constructor
  | |- yields _ (raise _) => apply yields_raise
  end.

Lemma get_prices_yahoo_within ticker start_date end_date :
  yields (within_window start_date end_date) (_get_prices_yahoo ticker start_date end_date).
Proof.
  unfold _get_prices_yahoo. repeat yields_step.
  apply yields_lift. intros prices H. by eapply yahoo_rows_within.
Qed.

Lemma get_prices_finnhub_within ticker start_date end_date :
  yields (within_window start_date end_date) (_get_prices_finnhub ticker start_date end_date).
Proof.
  unfold _get_prices_finnhub. repeat yields_step.
  apply yields_lift. intros prices H. by eapply finnhub_rows_within.
Qed.

(** An adapter that returns rows has parsed both dates. *)
Lemma get_prices_yahoo_dates ticker start_date end_date w p prices w' :
  _get_prices_yahoo ticker start_date end_date w = (Returns (p :: prices), w') ->
  (exists d, strptime start_date = Ok d) /\ (exists d, strptime end_date = Ok d).
Proof.
  unfold _get_prices_yahoo. intros Hrun.
  destruct (strptime start_date) as [d1 | e1]; [| by cbv in Hrun].
  destruct (strptime end_date) as [d2 | e2]; [| by cbv in Hrun].
  eauto.
Qed.

Lemma get_prices_finnhub_dates ticker start_date end_date w p prices w' :
  _get_prices_finnhub ticker start_date end_date w = (Returns (p :: prices), w') ->
  (exists d, strptime start_date = Ok d) /\ (exists d, strptime end_date = Ok d).
Proof.
  unfold _get_prices_finnhub. intros Hrun.
  destruct (strptime start_date) as [d1 | e1]; [| by cbv in Hrun].
  destruct (strptime end_date) as [d2 | e2]; [| by cbv in Hrun].
  eauto.
Qed.

(** What the miss path returns lies in the window, and it writes the cache
    only after both dates parsed. *)
Lemma fetch_prices_within key ticker start_date end_date w prices w' :
  fetch_prices key ticker start_date end_date w = (Returns prices, w') ->
  within_window start_date end_date prices
  /\ (prices <> [] ->
      (exists d, strptime start_date = Ok d) /\ (exists d, strptime end_date = Ok d)).
Proof.
  unfold fetch_prices. intros Hrun. unfold bind in Hrun.
  destruct (_get_prices_yahoo ticker start_date end_date w) as [[l1 | e1 |] w1] eqn:E1;
    [| done | done].
  destruct l1 as [| p1 l1].
  - destruct (_get_prices_finnhub ticker start_date end_date w1) as [[l2 | e2 |] w2] eqn:E2;
      [| done | done].
    destruct l2 as [| p2 l2]; unfold ret, _cache_set_prices in Hrun; simplify_eq.
    + split; [constructor | done].
    + split; [by eapply get_prices_finnhub_within | intros _; by eapply get_prices_finnhub_dates].
  - unfold ret, _cache_set_prices in Hrun. simplify_eq.
    split; [by eapply get_prices_yahoo_within | intros _; by eapply get_prices_yahoo_dates].
Qed.

(** *** The cache key determines the window *)

Lemma append_assoc (a b c : string) : (a +:+ b) +:+ c = a +:+ (b +:+ c).
Proof.
  induction a as [| x a IH]; [done |].
  change ((String x a +:+ b) +:+ c) with (String x ((a +:+ b) +:+ c)).
  change (String x a +:+ (b +:+ c)) with (String x (a +:+ (b +:+ c))).
  by rewrite IH.
Qed.

(** A string splits in one way only at its last underscore. *)
Lemma last_underscore (a a' e e' : string) :
  no_underscore e -> no_underscore e' ->
  a +:+ "_" +:+ e = a' +:+ "_" +:+ e' -> a = a' /\ e = e'.
Proof.
  unfold no_underscore. intros He He'. revert a'.
  induction a as [| x a IH]; intros [| x' a'] Heq.
  - cbn in Heq. by simplify_eq.
  - change (String "_" e = String x' (a' +:+ "_" +:+ e')) in Heq. simplify_eq.
    rewrite !count_append in He. cbn in He. lia.
  - change (String x (a +:+ "_" +:+ e) = String "_" e') in Heq. simplify_eq.
    rewrite !count_append in He'. cbn in He'. lia.
  - change (String x (a +:+ "_" +:+ e) = String x' (a' +:+ "_" +:+ e')) in Heq.
    simplify_eq. destruct (IH a') as [-> ->]; done.
Qed.

Lemma prices_cache_key_window ticker start_date end_date ticker' start_date' end_date' :
  no_underscore start_date -> no_underscore end_date ->
  no_underscore start_date' -> no_underscore end_date' ->
  prices_cache_key ticker start_date end_date = prices_cache_key ticker' start_date' end_date' ->
  start_date = start_date' /\ end_date = end_date'.
Proof.
  intros Hs He Hs' He' Heq. unfold prices_cache_key in Heq.
  rewrite <- !(append_assoc _ "_" (_ +:+ "_" +:+ _)) in Heq.
  rewrite <- !(append_assoc _ _ ("_" +:+ _)) in Heq.
  apply last_underscore in Heq as [Heq ->]; [| done | done].
  rewrite !(append_assoc _ "_" _) in Heq.
  apply last_underscore in Heq as [_ ->]; done.
Qed.

(** *** The invariant of the prices cache *)

Lemma prices_cache_windowed_initial : prices_cache_windowed initial_world.
Proof.
  intros ticker start_date end_date prices _ _ H.
  cbn [prices_cache initial_world] in H. by rewrite lookup_empty in H.
Qed.

Lemma prices_cache_windowed_same w w' :
  prices_cache w' = prices_cache w -> prices_cache_windowed w -> prices_cache_windowed w'.
Proof. intros Hc Hw ticker start_date end_date prices. rewrite Hc. apply Hw. Qed.

Section Windowed.

(** A date that [strptime] accepts under the format [%Y-%m-%d] holds digits
    and hyphens, no underscore. *)
Hypothesis strptime_no_underscore : forall s d, strptime s = Ok d -> no_underscore s.

Lemma get_prices_windowed ticker start_date end_date api_key w :
  prices_cache_windowed w ->
  prices_cache_windowed (snd (get_prices ticker start_date end_date api_key w)).
Proof.
  intros Hw.
  destruct (cache_hit (prices_cache w !! prices_cache_key ticker start_date end_date))
    as [d |] eqn:Hhit.
  - by rewrite (get_prices_hit _ _ _ _ _ d Hhit).
  - rewrite get_prices_miss by done.
    destruct (fetch_prices_outcome (prices_cache_key ticker start_date end_date)
                ticker start_date end_date w)
      as (l & w1 & E & _ & _ & _ & [[-> Hc] | [Hl Hc]]); rewrite E; cbn.
    + by eapply prices_cache_windowed_same.
    + apply fetch_prices_within in E as [Hin Hdates].
      destruct (Hdates Hl) as [[d1 H1] [d2 H2]].
      apply strptime_no_underscore in H1, H2.
      intros ticker' start_date' end_date' prices Hs He. rewrite Hc.
      destruct (decide (prices_cache_key ticker start_date end_date
                        = prices_cache_key ticker' start_date' end_date')) as [Heq | Hneq].
      * rewrite Heq, lookup_insert_eq. intros ?; simplify_eq.
        apply prices_cache_key_window in Heq as [<- <-]; done.
      * rewrite lookup_insert_ne by done. by apply Hw.
Qed.

Lemma reachable_prices_cache_windowed w : reachable w -> prices_cache_windowed w.
Proof.
  induction 1 as [| t s e k w Hr IH | t e p l k w Hr IH | t li e p l k w Hr IH
                  | f t e s l k w Hr IH | f t e s l k w Hr IH | t e k w Hr IH
                  | t w Hr IH | t w Hr IH | t s e w Hr IH | t s e w Hr IH
                  | t e p l w Hr IH | t e p l w Hr IH | ep ps m w Hr IH | w Hr IH
                  | u h m j r w Hr IH].
  - apply prices_cache_windowed_initial.
  - by apply get_prices_windowed.
  - eapply prices_cache_windowed_same; [| exact IH].
    apply preserves_prices_get_financial_metrics.
  - eapply prices_cache_windowed_same; [| exact IH].
    apply (preserves_search_line_items same_prices_cache).
  - eapply prices_cache_windowed_same; [| exact IH].
    apply preserves_prices_get_insider_trades.
  - eapply prices_cache_windowed_same; [| exact IH].
    apply preserves_prices_get_company_news.
  - eapply prices_cache_windowed_same; [| exact IH].
    apply preserves_prices_get_market_cap.
  - eapply prices_cache_windowed_same; [| exact IH].
    apply (preserves_get_market_cap_finnhub same_prices_cache).
  - eapply prices_cache_windowed_same; [| exact IH].
    apply (preserves_get_market_cap_fmp same_prices_cache).
  - eapply prices_cache_windowed_same; [| exact IH].
    apply (preserves_get_prices_finnhub same_prices_cache).
  - eapply prices_cache_windowed_same; [| exact IH].
    apply (preserves_get_prices_yahoo same_prices_cache).
  - eapply prices_cache_windowed_same; [| exact IH].
    by apply (preserves_get_financial_metrics_finnhub same_prices_cache).
  - eapply prices_cache_windowed_same; [| exact IH].
    apply (preserves_get_financial_metrics_fmp same_prices_cache).
  - eapply prices_cache_windowed_same; [| exact IH].
    apply (preserves_finnhub_request same_prices_cache).
  - eapply prices_cache_windowed_same; [| exact IH].
    apply (preserves_next_key same_prices_cache).
  - eapply prices_cache_windowed_same; [| exact IH].
    apply (preserves_make_api_request same_prices_cache).
Qed.

(** C9. In a process that started with an empty cache and changed it only
    through the module's functions, every call
    [get_prices(ticker, start_date, end_date)] whose [start_date] and
    [end_date] are dates, strings that [strptime] reads in the [%Y-%m-%d]
    form, returns a list, and every [Price] of that list has
    [start_date <= time <= end_date] under string comparison, whether Yahoo,
    Finnhub or the cache served it. The ticker is any string. *)
Theorem get_prices_within_window (ticker start_date end_date : string)
    (api_key : option string) (w : World) (first_day last_day : Z) :
  reachable w ->
  strptime start_date = Ok first_day ->
  strptime end_date = Ok last_day ->
  exists prices,
    fst (get_prices ticker start_date end_date api_key w) = Returns prices
    /\ within_window start_date end_date prices.
Proof.
  intros Hr Hs He.
  apply strptime_no_underscore in Hs, He.
  pose proof (reachable_prices_cache_windowed w Hr) as Hinv.
  destruct (always_returns_get_prices ticker start_date end_date api_key w) as [prices Hret].
  exists prices. split; [exact Hret |].
  destruct (get_prices ticker start_date end_date api_key w) as [o w'] eqn:Hrun.
  cbn in Hret. subst o.
  destruct (cache_hit (prices_cache w !! prices_cache_key ticker start_date end_date))
    as [d |] eqn:Hhit.
  - rewrite (get_prices_hit _ _ _ _ _ d Hhit) in Hrun.
    apply cache_hit_Some in Hhit as [Hhit _]. simplify_eq.
    by eapply Hinv.
  - rewrite get_prices_miss in Hrun by done.
    by apply fetch_prices_within in Hrun as [Hin _].
Qed.

End Windowed.

(** ** What reaches the caller *)

Lemma load_financial_metrics_error d e :
  load_financial_metrics d = Err e -> e = ValidationError.
Proof.
  induction d as [| [m | r k] d IH]; cbn; [done | | congruence].
  destruct (load_financial_metrics d); cbn; [done |]. intros ?; simplify_eq. by apply IH.
Qed.

Lemma get_financial_metrics_outcome ticker end_date period limit api_key w :
  (exists metrics, fst (get_financial_metrics ticker end_date period limit api_key w)
                   = Returns metrics)
  \/ (fst (get_financial_metrics ticker end_date period limit api_key w)
      = Raises ValidationError
      /\ exists d,
           cache_hit (financial_metrics_cache w
                        !! financial_metrics_cache_key ticker period end_date limit) = Some d
           /\ load_financial_metrics d = Err ValidationError).
Proof.
  destruct (cache_hit (financial_metrics_cache w
                         !! financial_metrics_cache_key ticker period end_date limit))
    as [d |] eqn:Hhit.
  - rewrite (get_financial_metrics_hit _ _ _ _ _ _ d Hhit).
    destruct (load_financial_metrics d) as [l | e] eqn:Hload.
    + left. by exists l.
    + right. apply load_financial_metrics_error in Hload as Heq. subst e.
      split; [done | by exists d].
  - left. rewrite get_financial_metrics_miss by done.
    destruct (fetch_financial_metrics_outcome ticker end_date period limit w)
      as (l & w1 & E & _).
    rewrite E. by eexists.
Qed.

Section Responding.

(** Every request gets some response: no transport failure. *)
Hypothesis responding : forall n req, exists r, http n req = Responded r.

Lemma make_api_attempts_responds remaining url headers method json_data max_retries :
  forall attempt w,
    Z.of_nat remaining = max_retries - attempt + 1 ->
    (0 < remaining)%nat ->
    exists r w',
      _make_api_attempts remaining attempt url headers method json_data max_retries w
      = (Returns (Some r), w').
Proof.
  induction remaining as [| n IH]; intros attempt w Hrem Hpos; [lia |].
  cbn [_make_api_attempts]. rewrite api_send.
  destruct (responding (length (http_log w)) (api_request url headers method json_data))
    as [r Hr].
  erewrite bind_returns by (by apply send_responded).
  destruct ((status_code r =? 429) && (attempt <? max_retries)) eqn:Hc.
  - apply andb_true_iff in Hc as [_ Hlt%Z.ltb_lt].
    unfold time_sleep at 1. erewrite bind_returns by reflexivity.
    apply IH; lia.
  - by eexists _, _.
Qed.

Lemma make_api_request_responds url headers method json_data w :
  exists r w', _make_api_request url headers method json_data 3 w = (Returns (Some r), w').
Proof. apply make_api_attempts_responds; cbn; lia. Qed.

Lemma search_line_items_returns ticker line_items end_date period limit api_key :
  always_returns (search_line_items ticker line_items end_date period limit api_key).
Proof.
  intros w. unfold search_line_items. cbv zeta.
  destruct (make_api_request_responds
              "https://api.financialdatasets.ai/financials/search/line-items"
              (financial_datasets_headers api_key) "POST"
              (Some (JDict [("tickers", JList [JStr ticker]);
                            ("line_items", JList (map JStr line_items));
                            ("end_date", JStr end_date);
                            ("period", JStr period);
                            ("limit", JInt limit)])) w)
    as (r & w1 & E).
  erewrite bind_returns by exact E.
  unfold status_of. erewrite bind_returns by reflexivity.
  destruct (negb (status_code r =? 200)); [by eexists |].
  destruct (res_bind _ _) as [[| x l] | e]; by eexists.
Qed.

Lemma feed_loop_never_raises {A} (date_of : A -> string) response_model page_url headers
    start_date limit fuel :
  forall all_records current_end_date w e,
    fst (feed_loop date_of response_model page_url headers start_date limit
           fuel all_records current_end_date w) <> Raises e.
Proof.
  induction fuel as [| fuel IH]; intros all_records current_end_date w e; [done |].
  cbn [feed_loop]. cbv zeta.
  destruct (make_api_request_responds (page_url current_end_date) headers "GET" None w)
    as (r & w1 & E).
  erewrite bind_returns by exact E. cbv beta iota.
  destruct (negb (status_code r =? 200)); [unfold ret; by cbn |].
  destruct (res_bind _ _) as [[| x l] | e']; [unfold ret; by cbn | | unfold ret; by cbn].
  destruct (given start_date); [| unfold ret; by cbn].
  destruct (_ <? _); [unfold ret; by cbn |].
  destruct (PyStr.le _ _); [unfold ret; by cbn | apply IH].
Qed.

Lemma get_insider_trades_never_raises fuel ticker end_date start_date limit api_key w e :
  fst (get_insider_trades fuel ticker end_date start_date limit api_key w) <> Raises e.
Proof.
  destruct (cache_hit (insider_trades_cache w !! feed_cache_key ticker start_date end_date limit))
    as [d |] eqn:Hhit.
  - by rewrite (get_insider_trades_hit _ _ _ _ _ _ _ d Hhit).
  - rewrite get_insider_trades_miss by done. unfold fetch_insider_trades, bind.
    pose proof (feed_loop_never_raises filing_date InsiderTradeResponse
                  (insider_trades_url ticker start_date limit)
                  (financial_datasets_headers api_key) start_date limit fuel [] end_date w)
      as Hloop.
    destruct (feed_loop _ _ _ _ _ _ _ _ _ w) as [[[| t l] | e' |] w1]; cbn; try done.
    all: intros ?; simplify_eq; by specialize (Hloop e).
Qed.

Lemma get_company_news_never_raises fuel ticker end_date start_date limit api_key w e :
  fst (get_company_news fuel ticker end_date start_date limit api_key w) <> Raises e.
Proof.
  destruct (cache_hit (company_news_cache w !! feed_cache_key ticker start_date end_date limit))
    as [d |] eqn:Hhit.
  - by rewrite (get_company_news_hit _ _ _ _ _ _ _ d Hhit).
  - rewrite get_company_news_miss by done. unfold fetch_company_news, bind.
    pose proof (feed_loop_never_raises date CompanyNewsResponse
                  (company_news_url ticker start_date limit)
                  (financial_datasets_headers api_key) start_date limit fuel [] end_date w)
      as Hloop.
    destruct (feed_loop _ _ _ _ _ _ _ _ _ w) as [[[| t l] | e' |] w1]; cbn; try done.
    all: intros ?; simplify_eq; by specialize (Hloop e).
Qed.

End Responding.

(** ** Pagination *)

(** The answer [_make_api_request] hands back is one the provider gave to
    that request. *)
Lemma make_api_attempts_answer remaining url headers method json_data max_retries :
  forall attempt w r w',
    _make_api_attempts remaining attempt url headers method json_data max_retries w
    = (Returns (Some r), w') ->
    exists n, http n (api_request url headers method json_data) = Responded r.
Proof.
  induction remaining as [| n IH]; intros attempt w r w' Hrun; [done |].
  cbn [_make_api_attempts] in Hrun. rewrite api_send in Hrun.
  unfold bind at 1 in Hrun. unfold send in Hrun.
  destruct (http (length (http_log w)) (api_request url headers method json_data))
    as [r0 | e] eqn:Hr0; [| done].
  destruct ((status_code r0 =? 429) && (attempt <? max_retries)).
  - unfold bind, time_sleep in Hrun. by eapply IH.
  - unfold ret in Hrun. simplify_eq. by eexists.
Qed.

Section FeedLoop.

Context {A : Type}.
Variable date_of : A -> string.
Variable response_model : json -> res (list A).
Variable page_url : string -> string.
Variable headers : list (string * string).
Variable start_date : option string.
Variable limit : Z.

Let loop := feed_loop date_of response_model page_url headers start_date limit.

(** One pass either ends the loop, with the same outcome whatever fuel is
    left, or it got a full page whose oldest day is after [start_date] and
    goes round again with that day as the cursor. *)
Lemma feed_loop_pass all_records current_end_date w :
  (exists o w',
     o <> OutOfFuel
     /\ (forall l, o = Returns l ->
           (length all_records <= length l)%nat)
     /\ forall fuel, loop (S fuel) all_records current_end_date w = (o, w'))
  \/ (exists n r first others start w1,
        http n (api_request (page_url current_end_date) headers "GET" None) = Responded r
        /\ status_code r = 200
        /\ (let? data := response_json r in response_model data) = Ok (first :: others)
        /\ given start_date = Some start
        /\ limit <= Z.of_nat (length (first :: others))
        /\ PyStr.le (oldest_day date_of first others) start = false
        /\ forall fuel,
             loop (S fuel) all_records current_end_date w
             = loop fuel (all_records ++ first :: others)%list
                 (oldest_day date_of first others) w1).
Proof.
  subst loop. cbn [feed_loop]. cbv zeta.
  destruct (_make_api_request (page_url current_end_date) headers "GET" None 3 w)
    as [[[r |] | e |] w1] eqn:E.
  - destruct (negb (status_code r =? 200)) eqn:Hs.
    { left. exists (Returns all_records), w1. split; [done |]. split.
      - intros l ?. by simplify_eq.
      - intros fuel. unfold bind. rewrite E. cbv beta iota. by rewrite ?Hs. }
    destruct (let? data := response_json r in response_model data)
      as [[| first others] | e] eqn:Hparse.
    + left. exists (Returns all_records), w1. split; [done |]. split.
      * intros l ?. by simplify_eq.
      * intros fuel. unfold bind. rewrite E. cbv beta iota. by rewrite ?Hs, ?Hparse.
    + destruct (given start_date) as [start |] eqn:Hgiven; cycle 1.
      { left. exists (Returns (all_records ++ first :: others)%list), w1.
        split; [done |]. split.
        - intros l ?. simplify_eq. rewrite length_app. lia.
        - intros fuel. unfold bind. rewrite E. cbv beta iota.
          by rewrite ?Hs, ?Hparse, ?Hgiven. }
      destruct (Z.of_nat (length (first :: others)) <? limit) eqn:Hl.
      { left. exists (Returns (all_records ++ first :: others)%list), w1.
        split; [done |]. split.
        - intros l ?. simplify_eq. rewrite length_app. lia.
        - intros fuel. unfold bind. rewrite E. cbv beta iota.
          by rewrite ?Hs, ?Hparse, ?Hgiven, ?Hl. }
      destruct (PyStr.le (oldest_day date_of first others) start) eqn:Hle.
      { left. exists (Returns (all_records ++ first :: others)%list), w1.
        split; [done |]. split.
        - intros l ?. simplify_eq. rewrite length_app. lia.
        - intros fuel. unfold bind. rewrite E. cbv beta iota.
          by rewrite ?Hs, ?Hparse, ?Hgiven, ?Hl, ?Hle. }
      right. pose proof E as Hn. unfold _make_api_request in Hn.
      apply make_api_attempts_answer in Hn as [n Hn].
      exists n, r, first, others, start, w1.
      split; [done |].
      split; [by apply negb_false_iff, Z.eqb_eq in Hs |].
      split; [done |]. split; [done |].
      split; [by apply Z.ltb_ge in Hl |]. split; [done |].
      intros fuel. unfold bind. rewrite E. cbv beta iota.
      by rewrite ?Hs, ?Hparse, ?Hgiven, ?Hl, ?Hle.
    + left. exists (Returns all_records), w1. split; [done |]. split.
      * intros l ?. by simplify_eq.
      * intros fuel. unfold bind. rewrite E. cbv beta iota. by rewrite ?Hs, ?Hparse.
  - left. exists (Raises AttributeError), w1. split; [done |]. split; [done |].
    intros fuel. unfold bind. by rewrite E.
  - left. exists (Raises e), w1. split; [done |]. split; [done |].
    intros fuel. unfold bind. by rewrite E.
  - exfalso.
    apply (total_make_api_request (page_url current_end_date) headers "GET" None 3 w).
    by rewrite E.
Qed.

(** A run that needs [k] passes beyond the first has gathered [k] full
    pages. *)
Lemma feed_loop_pages k :
  forall all_records current_end_date w l w',
    loop (S k) all_records current_end_date w = (Returns l, w') ->
    fst (loop k all_records current_end_date w) = OutOfFuel ->
    Z.of_nat (length all_records) + Z.of_nat k * limit <= Z.of_nat (length l).
Proof.
  induction k as [| k IH]; intros all_records current_end_date w l w' Hrun Hless.
  - destruct (feed_loop_pass all_records current_end_date w)
      as [(o & w1 & _ & Hlen & Hstop)
         | (n & r & first & others & start & w1 & _ & _ & _ & _ & _ & _ & Hnext)].
    + rewrite Hstop in Hrun. simplify_eq. specialize (Hlen l eq_refl). lia.
    + rewrite Hnext in Hrun. subst loop. done.
  - destruct (feed_loop_pass all_records current_end_date w)
      as [(o & w1 & Ho & _ & Hstop)
         | (n & r & first & others & start & w1 & _ & _ & _ & _ & Hfull & _ & Hnext)].
    + rewrite Hstop in Hless. by cbn in Hless.
    + rewrite Hnext in Hrun, Hless.
      specialize (IH _ _ _ _ _ Hrun Hless). rewrite length_app in IH. lia.
Qed.

(** With a measure of cursors that every full page lowers, the loop ends
    within as many passes as the first cursor measures, plus one. *)
Lemma feed_loop_terminates (rank : string -> nat) :
  (forall n current_end_date r first others,
     http n (api_request (page_url current_end_date) headers "GET" None) = Responded r ->
     status_code r = 200 ->
     (let? data := response_json r in response_model data) = Ok (first :: others) ->
     limit <= Z.of_nat (length (first :: others)) ->
     (rank (oldest_day date_of first others) < rank current_end_date)%nat) ->
  forall fuel all_records current_end_date w,
    (rank current_end_date < fuel)%nat ->
    fst (loop fuel all_records current_end_date w) <> OutOfFuel.
Proof.
  intros Hprogress.
  induction fuel as [| fuel IH]; intros all_records current_end_date w Hrank; [lia |].
  destruct (feed_loop_pass all_records current_end_date w)
    as [(o & w1 & Ho & _ & Hstop)
       | (n & r & first & others & start & w1 & Hn & Hs & Hp & _ & Hfull & _ & Hnext)].
  - by rewrite Hstop.
  - rewrite Hnext. apply IH.
    specialize (Hprogress n current_end_date r first others Hn Hs Hp Hfull). lia.
Qed.

(** More fuel does not change a run that ended. *)
Lemma feed_loop_fuel fuel :
  forall all_records current_end_date w,
    fst (loop fuel all_records current_end_date w) <> OutOfFuel ->
    loop (S fuel) all_records current_end_date w = loop fuel all_records current_end_date w.
Proof.
  induction fuel as [| fuel IH]; intros all_records current_end_date w Hend.
  - subst loop. by cbn in Hend.
  - destruct (feed_loop_pass all_records current_end_date w)
      as [(o & w1 & Ho & _ & Hstop)
         | (n & r & first & others & start & w1 & _ & _ & _ & _ & _ & _ & Hnext)].
    + by rewrite !Hstop.
    + rewrite !Hnext in *. by apply IH.
Qed.

(** After a full page whose oldest day is later than the start date the
    loop goes round again with that day as the cursor; the cursor before
    plays no part. *)
Lemma feed_loop_goes_on all_records current_end_date w r w1 first others start :
  _make_api_request (page_url current_end_date) headers "GET" None 3 w
  = (Returns (Some r), w1) ->
  status_code r = 200 ->
  (let? data := response_json r in response_model data) = Ok (first :: others) ->
  given start_date = Some start ->
  limit <= Z.of_nat (length (first :: others)) ->
  PyStr.le (oldest_day date_of first others) start = false ->
  forall fuel,
    loop (S fuel) all_records current_end_date w
    = loop fuel (all_records ++ first :: others)%list (oldest_day date_of first others) w1.
Proof.
  intros E Hs Hparse Hgiven Hfull Hle fuel. subst loop. cbn [feed_loop]. cbv zeta.
  unfold bind. rewrite E. cbv beta iota.
  assert (negb (status_code r =? 200) = false) as -> by (by rewrite Hs).
  rewrite Hparse, Hgiven.
  assert ((Z.of_nat (length (first :: others)) <? limit) = false) as ->
    by (apply Z.ltb_ge; lia).
  by rewrite Hle.
Qed.

(** So a provider that keeps answering full pages dated after the start
    date keeps the loop going for ever, whether or not the cursor moves:
    no fuel is enough, and nothing is raised. *)
Lemma feed_loop_never_ends start :
  given start_date = Some start ->
  (forall n current_end_date,
     exists r first others,
       http n (api_request (page_url current_end_date) headers "GET" None) = Responded r
       /\ status_code r = 200
       /\ (let? data := response_json r in response_model data) = Ok (first :: others)
       /\ limit <= Z.of_nat (length (first :: others))
       /\ PyStr.le (oldest_day date_of first others) start = false) ->
  forall fuel all_records current_end_date w,
    fst (loop fuel all_records current_end_date w) = OutOfFuel.
Proof.
  intros Hgiven Hfull.
  induction fuel as [| fuel IH]; intros all_records current_end_date w; [done |].
  destruct (Hfull (length (http_log w)) current_end_date)
    as (r & first & others & Hr & Hs & Hparse & Hlen & Hle).
  destruct (make_api_attempts_run (page_url current_end_date) headers "GET" None 3 0
              (Z.to_nat (3 + 1)) 0 w r)
    as (w1 & E & _); [lia | lia | intros i Hi; lia | by rewrite Nat.add_0_r | left; lia |].
  rewrite (feed_loop_goes_on all_records current_end_date w r w1 first others start)
    by done.
  apply IH.
Qed.

End FeedLoop.

Lemma fetch_insider_trades_fuel fuel key ticker end_date start_date limit api_key w :
  fst (feed_loop filing_date InsiderTradeResponse (insider_trades_url ticker start_date limit)
         (financial_datasets_headers api_key) start_date limit fuel [] end_date w)
  <> OutOfFuel ->
  fst (fetch_insider_trades fuel key ticker end_date start_date limit api_key w) <> OutOfFuel.
Proof.
  unfold fetch_insider_trades, bind.
  destruct (feed_loop _ _ _ _ _ _ _ _ _ w) as [[[| t l] | e |] w1]; by cbn.
Qed.

Lemma fetch_company_news_fuel fuel key ticker end_date start_date limit api_key w :
  fst (feed_loop date CompanyNewsResponse (company_news_url ticker start_date limit)
         (financial_datasets_headers api_key) start_date limit fuel [] end_date w)
  <> OutOfFuel ->
  fst (fetch_company_news fuel key ticker end_date start_date limit api_key w) <> OutOfFuel.
Proof.
  unfold fetch_company_news, bind.
  destruct (feed_loop _ _ _ _ _ _ _ _ _ w) as [[[| t l] | e |] w1]; by cbn.
Qed.

(** C3 (as amended). The feed loop of [get_insider_trades] and
    [get_company_news] has no guard against a cursor that does not move and
    raises no pagination error. One pass either ends the loop (non-200
    answer, unreadable body, empty page, no start date, short page, or the
    page's oldest day at or before the start date) or goes round again; and
    whenever the answer is a full page whose oldest day is later than the
    start date, the loop does go round again with that day as the cursor,
    whatever the cursor before was. So a provider that keeps answering such
    pages keeps both getters going for ever: no fuel is enough and nothing
    is raised. A run that ends after k+1 passes has gathered k full pages,
    so k * limit records at least. When some natural-number measure of
    cursors is lowered by every full page, both getters end within
    measure(end_date) + 1 passes. *)
Theorem pagination_passes :
  (forall (A : Type) (date_of : A -> string) (response_model : json -> res (list A))
          (page_url : string -> string) (headers : list (string * string))
          (start_date : option string) (limit : Z),
     let loop := feed_loop date_of response_model page_url headers start_date limit in
     (forall all_records current_end_date w,
        (exists o w',
           o <> OutOfFuel
           /\ forall fuel, loop (S fuel) all_records current_end_date w = (o, w'))
        \/ (exists n r first others start w1,
              http n (api_request (page_url current_end_date) headers "GET" None)
              = Responded r
              /\ status_code r = 200
              /\ (let? data := response_json r in response_model data) = Ok (first :: others)
              /\ given start_date = Some start
              /\ limit <= Z.of_nat (length (first :: others))
              /\ PyStr.le (oldest_day date_of first others) start = false
              /\ forall fuel,
                   loop (S fuel) all_records current_end_date w
                   = loop fuel (all_records ++ first :: others)%list
                       (oldest_day date_of first others) w1))
     /\ (forall k all_records current_end_date w l w',
           loop (S k) all_records current_end_date w = (Returns l, w') ->
           fst (loop k all_records current_end_date w) = OutOfFuel ->
           Z.of_nat (length all_records) + Z.of_nat k * limit <= Z.of_nat (length l))
     /\ (forall all_records current_end_date w r w1 first others start,
           _make_api_request (page_url current_end_date) headers "GET" None 3 w
           = (Returns (Some r), w1) ->
           status_code r = 200 ->
           (let? data := response_json r in response_model data) = Ok (first :: others) ->
           given start_date = Some start ->
           limit <= Z.of_nat (length (first :: others)) ->
           PyStr.le (oldest_day date_of first others) start = false ->
           forall fuel,
             loop (S fuel) all_records current_end_date w
             = loop fuel (all_records ++ first :: others)%list
                 (oldest_day date_of first others) w1)
     /\ (forall start,
           given start_date = Some start ->
           (forall n current_end_date,
              exists r first others,
                http n (api_request (page_url current_end_date) headers "GET" None)
                = Responded r
                /\ status_code r = 200
                /\ (let? data := response_json r in response_model data)
                   = Ok (first :: others)
                /\ limit <= Z.of_nat (length (first :: others))
                /\ PyStr.le (oldest_day date_of first others) start = false) ->
           forall fuel all_records current_end_date w,
             fst (loop fuel all_records current_end_date w) = OutOfFuel))
  /\ (forall (rank : string -> nat) ticker end_date start_date limit api_key w,
        (forall n current_end_date r first others,
           http n (api_request (insider_trades_url ticker start_date limit current_end_date)
                     (financial_datasets_headers api_key) "GET" None) = Responded r ->
           status_code r = 200 ->
           (let? data := response_json r in InsiderTradeResponse data) = Ok (first :: others) ->
           limit <= Z.of_nat (length (first :: others)) ->
           (rank (oldest_day filing_date first others) < rank current_end_date)%nat) ->
        fst (get_insider_trades (S (rank end_date)) ticker end_date start_date limit api_key w)
        <> OutOfFuel)
  /\ (forall (rank : string -> nat) ticker end_date start_date limit api_key w,
        (forall n current_end_date r first others,
           http n (api_request (company_news_url ticker start_date limit current_end_date)
                     (financial_datasets_headers api_key) "GET" None) = Responded r ->
           status_code r = 200 ->
           (let? data := response_json r in CompanyNewsResponse data) = Ok (first :: others) ->
           limit <= Z.of_nat (length (first :: others)) ->
           (rank (oldest_day date first others) < rank current_end_date)%nat) ->
        fst (get_company_news (S (rank end_date)) ticker end_date start_date limit api_key w)
        <> OutOfFuel)
  /\ (forall ticker end_date start_date start limit api_key w,
        cache_hit (insider_trades_cache w !! feed_cache_key ticker start_date end_date limit)
        = None ->
        given start_date = Some start ->
        (forall n current_end_date,
           exists r first others,
             http n (api_request (insider_trades_url ticker start_date limit current_end_date)
                       (financial_datasets_headers api_key) "GET" None) = Responded r
             /\ status_code r = 200
             /\ (let? data := response_json r in InsiderTradeResponse data)
                = Ok (first :: others)
             /\ limit <= Z.of_nat (length (first :: others))
             /\ PyStr.le (oldest_day filing_date first others) start = false) ->
        forall fuel,
          fst (get_insider_trades fuel ticker end_date start_date limit api_key w)
          = OutOfFuel)
  /\ (forall ticker end_date start_date start limit api_key w,
        cache_hit (company_news_cache w !! feed_cache_key ticker start_date end_date limit)
        = None ->
        given start_date = Some start ->
        (forall n current_end_date,
           exists r first others,
             http n (api_request (company_news_url ticker start_date limit current_end_date)
                       (financial_datasets_headers api_key) "GET" None) = Responded r
             /\ status_code r = 200
             /\ (let? data := response_json r in CompanyNewsResponse data)
                = Ok (first :: others)
             /\ limit <= Z.of_nat (length (first :: others))
             /\ PyStr.le (oldest_day date first others) start = false) ->
        forall fuel,
          fst (get_company_news fuel ticker end_date start_date limit api_key w)
          = OutOfFuel).
Proof.
  split; [| split; [| split; [| split]]].
  - intros A date_of response_model page_url headers start_date limit loop.
    split; [| split; [| split]].
    + intros all_records current_end_date w.
      destruct (feed_loop_pass date_of response_model page_url headers start_date limit
                  all_records current_end_date w)
        as [(o & w1 & Ho & _ & Hstop) | Hnext]; [| by right].
      left. by exists o, w1.
    + intros k. apply feed_loop_pages.
    + apply feed_loop_goes_on.
    + apply feed_loop_never_ends.
  - intros rank ticker end_date start_date limit api_key w Hprogress.
    destruct (cache_hit (insider_trades_cache w !! feed_cache_key ticker start_date end_date limit))
      as [d |] eqn:Hhit.
    + by rewrite (get_insider_trades_hit _ _ _ _ _ _ _ d Hhit).
    + rewrite get_insider_trades_miss by done.
      apply fetch_insider_trades_fuel.
      apply (feed_loop_terminates _ _ _ _ _ _ rank); [exact Hprogress | lia].
  - intros rank ticker end_date start_date limit api_key w Hprogress.
    destruct (cache_hit (company_news_cache w !! feed_cache_key ticker start_date end_date limit))
      as [d |] eqn:Hhit.
    + by rewrite (get_company_news_hit _ _ _ _ _ _ _ d Hhit).
    + rewrite get_company_news_miss by done.
      apply fetch_company_news_fuel.
      apply (feed_loop_terminates _ _ _ _ _ _ rank); [exact Hprogress | lia].
  - intros ticker end_date start_date start limit api_key w Hmiss Hgiven Hfull fuel.
    rewrite get_insider_trades_miss by done. unfold fetch_insider_trades, bind.
    pose proof (feed_loop_never_ends filing_date InsiderTradeResponse
                  (insider_trades_url ticker start_date limit)
                  (financial_datasets_headers api_key) start_date limit start Hgiven Hfull
                  fuel [] end_date w) as Hloop.
    destruct (feed_loop _ _ _ _ _ _ _ _ _ w) as [o w1]. cbn in Hloop. by subst o.
  - intros ticker end_date start_date start limit api_key w Hmiss Hgiven Hfull fuel.
    rewrite get_company_news_miss by done. unfold fetch_company_news, bind.
    pose proof (feed_loop_never_ends date CompanyNewsResponse
                  (company_news_url ticker start_date limit)
                  (financial_datasets_headers api_key) start_date limit start Hgiven Hfull
                  fuel [] end_date w) as Hloop.
    destruct (feed_loop _ _ _ _ _ _ _ _ _ w) as [o w1]. cbn in Hloop. by subst o.
Qed.

(** ** A transport failure on any request *)

(** After [k] answers 429, a transport failure of the next request leaves
    the executor as the exception it is. *)
Lemma make_api_attempts_fails url headers method json_data max_retries (k : nat) :
  forall remaining attempt w e,
    (k < remaining)%nat ->
    attempt + Z.of_nat k <= max_retries ->
    (forall i, (i < k)%nat ->
       exists ri, http (length (http_log w) + i) (api_request url headers method json_data)
                    = Responded ri /\ status_code ri = 429) ->
    http (length (http_log w) + k) (api_request url headers method json_data) = Failed e ->
    exists w',
      _make_api_attempts remaining attempt url headers method json_data max_retries w
      = (Raises e, w').
Proof.
  induction k as [| k IH]; intros remaining attempt w e Hrem Hatt H429 Hfail.
  - destruct remaining as [| remaining']; [lia |].
    cbn [_make_api_attempts]. rewrite api_send.
    rewrite Nat.add_0_r in Hfail.
    erewrite bind_raises by (by apply send_failed). by eexists.
  - destruct remaining as [| remaining']; [lia |].
    destruct (H429 O ltac:(lia)) as (r0 & Hr0 & Hs0).
    rewrite Nat.add_0_r in Hr0.
    cbn [_make_api_attempts]. rewrite api_send.
    erewrite bind_returns by (by apply send_responded).
    assert ((status_code r0 =? 429) && (attempt <? max_retries) = true) as ->.
    { apply andb_true_iff. split; [by apply Z.eqb_eq | apply Z.ltb_lt; lia]. }
    unfold time_sleep at 1.
    erewrite bind_returns by reflexivity.
    set (w1 := log_sleep _ _).
    apply (IH remaining' (attempt + 1) w1 e).
    + lia.
    + lia.
    + intros i Hi. destruct (H429 (S i) ltac:(lia)) as (ri & Hri & Hsi).
      exists ri. split; [| done]. subst w1. cbn. by rewrite <- Nat.add_succ_r.
    + subst w1. cbn. by rewrite <- Nat.add_succ_r.
Qed.

Lemma make_api_request_fails url headers method json_data w (k : nat) e :
  (k <= 3)%nat ->
  (forall i, (i < k)%nat ->
     exists ri, http (length (http_log w) + i) (api_request url headers method json_data)
                  = Responded ri /\ status_code ri = 429) ->
  http (length (http_log w) + k) (api_request url headers method json_data) = Failed e ->
  exists w', _make_api_request url headers method json_data 3 w = (Raises e, w').
Proof.
  intros Hk H429 Hfail. unfold _make_api_request.
  apply (make_api_attempts_fails url headers method json_data 3 k); [cbn; lia | lia | done | done].
Qed.

Lemma search_line_items_fails ticker line_items end_date period limit api_key w (k : nat) e :
  let request :=
    api_request "https://api.financialdatasets.ai/financials/search/line-items"
      (financial_datasets_headers api_key) "POST"
      (Some (JDict [("tickers", JList [JStr ticker]);
                    ("line_items", JList (map JStr line_items));
                    ("end_date", JStr end_date);
                    ("period", JStr period);
                    ("limit", JInt limit)])) in
  (k <= 3)%nat ->
  (forall i, (i < k)%nat ->
     exists ri, http (length (http_log w) + i) request = Responded ri
                /\ status_code ri = 429) ->
  http (length (http_log w) + k) request = Failed e ->
  fst (search_line_items ticker line_items end_date period limit api_key w) = Raises e.
Proof.
  intros request Hk H429 Hfail. unfold search_line_items. cbv zeta.
  destruct (make_api_request_fails _ _ _ _ w k e Hk H429 Hfail) as [w' E].
  by erewrite bind_raises by exact E.
Qed.

Section FeedFails.

Context {A : Type}.
Variable date_of : A -> string.
Variable response_model : json -> res (list A).
Variable page_url : string -> string.
Variable headers : list (string * string).
Variable start_date : option string.
Variable limit : Z.

(** The loop that has come to a pass goes on from there. *)
Lemma feed_reaches_loop n all_records cursor w all_records' cursor' w' :
  feed_reaches date_of response_model page_url headers start_date limit
    n all_records cursor w all_records' cursor' w' ->
  forall fuel,
    feed_loop date_of response_model page_url headers start_date limit
      (n + fuel)%nat all_records cursor w
    = feed_loop date_of response_model page_url headers start_date limit
        fuel all_records' cursor' w'.
Proof.
  induction 1 as [| n all_records cursor w all_records' cursor' w' r w1 first others start
                    Hreach IH Hrun Hs Hparse Hgiven Hfull Hafter]; intros fuel; [done |].
  replace (S n + fuel)%nat with (n + S fuel)%nat by lia.
  rewrite IH. by eapply feed_loop_goes_on.
Qed.

(** A transport failure on any pass, after any number of 429 answers on that
    pass, ends the loop as the exception it is. *)
Lemma feed_loop_fails n all_records cursor w all_records' cursor' w' (k : nat) e fuel :
  feed_reaches date_of response_model page_url headers start_date limit
    n all_records cursor w all_records' cursor' w' ->
  (k <= 3)%nat ->
  (forall i, (i < k)%nat ->
     exists ri, http (length (http_log w') + i)
                  (api_request (page_url cursor') headers "GET" None) = Responded ri
                /\ status_code ri = 429) ->
  http (length (http_log w') + k) (api_request (page_url cursor') headers "GET" None)
  = Failed e ->
  (n < fuel)%nat ->
  fst (feed_loop date_of response_model page_url headers start_date limit
         fuel all_records cursor w) = Raises e.
Proof.
  intros Hreach Hk H429 Hfail Hfuel.
  replace fuel with (n + S (fuel - S n))%nat by lia.
  rewrite (feed_reaches_loop _ _ _ _ _ _ _ Hreach).
  cbn [feed_loop]. cbv zeta.
  destruct (make_api_request_fails _ _ _ _ w' k e Hk H429 Hfail) as [w2 E].
  by erewrite bind_raises by exact E.
Qed.

End FeedFails.

Lemma get_insider_trades_fails fuel ticker end_date start_date limit api_key w
    n all_records cursor w' (k : nat) e :
  cache_hit (insider_trades_cache w !! feed_cache_key ticker start_date end_date limit) = None ->
  feed_reaches filing_date InsiderTradeResponse (insider_trades_url ticker start_date limit)
    (financial_datasets_headers api_key) start_date limit
    n [] end_date w all_records cursor w' ->
  (k <= 3)%nat ->
  (forall i, (i < k)%nat ->
     exists ri, http (length (http_log w') + i)
                  (api_request (insider_trades_url ticker start_date limit cursor)
                     (financial_datasets_headers api_key) "GET" None) = Responded ri
                /\ status_code ri = 429) ->
  http (length (http_log w') + k)
    (api_request (insider_trades_url ticker start_date limit cursor)
       (financial_datasets_headers api_key) "GET" None) = Failed e ->
  (n < fuel)%nat ->
  fst (get_insider_trades fuel ticker end_date start_date limit api_key w) = Raises e.
Proof.
  intros Hmiss Hreach Hk H429 Hfail Hfuel. rewrite get_insider_trades_miss by done.
  unfold fetch_insider_trades, bind.
  pose proof (feed_loop_fails _ _ _ _ _ _ _ _ _ _ _ _ _ k e fuel Hreach Hk H429 Hfail Hfuel)
    as Hloop.
  destruct (feed_loop _ _ _ _ _ _ _ _ _ w) as [o w1]. cbn in Hloop. by subst o.
Qed.

Lemma get_company_news_fails fuel ticker end_date start_date limit api_key w
    n all_records cursor w' (k : nat) e :
  cache_hit (company_news_cache w !! feed_cache_key ticker start_date end_date limit) = None ->
  feed_reaches date CompanyNewsResponse (company_news_url ticker start_date limit)
    (financial_datasets_headers api_key) start_date limit
    n [] end_date w all_records cursor w' ->
  (k <= 3)%nat ->
  (forall i, (i < k)%nat ->
     exists ri, http (length (http_log w') + i)
                  (api_request (company_news_url ticker start_date limit cursor)
                     (financial_datasets_headers api_key) "GET" None) = Responded ri
                /\ status_code ri = 429) ->
  http (length (http_log w') + k)
    (api_request (company_news_url ticker start_date limit cursor)
       (financial_datasets_headers api_key) "GET" None) = Failed e ->
  (n < fuel)%nat ->
  fst (get_company_news fuel ticker end_date start_date limit api_key w) = Raises e.
Proof.
  intros Hmiss Hreach Hk H429 Hfail Hfuel. rewrite get_company_news_miss by done.
  unfold fetch_company_news, bind.
  pose proof (feed_loop_fails _ _ _ _ _ _ _ _ _ _ _ _ _ k e fuel Hreach Hk H429 Hfail Hfuel)
    as Hloop.
  destruct (feed_loop _ _ _ _ _ _ _ _ _ w) as [o w1]. cbn in Hloop. by subst o.
Qed.

(** C4 (as amended). [get_prices] returns a list in every world and for
    every behaviour of the providers, transport failures included, and so
    does [get_financial_metrics] unless the cached entry under its key is
    not a list of dumped records (a local fault, raised as a validation
    error). [search_line_items], [get_insider_trades] and
    [get_company_news] absorb rate limits, other non-200 statuses and
    malformed bodies: when every request gets a response, the first returns
    a list and the feeds never raise. But an exception raised by the HTTP
    call itself (timeout, connection failure) is caught nowhere on their
    path. Whatever request it strikes, the first of a call or one sent after
    up to three 429 answers, on the first page of a feed or on a later one
    that the loop came to, [_make_api_request] raises it and so does the
    getter, to its caller. *)
Theorem upstream_failures_and_the_caller :
  (forall ticker start_date end_date api_key w,
     exists prices, fst (get_prices ticker start_date end_date api_key w) = Returns prices)
  /\ (forall ticker end_date period limit api_key w,
        (exists metrics, fst (get_financial_metrics ticker end_date period limit api_key w)
                         = Returns metrics)
        \/ (fst (get_financial_metrics ticker end_date period limit api_key w)
            = Raises ValidationError
            /\ exists d,
                 cache_hit (financial_metrics_cache w
                              !! financial_metrics_cache_key ticker period end_date limit)
                 = Some d
                 /\ load_financial_metrics d = Err ValidationError))
  /\ ((forall n req, exists r, http n req = Responded r) ->
      (forall ticker line_items end_date period limit api_key w,
         exists items,
           fst (search_line_items ticker line_items end_date period limit api_key w)
           = Returns items)
      /\ (forall fuel ticker end_date start_date limit api_key w e,
            fst (get_insider_trades fuel ticker end_date start_date limit api_key w)
            <> Raises e)
      /\ (forall fuel ticker end_date start_date limit api_key w e,
            fst (get_company_news fuel ticker end_date start_date limit api_key w)
            <> Raises e))
  /\ (forall url headers method json_data w (k : nat) e,
        (k <= 3)%nat ->
        (forall i, (i < k)%nat ->
           exists ri, http (length (http_log w) + i)
                        (api_request url headers method json_data) = Responded ri
                      /\ status_code ri = 429) ->
        http (length (http_log w) + k) (api_request url headers method json_data)
        = Failed e ->
        fst (_make_api_request url headers method json_data 3 w) = Raises e)
  /\ (forall ticker line_items end_date period limit api_key w (k : nat) e,
        let request :=
          api_request "https://api.financialdatasets.ai/financials/search/line-items"
            (financial_datasets_headers api_key) "POST"
            (Some (JDict [("tickers", JList [JStr ticker]);
                          ("line_items", JList (map JStr line_items));
                          ("end_date", JStr end_date);
                          ("period", JStr period);
                          ("limit", JInt limit)])) in
        (k <= 3)%nat ->
        (forall i, (i < k)%nat ->
           exists ri, http (length (http_log w) + i) request = Responded ri
                      /\ status_code ri = 429) ->
        http (length (http_log w) + k) request = Failed e ->
        fst (search_line_items ticker line_items end_date period limit api_key w) = Raises e)
  /\ (forall fuel ticker end_date start_date limit api_key w
             (n : nat) all_records cursor w' (k : nat) e,
        cache_hit (insider_trades_cache w !! feed_cache_key ticker start_date end_date limit)
        = None ->
        feed_reaches filing_date InsiderTradeResponse
          (insider_trades_url ticker start_date limit)
          (financial_datasets_headers api_key) start_date limit
          n [] end_date w all_records cursor w' ->
        (k <= 3)%nat ->
        (forall i, (i < k)%nat ->
           exists ri, http (length (http_log w') + i)
                        (api_request (insider_trades_url ticker start_date limit cursor)
                           (financial_datasets_headers api_key) "GET" None) = Responded ri
                      /\ status_code ri = 429) ->
        http (length (http_log w') + k)
          (api_request (insider_trades_url ticker start_date limit cursor)
             (financial_datasets_headers api_key) "GET" None) = Failed e ->
        (n < fuel)%nat ->
        fst (get_insider_trades fuel ticker end_date start_date limit api_key w) = Raises e)
  /\ (forall fuel ticker end_date start_date limit api_key w
             (n : nat) all_records cursor w' (k : nat) e,
        cache_hit (company_news_cache w !! feed_cache_key ticker start_date end_date limit)
        = None ->
        feed_reaches date CompanyNewsResponse
          (company_news_url ticker start_date limit)
          (financial_datasets_headers api_key) start_date limit
          n [] end_date w all_records cursor w' ->
        (k <= 3)%nat ->
        (forall i, (i < k)%nat ->
           exists ri, http (length (http_log w') + i)
                        (api_request (company_news_url ticker start_date limit cursor)
                           (financial_datasets_headers api_key) "GET" None) = Responded ri
                      /\ status_code ri = 429) ->
        http (length (http_log w') + k)
          (api_request (company_news_url ticker start_date limit cursor)
             (financial_datasets_headers api_key) "GET" None) = Failed e ->
        (n < fuel)%nat ->
        fst (get_company_news fuel ticker end_date start_date limit api_key w) = Raises e).
Proof.
  split; [| split; [| split; [| split; [| split; [| split]]]]].
  - intros. apply always_returns_get_prices.
  - intros. apply get_financial_metrics_outcome.
  - intros Hresp. split; [| split].
    + intros. by apply search_line_items_returns.
    + intros. by apply get_insider_trades_never_raises.
    + intros. by apply get_company_news_never_raises.
  - intros url headers method json_data w k e Hk H429 Hfail.
    destruct (make_api_request_fails url headers method json_data w k e Hk H429 Hfail)
      as [w' E].
    by rewrite E.
  - intros tk line_items end_date period limit api_key w k e.
    apply search_line_items_fails.
  - intros fuel tk end_date start_date limit api_key w n all_records cursor w' k e.
    apply get_insider_trades_fails.
  - intros fuel tk end_date start_date limit api_key w n all_records cursor w' k e.
    apply get_company_news_fails.
Qed.

(** ** The Finnhub executor *)

Lemma requests_get_finnhub endpoint params key :
  requests_get ("https://finnhub.io/api/v1" +:+ "/" +:+ endpoint)
    (params ++ [("token", key)]) [] (Some 10)
  = send (finnhub_call endpoint params key).
Proof. reflexivity. Qed.

(** One attempt of [_finnhub_request]: a key is taken, the request goes out,
    and the pass ends with a value or with the set of tried keys; a value
    other than [None] is the body of a 200 answer without an error entry. *)
Lemma finnhub_attempts_step n endpoint params keys_tried w key :
  FINNHUB_KEYS <> [] ->
  key_at (_finnhub_key_index w) = Some key ->
  exists step w1,
    _finnhub_attempts (S n) endpoint params keys_tried w
    = match step with
      | Stop v => (Returns v, w1)
      | Next kt => _finnhub_attempts n endpoint params kt w1
      end
    /\ http_log w1 = finnhub_call endpoint params key :: http_log w
    /\ _finnhub_key_index w1 = _finnhub_key_index w + 1
    /\ same_caches w w1
    /\ (forall v, step = Stop v -> v <> JNull ->
          exists r,
            http (length (http_log w)) (finnhub_call endpoint params key) = Responded r
            /\ status_code r = 200 /\ body r = Some v
            /\ Py.is_dict v
                 && match Py.get v "error" with Ok e => Py.truthy e | Err _ => false end
               = false).
Proof.
  intros Hne Hkey. cbn [_finnhub_attempts].
  erewrite bind_returns by (by apply next_key_step).
  rewrite requests_get_finnhub.
  set (w0 := set_key_index _ w).
  unfold bind at 1. unfold try_except. unfold bind at 1. unfold send.
  change (length (http_log w0)) with (length (http_log w)).
  destruct (http _ _) as [r | e].
  - destruct (status_code r =? 200) eqn:H200.
    + unfold bind, response_json. destruct (body r) as [data |] eqn:Hbody; cbn [lift of_option].
      * unfold ret.
        destruct (Py.is_dict data && _) eqn:Herr;
          [exists (Stop JNull) | exists (Stop data)]; eexists;
          (split; [reflexivity |]); repeat split; try done;
          intros v [= <-] Hv; [done |].
        exists r. by rewrite Z.eqb_eq in H200.
      * unfold raise. cbn [is_timeout]. unfold ret.
        exists (Stop JNull). eexists. split; [reflexivity |]. repeat split; try done.
        by intros v [= <-].
    + destruct (status_code r =? 429).
      * destruct (_ <=? _).
        -- unfold bind, time_sleep, ret.
           exists (Next ∅). eexists. split; [reflexivity |]. done.
        -- unfold ret. exists (Next ({[key]} ∪ keys_tried)). eexists.
           split; [reflexivity |]. done.
      * exists (Stop JNull). eexists. destruct (status_code r =? 403); unfold ret;
          (split; [reflexivity |]); repeat split; try done; by intros v [= <-].
  - destruct (is_timeout e); unfold ret.
    + exists (Next keys_tried). eexists. split; [reflexivity |]. done.
    + exists (Stop JNull). eexists. split; [reflexivity |]. repeat split; try done.
      by intros v [= <-].
Qed.

Lemma finnhub_attempts_run n endpoint params :
  FINNHUB_KEYS <> [] ->
  forall keys_tried w,
  exists v keys w',
    _finnhub_attempts n endpoint params keys_tried w = (Returns v, w')
    /\ (length keys <= n)%nat
    /\ (forall j key, keys !! j = Some key ->
          key_at (_finnhub_key_index w + Z.of_nat j) = Some key)
    /\ _finnhub_key_index w' = _finnhub_key_index w + Z.of_nat (length keys)
    /\ http_log w' = (rev (map (finnhub_call endpoint params) keys) ++ http_log w)%list
    /\ same_caches w w'
    /\ (v <> JNull ->
        exists req rest r,
          http_log w' = req :: rest
          /\ http (length rest) req = Responded r
          /\ status_code r = 200 /\ body r = Some v
          /\ Py.is_dict v
               && match Py.get v "error" with Ok e => Py.truthy e | Err _ => false end
             = false).
Proof.
  intros Hne. induction n as [| n IH]; intros keys_tried w.
  - exists JNull, [], w. cbn [_finnhub_attempts length map rev app].
    split; [done |]. split; [done |].
    split; [intros j key; by rewrite lookup_nil |].
    split; [lia |]. by repeat split.
  - destruct (key_at_is_Some (_finnhub_key_index w) Hne) as [key Hkey].
    destruct (finnhub_attempts_step n endpoint params keys_tried w key Hne Hkey)
      as (step & w1 & Hrun & Hlog & Hidx & Hcaches & Hbody).
    assert (Hfirst : forall j k, [key] !! j = Some k ->
                key_at (_finnhub_key_index w + Z.of_nat j) = Some k).
    { intros [| j] k Hj; cbn in Hj; simplify_eq.
      by rewrite Z.add_0_r. }
    destruct step as [kt | v].
    + destruct (IH kt w1) as (v & keys & w' & Hrun' & Hlen & Hkeys & Hidx' & Hlog' & Hc' & Hb').
      exists v, (key :: keys), w'. split; [by rewrite Hrun |].
      split; [cbn; lia |]. split; [| split; [| split; [| split]]].
      * intros [| j] k Hj; [by apply (Hfirst O) |].
        cbn in Hj. apply Hkeys in Hj. rewrite Hidx in Hj.
        rewrite <- Hj. f_equal. lia.
      * rewrite Hidx', Hidx. cbn [length]. lia.
      * rewrite Hlog', Hlog. cbn [map rev]. by rewrite <- app_assoc.
      * destruct Hcaches as (? & ? & ? & ?), Hc' as (? & ? & ? & ?).
        repeat split; congruence.
      * exact Hb'.
    + exists v, [key], w1. split; [exact Hrun |].
      split; [cbn; lia |]. split; [exact Hfirst |].
      split; [by rewrite Hidx |]. split; [by rewrite Hlog |]. split; [exact Hcaches |].
      intros Hv. destruct (Hbody v eq_refl Hv) as (r & Hr & Hs & Hb & He).
      exists (finnhub_call endpoint params key), (http_log w), r. by rewrite Hlog.
Qed.

(** X1. Whatever the providers answer, [_finnhub_request] returns ([None]
    or a body) and never raises. It sends at most
    [max_retries * len(FINNHUB_KEYS)] requests, all to the same endpoint with
    the same parameters; the j-th (from 0) carries as [token] the pool entry
    at (counter + j) mod N, the counter ends higher by exactly the number of
    requests sent, and no cache is touched. *)
Theorem finnhub_request_rotates_keys (endpoint : string) (params : list (string * string))
    (max_retries : Z) (w : World) :
  exists v keys w',
    _finnhub_request endpoint params max_retries w = (Returns v, w')
    /\ Z.of_nat (length keys) <= Z.max 0 (max_retries * Z.of_nat (length FINNHUB_KEYS))
    /\ (forall j key, keys !! j = Some key ->
          key_at (_finnhub_key_index w + Z.of_nat j) = Some key)
    /\ _finnhub_key_index w' = _finnhub_key_index w + Z.of_nat (length keys)
    /\ http_log w' = (rev (map (finnhub_call endpoint params) keys) ++ http_log w)%list
    /\ same_caches w w'.
Proof.
  unfold _finnhub_request.
  destruct (decide (FINNHUB_KEYS = [])) as [Hnil | Hne].
  - rewrite Hnil. cbn [length]. rewrite Z.mul_0_r.
    change (Z.to_nat 0) with O. cbn [_finnhub_attempts].
    exists JNull, [], w. cbn [length map rev app].
    split; [done |]. split; [lia |].
    split; [intros j key; by rewrite lookup_nil |].
    split; [lia |]. by repeat split.
  - destruct (finnhub_attempts_run
                (Z.to_nat (max_retries * Z.of_nat (length FINNHUB_KEYS)))
                endpoint params Hne ∅ w)
      as (v & keys & w' & Hrun & Hlen & Hkeys & Hidx & Hlog & Hc & _).
    exists v, keys, w'. split; [exact Hrun |]. split; [lia |]. done.
Qed.

(** X3. What [_finnhub_request] returns besides [None] is the body of the
    last request it sent, which was answered 200, and that body is not a
    dict with a true [error] entry. *)
Theorem finnhub_request_returns_body (endpoint : string) (params : list (string * string))
    (max_retries : Z) (w w' : World) (v : json) :
  _finnhub_request endpoint params max_retries w = (Returns v, w') ->
  v <> JNull ->
  exists req rest r,
    http_log w' = req :: rest
    /\ http (length rest) req = Responded r
    /\ status_code r = 200
    /\ body r = Some v
    /\ Py.is_dict v
         && match Py.get v "error" with Ok e => Py.truthy e | Err _ => false end
       = false.
Proof.
  unfold _finnhub_request. intros Hrun Hv.
  destruct (decide (FINNHUB_KEYS = [])) as [Hnil | Hne].
  - rewrite Hnil in Hrun. cbn [length] in Hrun. rewrite Z.mul_0_r in Hrun.
    change (Z.to_nat 0) with O in Hrun. cbn [_finnhub_attempts] in Hrun.
    unfold ret in Hrun. by simplify_eq.
  - destruct (finnhub_attempts_run
                (Z.to_nat (max_retries * Z.of_nat (length FINNHUB_KEYS)))
                endpoint params Hne ∅ w)
      as (v' & keys & w1 & Hrun' & _ & _ & _ & _ & _ & Hb).
    rewrite Hrun in Hrun'. simplify_eq. by apply Hb.
Qed.
(** *** Every key rate limited *)

Lemma finnhub_attempts_throttled n endpoint params keys_tried w key r :
  FINNHUB_KEYS <> [] ->
  key_at (_finnhub_key_index w) = Some key ->
  http (length (http_log w)) (finnhub_call endpoint params key) = Responded r ->
  status_code r = 429 ->
  _finnhub_attempts (S n) endpoint params keys_tried w
  = let w1 := log_request (finnhub_call endpoint params key)
                (set_key_index (_finnhub_key_index w + 1) w) in
    if Z.of_nat (length FINNHUB_KEYS) <=? Z.of_nat (size ({[key]} ∪ keys_tried))
    then _finnhub_attempts n endpoint params ∅ (log_sleep 5 w1)
    else _finnhub_attempts n endpoint params ({[key]} ∪ keys_tried) w1.
Proof.
  intros Hne Hkey Hr Hs. cbn [_finnhub_attempts].
  erewrite bind_returns by (by apply next_key_step).
  rewrite requests_get_finnhub.
  set (w0 := set_key_index _ w).
  unfold bind at 1. unfold try_except. unfold bind at 1. unfold send.
  change (length (http_log w0)) with (length (http_log w)).
  rewrite Hr, Hs. cbn [Z.eqb Pos.eqb]. cbv zeta.
  destruct (_ <=? _); reflexivity.
Qed.

(** Two counters less than a pool size apart never hand out the same key of
    a pool without repetition. *)
Lemma key_at_distinct i (c d : nat) key :
  NoDup FINNHUB_KEYS ->
  (d < c < length FINNHUB_KEYS)%nat ->
  key_at i = Some key ->
  key_at (i - Z.of_nat c + Z.of_nat d) = Some key ->
  False.
Proof.
  unfold key_at. intros Hnd Hdc H1 H2.
  pose proof (NoDup_lookup _ _ _ _ Hnd H1 H2) as Heq.
  set (N := Z.of_nat (length FINNHUB_KEYS)) in *.
  assert (0 < N) by lia.
  pose proof (Z.mod_pos_bound i N ltac:(lia)).
  pose proof (Z.mod_pos_bound (i - Z.of_nat c + Z.of_nat d) N ltac:(lia)).
  assert (Hm : i mod N = (i - Z.of_nat c + Z.of_nat d) mod N) by lia.
  pose proof (Z.div_mod i N ltac:(lia)) as Hi.
  pose proof (Z.div_mod (i - Z.of_nat c + Z.of_nat d) N ltac:(lia)) as Hj.
  set (q := i / N - (i - Z.of_nat c + Z.of_nat d) / N).
  assert (Hq : Z.of_nat c - Z.of_nat d = N * q) by (unfold q; lia).
  assert (q <= 0 \/ 1 <= q) as [Hq0 | Hq1] by lia; nia.
Qed.

Lemma finnhub_attempts_all_throttled endpoint params :
  NoDup FINNHUB_KEYS ->
  FINNHUB_KEYS <> [] ->
  (forall n req, exists r, http n req = Responded r /\ status_code r = 429) ->
  forall n (c : nat) keys_tried w,
    (c < length FINNHUB_KEYS)%nat ->
    size keys_tried = c ->
    (forall key, key ∈ keys_tried ->
       exists d : nat, (d < c)%nat
         /\ key_at (_finnhub_key_index w - Z.of_nat c + Z.of_nat d) = Some key) ->
    exists w',
      _finnhub_attempts n endpoint params keys_tried w = (Returns JNull, w')
      /\ length (http_log w') = (length (http_log w) + n)%nat
      /\ _finnhub_key_index w' = _finnhub_key_index w + Z.of_nat n
      /\ sleep_log w'
         = (replicate ((c + n) / length FINNHUB_KEYS) 5 ++ sleep_log w)%list.
Proof.
  intros Hnd Hne H429. induction n as [| n IH]; intros c keys_tried w Hc Hsize Hin.
  - exists w. cbn [_finnhub_attempts]. split; [done |]. split; [lia |]. split; [lia |].
    rewrite Nat.add_0_r, Nat.div_small by done. done.
  - destruct (key_at_is_Some (_finnhub_key_index w) Hne) as [key Hkey].
    destruct (H429 (length (http_log w)) (finnhub_call endpoint params key)) as (r & Hr & Hs).
    rewrite (finnhub_attempts_throttled n endpoint params keys_tried w key r Hne Hkey Hr Hs).
    cbv zeta.
    assert (Hnew : key ∉ keys_tried).
    { intros Hk. destruct (Hin key Hk) as (d & Hd & Hkd).
      by apply (key_at_distinct (_finnhub_key_index w) c d key). }
    assert (Hs1 : size ({[key]} ∪ keys_tried) = S c).
    { rewrite size_union by set_solver. rewrite size_singleton. lia. }
    rewrite Hs1.
    destruct (Z.leb_spec (Z.of_nat (length FINNHUB_KEYS)) (Z.of_nat (S c))) as [Hfull | Hless].
    + destruct (IH O ∅ (log_sleep 5 (log_request (finnhub_call endpoint params key)
                                       (set_key_index (_finnhub_key_index w + 1) w))))
        as (w' & Hrun & Hlog & Hidx & Hsl).
      * lia.
      * apply size_empty.
      * intros k Hk. set_solver.
      * exists w'. split; [exact Hrun |]. cbn in Hlog, Hidx, Hsl.
        split; [lia |]. split; [lia |].
        rewrite Hsl. assert (S c = length FINNHUB_KEYS) as Hcn by lia.
        replace (c + S n)%nat with (1 * length FINNHUB_KEYS + n)%nat by lia.
        rewrite Nat.div_add_l by lia.
        change (1 + ?k)%nat with (S k). by rewrite replicate_S_end, <- app_assoc.
    + destruct (IH (S c) ({[key]} ∪ keys_tried)
                  (log_request (finnhub_call endpoint params key)
                     (set_key_index (_finnhub_key_index w + 1) w)))
        as (w' & Hrun & Hlog & Hidx & Hsl).
      * lia.
      * exact Hs1.
      * intros k Hk. cbn [_finnhub_key_index log_request set_key_index].
        apply elem_of_union in Hk as [Hk | Hk].
        -- apply elem_of_singleton in Hk as ->. exists c. split; [lia |].
           rewrite <- Hkey. f_equal. lia.
        -- destruct (Hin k Hk) as (d & Hd & Hkd). exists d. split; [lia |].
           rewrite <- Hkd. f_equal. lia.
      * exists w'. split; [exact Hrun |]. cbn in Hlog, Hidx, Hsl.
        split; [lia |]. split; [lia |].
        rewrite Hsl. assert (c + S n = S c + n)%nat as -> by lia. reflexivity.
Qed.

(** X2. With a pool of N distinct keys and every answer a 429,
    [_finnhub_request] gives up with [None] after exactly
    [max_retries * N] requests; each time all N keys have been refused in a
    row it sleeps 5 seconds, [max_retries] times in all. *)
Theorem finnhub_request_all_throttled (endpoint : string) (params : list (string * string))
    (max_retries : Z) (w : World) :
  NoDup FINNHUB_KEYS ->
  FINNHUB_KEYS <> [] ->
  0 <= max_retries ->
  (forall n req, exists r, http n req = Responded r /\ status_code r = 429) ->
  exists w',
    _finnhub_request endpoint params max_retries w = (Returns JNull, w')
    /\ length (http_log w')
       = (length (http_log w) + Z.to_nat max_retries * length FINNHUB_KEYS)%nat
    /\ _finnhub_key_index w'
       = _finnhub_key_index w + max_retries * Z.of_nat (length FINNHUB_KEYS)
    /\ sleep_log w' = (replicate (Z.to_nat max_retries) 5 ++ sleep_log w)%list.
Proof.
  intros Hnd Hne Hr H429. unfold _finnhub_request.
  assert (Hn : Z.to_nat (max_retries * Z.of_nat (length FINNHUB_KEYS))
               = (Z.to_nat max_retries * length FINNHUB_KEYS)%nat) by lia.
  rewrite Hn.
  assert (0 < length FINNHUB_KEYS)%nat by (destruct FINNHUB_KEYS; [done | cbn; lia]).
  destruct (finnhub_attempts_all_throttled endpoint params Hnd Hne H429
              (Z.to_nat max_retries * length FINNHUB_KEYS) O ∅ w)
    as (w' & Hrun & Hlog & Hidx & Hsl).
  - done.
  - apply size_empty.
  - intros k Hk. set_solver.
  - exists w'. split; [exact Hrun |]. split; [exact Hlog |]. split; [lia |].
    rewrite Hsl, Nat.add_0_l, Nat.div_mul by lia. done.
Qed.

(** ** The linear-backoff executor, whatever the provider does *)

Lemma make_api_attempts_envelope url headers method json_data max_retries :
  forall remaining attempt w,
    (0 < remaining)%nat ->
    attempt + Z.of_nat remaining = max_retries + 1 ->
    exists sent : nat,
      let req := api_request url headers method json_data in
      let run := _make_api_attempts remaining attempt url headers method json_data
                   max_retries w in
      (1 <= sent <= remaining)%nat
      /\ http_log (snd run) = (replicate sent req ++ http_log w)%list
      /\ sleep_log (snd run)
         = (rev (map (fun i => 60 + 30 * (attempt + Z.of_nat i)) (seq 0 (sent - 1)))
              ++ sleep_log w)%list
      /\ _finnhub_key_index (snd run) = _finnhub_key_index w
      /\ same_caches w (snd run)
      /\ ((exists r, fst run = Returns (Some r)
                     /\ http (length (http_log w) + sent - 1) req = Responded r)
          \/ (exists e, fst run = Raises e
                        /\ http (length (http_log w) + sent - 1) req = Failed e)).
Proof.
  induction remaining as [| remaining IH]; intros attempt w Hpos Hsum; [lia |].
  cbv zeta.
  set (req := api_request url headers method json_data).
  set (w0 := log_request req w).
  destruct (http (length (http_log w)) req) as [r | e] eqn:Hhttp.
  - destruct ((status_code r =? 429) && (attempt <? max_retries)) eqn:Hretry.
    + assert (E : _make_api_attempts (S remaining) attempt url headers method json_data
                    max_retries w
                  = _make_api_attempts remaining (attempt + 1) url headers method json_data
                      max_retries (log_sleep (60 + 30 * attempt) w0)).
      { cbn [_make_api_attempts]. rewrite api_send.
        erewrite bind_returns by (by apply send_responded).
        rewrite Hretry. unfold time_sleep. by erewrite bind_returns by reflexivity. }
      rewrite E. clear E.
      apply andb_true_iff in Hretry as [_ Hlt%Z.ltb_lt].
      destruct (IH (attempt + 1) (log_sleep (60 + 30 * attempt) w0) ltac:(lia) ltac:(lia))
        as (sent & Hsent & Hlog & Hsl & Hidx & Hc & Hout).
      cbv zeta in Hlog, Hsl, Hidx, Hc, Hout. fold req in Hlog, Hout.
      exists (S sent). split; [lia |]. split; [| split; [| split; [| split]]].
      * rewrite Hlog. subst w0. cbn [http_log log_sleep log_request].
        rewrite replicate_S_end, <- app_assoc. done.
      * rewrite Hsl. subst w0. cbn [sleep_log log_sleep log_request].
        replace (S sent - 1)%nat with (S (sent - 1)) by lia.
        cbn [seq map rev]. rewrite <- seq_shift, map_map, <- app_assoc.
        cbn [app]. rewrite Z.add_0_r. do 2 f_equal. apply map_ext. intros i. lia.
      * by rewrite Hidx.
      * destruct Hc as (? & ? & ? & ?). by repeat split.
      * subst w0. cbn [http_log log_sleep log_request length] in Hout.
        replace (length (http_log w) + S sent - 1)%nat
          with (S (length (http_log w)) + sent - 1)%nat by lia.
        exact Hout.
    + assert (E : _make_api_attempts (S remaining) attempt url headers method json_data
                    max_retries w
                  = (Returns (Some r), w0)).
      { cbn [_make_api_attempts]. rewrite api_send.
        erewrite bind_returns by (by apply send_responded).
        by rewrite Hretry. }
      rewrite E. clear E. exists 1%nat. cbn [fst snd].
      split; [lia |]. split; [done |]. split; [done |]. split; [done |]. split; [done |].
      left. exists r. split; [done |].
      by replace (length (http_log w) + 1 - 1)%nat with (length (http_log w)) by lia.
  - assert (E : _make_api_attempts (S remaining) attempt url headers method json_data
                  max_retries w
                = (Raises e, w0)).
    { cbn [_make_api_attempts]. rewrite api_send.
      by erewrite bind_raises by (by apply send_failed). }
    rewrite E. clear E. exists 1%nat. cbn [fst snd].
    split; [lia |]. split; [done |]. split; [done |]. split; [done |]. split; [done |].
    right. exists e. split; [done |].
    by replace (length (http_log w) + 1 - 1)%nat with (length (http_log w)) by lia.
Qed.

(** X4. Whatever the provider does, [_make_api_request] sends the same
    request again and again, at most [max_retries + 1] times, and sleeps
    60 + 30*i seconds between the i-th and the next, so once less than it
    sends; it takes no Finnhub key and touches no cache. With
    [max_retries >= 0] it ends with the answer to the last request it sent,
    or with the exception that request raised; with a negative
    [max_retries] it sends nothing and returns [None]. *)
Theorem make_api_request_envelope (url : string) (headers : list (string * string))
    (method : string) (json_data : option json) (max_retries : Z) (w : World) :
  exists sent : nat,
    let req := api_request url headers method json_data in
    let run := _make_api_request url headers method json_data max_retries w in
    Z.of_nat sent <= Z.max 0 (max_retries + 1)
    /\ http_log (snd run) = (replicate sent req ++ http_log w)%list
    /\ sleep_log (snd run)
       = (rev (map (fun i => 60 + 30 * Z.of_nat i) (seq 0 (sent - 1))) ++ sleep_log w)%list
    /\ _finnhub_key_index (snd run) = _finnhub_key_index w
    /\ same_caches w (snd run)
    /\ ((max_retries < 0 /\ sent = O /\ fst run = Returns None)
        \/ (0 <= max_retries /\ (1 <= sent)%nat
            /\ ((exists r, fst run = Returns (Some r)
                           /\ http (length (http_log w) + sent - 1) req = Responded r)
                \/ (exists e, fst run = Raises e
                              /\ http (length (http_log w) + sent - 1) req = Failed e)))).
Proof.
  unfold _make_api_request. cbv zeta.
  destruct (Z.ltb_spec max_retries 0) as [Hneg | Hpos].
  - exists O. replace (Z.to_nat (max_retries + 1)) with O by lia.
    cbn [_make_api_attempts]. unfold ret. cbn [fst snd].
    split; [lia |]. split; [done |]. split; [done |]. split; [done |]. split; [done |].
    by left.
  - destruct (make_api_attempts_envelope url headers method json_data max_retries
                (Z.to_nat (max_retries + 1)) 0 w ltac:(lia) ltac:(lia))
      as (sent & Hsent & Hlog & Hsl & Hidx & Hc & Hout).
    cbv zeta in Hlog, Hsl, Hidx, Hc, Hout.
    exists sent. split; [lia |]. split; [exact Hlog |]. split; [exact Hsl |].
    split; [exact Hidx |]. split; [exact Hc |].
    right. split; [lia |]. split; [lia |]. exact Hout.
Qed.

(** ** Where the requests go

    [traffic P rotates] relates a world to a later one whose request log
    grew by requests that satisfy [P]; it composes along the code like the
    frames above, except that a request has to satisfy [P] and that taking a
    key needs [rotates]. *)

Create HintDb traffic.

Section TrafficRules.

Context (P : Request -> Prop) (rotates : bool).

Lemma traffic_refl w : traffic P rotates w w.
Proof. split; [by exists [] | done]. Qed.

Lemma traffic_trans w1 w2 w3 :
  traffic P rotates w1 w2 -> traffic P rotates w2 w3 -> traffic P rotates w1 w3.
Proof.
  intros [(s1 & L1 & F1) I1] [(s2 & L2 & F2) I2]. split.
  - exists (s2 ++ s1)%list. split; [by rewrite L2, L1, app_assoc | by apply Forall_app].
  - intros Hr. by rewrite I2, I1.
Qed.

Lemma traffic_ret {A} (a : A) : preserves (traffic P rotates) (ret a).
Proof. intros w. apply traffic_refl. Qed.

Lemma traffic_raise {A} e : preserves (traffic P rotates) (@raise A e).
Proof. intros w. apply traffic_refl. Qed.

Lemma traffic_diverge {A} : preserves (traffic P rotates) (@diverge A).
Proof. intros w. apply traffic_refl. Qed.

Lemma traffic_lift {A} (r : res A) : preserves (traffic P rotates) (lift r).
Proof. destruct r; [apply traffic_ret | apply traffic_raise]. Qed.

Lemma traffic_bind {A B} (m : M A) (k : A -> M B) :
  preserves (traffic P rotates) m -> (forall a, preserves (traffic P rotates) (k a)) ->
  preserves (traffic P rotates) (bind m k).
Proof.
  intros Hm Hk w. unfold bind. specialize (Hm w).
  destruct (m w) as [[a | e |] w1]; cbn in *; [| done | done].
  eapply traffic_trans; [exact Hm | apply Hk].
Qed.

Lemma traffic_try {A} (m : M A) (h : exn -> M A) :
  preserves (traffic P rotates) m -> (forall e, preserves (traffic P rotates) (h e)) ->
  preserves (traffic P rotates) (try_except m h).
Proof.
  intros Hm Hh w. unfold try_except. specialize (Hm w).
  destruct (m w) as [[a | e |] w1]; cbn in *; [done | | done].
  eapply traffic_trans; [exact Hm | apply Hh].
Qed.

Lemma traffic_send req : P req -> preserves (traffic P rotates) (send req).
Proof.
  intros Hreq w. unfold send.
  destruct (http _ _); (split; [exists [req]; split; [done | by constructor] | done]).
Qed.

Lemma traffic_time_sleep d : preserves (traffic P rotates) (time_sleep d).
Proof. intros w. split; [by exists [] | done]. Qed.

Lemma traffic_cache_get_prices k : preserves (traffic P rotates) (_cache_get_prices k).
Proof. intros w. apply traffic_refl. Qed.

Lemma traffic_cache_set_prices k d : preserves (traffic P rotates) (_cache_set_prices k d).
Proof. intros w. split; [by exists [] | done]. Qed.

Lemma traffic_cache_get_financial_metrics k :
  preserves (traffic P rotates) (_cache_get_financial_metrics k).
Proof. intros w. apply traffic_refl. Qed.

Lemma traffic_cache_set_financial_metrics k d :
  preserves (traffic P rotates) (_cache_set_financial_metrics k d).
Proof. intros w. split; [by exists [] | done]. Qed.

Lemma traffic_cache_get_insider_trades k :
  preserves (traffic P rotates) (_cache_get_insider_trades k).
Proof. intros w. apply traffic_refl. Qed.

Lemma traffic_cache_set_insider_trades k d :
  preserves (traffic P rotates) (_cache_set_insider_trades k d).
Proof. intros w. split; [by exists [] | done]. Qed.

Lemma traffic_cache_get_company_news k :
  preserves (traffic P rotates) (_cache_get_company_news k).
Proof. intros w. apply traffic_refl. Qed.

Lemma traffic_cache_set_company_news k d :
  preserves (traffic P rotates) (_cache_set_company_news k d).
Proof. intros w. split; [by exists [] | done]. Qed.

End TrafficRules.

(** Taking a key moves the index; the key is one of the pool. *)
Lemma traffic_next_key_bind {B} (P : Request -> Prop) (k : string -> M B) :
  (forall key, key ∈ FINNHUB_KEYS -> preserves (traffic P true) (k key)) ->
  preserves (traffic P true) (bind _get_next_finnhub_key k).
Proof.
  intros Hk w. unfold bind, _get_next_finnhub_key.
  destruct (_ =? _); [apply traffic_refl |].
  destruct (FINNHUB_KEYS !! _) as [key |] eqn:Hkey; [| apply traffic_refl].
  eapply traffic_trans; [| apply Hk; by eapply list_elem_of_lookup_2].
  split; [by exists [] | done].
Qed.

(** Weaker claims about the same traffic. *)
Lemma traffic_weaken (P Q : Request -> Prop) (b c : bool) w w' :
  (forall r, P r -> Q r) -> (c = false -> b = false) ->
  traffic P b w w' -> traffic Q c w w'.
Proof.
  intros HPQ Hbc [(s & L & F) I]. split.
  - exists s. split; [done |]. eapply Forall_impl; [exact F | exact HPQ].
  - intros Hc. by apply I, Hbc.
Qed.

Lemma preserves_traffic_weaken {A} (P Q : Request -> Prop) (b c : bool) (m : M A) :
  (forall r, P r -> Q r) -> (c = false -> b = false) ->
  preserves (traffic P b) m -> preserves (traffic Q c) m.
Proof. intros HPQ Hbc Hm w. eapply traffic_weaken; [exact HPQ | exact Hbc | apply Hm]. Qed.

#[local] Hint Resolve traffic_ret traffic_raise traffic_diverge traffic_lift
  traffic_time_sleep traffic_cache_get_prices traffic_cache_set_prices
  traffic_cache_get_financial_metrics traffic_cache_set_financial_metrics
  traffic_cache_get_insider_trades traffic_cache_set_insider_trades
  traffic_cache_get_company_news traffic_cache_set_company_news : traffic.

(** Follow the shape of a computation; what is left are the requests, each
    to be shown to satisfy the predicate. *)
Ltac traffic_step :=
  lazymatch goal with
  | |- preserves (traffic _ _) (bind _get_next_finnhub_key _) =>
      apply traffic_next_key_bind; intros ? ?
  | |- preserves (traffic _ _) (bind _ _) => apply traffic_bind; [| intros ?]
  | |- preserves (traffic _ _) (try_except _ _) => apply traffic_try; [| intros ?]
  | |- preserves (traffic _ _) (if ?c then _ else _) => destruct c
  | |- preserves (traffic _ _) (match ?x with _ => _ end) => destruct x eqn:?
  | |- preserves (traffic _ _) (let _ := _ in _) => cbv zeta
  | |- preserves (traffic _ _) (requests_get _ _ _ _) => apply traffic_send
  | |- preserves (traffic _ _) (requests_post _ _ _) => apply traffic_send
  | |- preserves (traffic _ _) (send _) => apply traffic_send
  | |- preserves (traffic _ _) _ => solve [eauto with traffic]
  end.

Ltac follow_traffic := repeat traffic_step.

(** A request to a provider on the list. *)
Ltac route :=
  first
    [ by (exists Finnhub; split; [by repeat constructor | by apply to_finnhub])
    | by (exists Yahoo; split; [by repeat constructor | apply to_yahoo])
    | by (exists Fmp; split; [by repeat constructor | by eapply to_fmp])
    | by (exists FinancialDatasets; split; [by repeat constructor | apply to_financial_datasets]) ].

Lemma traffic_finnhub_attempts (P : Request -> Prop) n endpoint params keys_tried :
  (forall key, key ∈ FINNHUB_KEYS -> P (finnhub_call endpoint params key)) ->
  preserves (traffic P true) (_finnhub_attempts n endpoint params keys_tried).
Proof.
  intros HP. revert keys_tried.
  induction n as [| n IH]; intros keys_tried; cbn [_finnhub_attempts].
  - follow_traffic.
  - follow_traffic; try apply IH. by apply HP.
Qed.

Lemma traffic_finnhub_request (P : Request -> Prop) endpoint params max_retries :
  (forall key, key ∈ FINNHUB_KEYS -> P (finnhub_call endpoint params key)) ->
  preserves (traffic P true) (_finnhub_request endpoint params max_retries).
Proof. apply traffic_finnhub_attempts. Qed.

Lemma traffic_make_api_attempts (P : Request -> Prop) (b : bool) remaining attempt url headers
    method json_data max_retries :
  P (api_request url headers method json_data) ->
  preserves (traffic P b)
    (_make_api_attempts remaining attempt url headers method json_data max_retries).
Proof.
  intros HP. revert attempt.
  induction remaining as [| n IH]; intros attempt; cbn [_make_api_attempts].
  - follow_traffic.
  - rewrite api_send. follow_traffic; try apply IH. exact HP.
Qed.

Lemma traffic_make_api_request (P : Request -> Prop) (b : bool) url headers method json_data
    max_retries :
  P (api_request url headers method json_data) ->
  preserves (traffic P b) (_make_api_request url headers method json_data max_retries).
Proof. apply traffic_make_api_attempts. Qed.

(** *** The adapters and the getters *)

Lemma traffic_get_prices_yahoo ticker start_date end_date :
  preserves (traffic (routed [Yahoo]) false) (_get_prices_yahoo ticker start_date end_date).
Proof. unfold _get_prices_yahoo. follow_traffic. route. Qed.

Lemma traffic_get_prices_finnhub ticker start_date end_date :
  preserves (traffic (routed [Finnhub]) true) (_get_prices_finnhub ticker start_date end_date).
Proof.
  unfold _get_prices_finnhub. follow_traffic.
  apply traffic_finnhub_request. intros key Hkey. route.
Qed.

Lemma routed_one (p : provider) (allowed : list provider) r :
  p ∈ allowed -> routed [p] r -> routed allowed r.
Proof.
  intros Hp (q & Hq & Ha). exists p. split; [done |].
  inversion Hq as [| ? ? ? Hnil]; subst; [done | inversion Hnil].
Qed.

(** What an adapter sends to its one provider, seen from a getter that may
    talk to several. *)
Lemma traffic_one {A} (p : provider) (allowed : list provider) (b : bool) (m : M A) :
  p ∈ allowed ->
  preserves (traffic (routed [p]) b) m -> preserves (traffic (routed allowed) true) m.
Proof.
  intros Hp. apply preserves_traffic_weaken; [| done].
  intros r. by apply routed_one.
Qed.

Lemma traffic_fetch_fmp_supplement ticker fmp_api_key fmp_cache_key :
  FMP_API_KEY = Some fmp_api_key ->
  preserves (traffic (routed [Fmp]) false)
    (fetch_fmp_supplement ticker fmp_api_key fmp_cache_key).
Proof. intros Hkey. unfold fetch_fmp_supplement. follow_traffic; route. Qed.

Lemma traffic_get_financial_metrics_finnhub ticker end_date period limit :
  preserves (traffic (routed [Finnhub; Fmp]) true)
    (_get_financial_metrics_finnhub ticker end_date period limit).
Proof.
  unfold _get_financial_metrics_finnhub. follow_traffic;
    try (apply traffic_finnhub_request; intros key Hkey; route).
  all: eapply (traffic_one Fmp); [by repeat constructor |].
  all: by apply traffic_fetch_fmp_supplement.
Qed.

Lemma traffic_get_financial_metrics_fmp ticker end_date period limit :
  preserves (traffic (routed [Fmp]) false)
    (_get_financial_metrics_fmp ticker end_date period limit).
Proof. unfold _get_financial_metrics_fmp. follow_traffic; route. Qed.

Lemma traffic_get_market_cap_finnhub ticker :
  preserves (traffic (routed [Finnhub]) true) (_get_market_cap_finnhub ticker).
Proof.
  unfold _get_market_cap_finnhub. follow_traffic.
  apply traffic_finnhub_request. intros key Hkey. route.
Qed.

Lemma traffic_get_market_cap_fmp ticker :
  preserves (traffic (routed [Fmp]) false) (_get_market_cap_fmp ticker).
Proof. unfold _get_market_cap_fmp. follow_traffic; route. Qed.

Lemma traffic_get_financial_metrics ticker end_date period limit api_key :
  preserves (traffic (routed [Finnhub; Fmp]) true)
    (get_financial_metrics ticker end_date period limit api_key).
Proof.
  unfold get_financial_metrics, fetch_financial_metrics. follow_traffic.
  - apply traffic_get_financial_metrics_finnhub.
  - eapply traffic_one; [| apply traffic_get_financial_metrics_fmp]. by repeat constructor.
Qed.

Lemma traffic_get_prices ticker start_date end_date api_key :
  preserves (traffic (routed [Yahoo; Finnhub]) true)
    (get_prices ticker start_date end_date api_key).
Proof.
  unfold get_prices, fetch_prices. follow_traffic.
  - eapply traffic_one; [| apply traffic_get_prices_yahoo]. by repeat constructor.
  - eapply traffic_one; [| apply traffic_get_prices_finnhub]. by repeat constructor.
Qed.

Lemma traffic_get_market_cap ticker end_date api_key :
  preserves (traffic (routed [Finnhub; Fmp]) true) (get_market_cap ticker end_date api_key).
Proof.
  unfold get_market_cap. follow_traffic.
  - eapply traffic_one; [| apply traffic_get_market_cap_finnhub]. by repeat constructor.
  - apply traffic_get_financial_metrics.
  - eapply traffic_one; [| apply traffic_get_market_cap_fmp]. by repeat constructor.
Qed.

(** X5. Market data only ever goes out to the providers meant for it:
    [get_prices] sends requests to Yahoo's chart endpoint and to Finnhub
    (with a key of the pool as token) and to no one else;
    [get_financial_metrics] and [get_market_cap] send requests to Finnhub
    and, with the configured FMP key, to FMP and to no one else. None of them
    contacts Financial Datasets. *)
Theorem market_data_traffic :
  (forall ticker start_date end_date api_key,
     preserves (traffic (routed [Yahoo; Finnhub]) true)
       (get_prices ticker start_date end_date api_key))
  /\ (forall ticker end_date period limit api_key,
        preserves (traffic (routed [Finnhub; Fmp]) true)
          (get_financial_metrics ticker end_date period limit api_key))
  /\ (forall ticker end_date api_key,
        preserves (traffic (routed [Finnhub; Fmp]) true)
          (get_market_cap ticker end_date api_key)).
Proof.
  split; [| split]; intros.
  - apply traffic_get_prices.
  - apply traffic_get_financial_metrics.
  - apply traffic_get_market_cap.
Qed.

Lemma traffic_feed_loop {A} (P : Request -> Prop) (date_of : A -> string) response_model
    page_url headers start_date limit :
  (forall cursor, P (api_request (page_url cursor) headers "GET" None)) ->
  forall fuel all_records current_end_date,
    preserves (traffic P false)
      (feed_loop date_of response_model page_url headers start_date limit
         fuel all_records current_end_date).
Proof.
  intros HP. induction fuel as [| fuel IH]; intros all_records current_end_date;
    cbn [feed_loop].
  - follow_traffic.
  - follow_traffic; try apply IH. by apply traffic_make_api_request.
Qed.

(** X6. [search_line_items], [get_insider_trades] and [get_company_news]
    send their requests to Financial Datasets, with the headers the module
    builds from an API key, and to no one else; they take no Finnhub key. *)
Theorem financial_datasets_traffic :
  (forall ticker line_items end_date period limit api_key,
     preserves (traffic (routed [FinancialDatasets]) false)
       (search_line_items ticker line_items end_date period limit api_key))
  /\ (forall fuel ticker end_date start_date limit api_key,
        preserves (traffic (routed [FinancialDatasets]) false)
          (get_insider_trades fuel ticker end_date start_date limit api_key))
  /\ (forall fuel ticker end_date start_date limit api_key,
        preserves (traffic (routed [FinancialDatasets]) false)
          (get_company_news fuel ticker end_date start_date limit api_key)).
Proof.
  split; [| split].
  - intros tk line_items end_date period limit api_key.
    unfold search_line_items, status_of. follow_traffic.
    all: apply traffic_make_api_request.
    all: exists FinancialDatasets; split; [by repeat constructor |].
    all: apply (to_financial_datasets "financials/search/line-items").
  - intros fuel tk end_date start_date limit api_key.
    unfold get_insider_trades, fetch_insider_trades. follow_traffic.
    all: apply traffic_feed_loop; intros cursor.
    all: exists FinancialDatasets; split; [by repeat constructor |].
    all: apply (to_financial_datasets
                  ("insider-trades/?ticker=" +:+ tk
                     +:+ "&filing_date_lte=" +:+ cursor
                     +:+ optional_param "filing_date_gte" start_date
                     +:+ "&limit=" +:+ PyStr.of_int limit)).
  - intros fuel tk end_date start_date limit api_key.
    unfold get_company_news, fetch_company_news. follow_traffic.
    all: apply traffic_feed_loop; intros cursor.
    all: exists FinancialDatasets; split; [by repeat constructor |].
    all: apply (to_financial_datasets
                  ("news/?ticker=" +:+ tk
                     +:+ "&end_date=" +:+ cursor
                     +:+ optional_param "start_date" start_date
                     +:+ "&limit=" +:+ PyStr.of_int limit)).
Qed.

(** *** The FMP quota *)

Section Along.

Context (R : World -> World -> Prop).
Hypothesis R_refl : forall w, R w w.
Hypothesis R_trans : forall w1 w2 w3, R w1 w2 -> R w2 w3 -> R w1 w3.

Lemma along_ret {A} (a : A) : preserves R (ret a).
Proof. intros w. apply R_refl. Qed.

Lemma along_lift {A} (r : res A) : preserves R (lift r).
Proof. destruct r; intros w; apply R_refl. Qed.

Lemma along_bind {A B} (m : M A) (k : A -> M B) :
  preserves R m -> (forall a, preserves R (k a)) -> preserves R (bind m k).
Proof.
  intros Hm Hk w. unfold bind. specialize (Hm w).
  destruct (m w) as [[a | e |] w1]; cbn in *; [| done | done].
  eapply R_trans; [exact Hm | apply Hk].
Qed.

Lemma along_try {A} (m : M A) (h : exn -> M A) :
  preserves R m -> (forall e, preserves R (h e)) -> preserves R (try_except m h).
Proof.
  intros Hm Hh w. unfold try_except. specialize (Hm w).
  destruct (m w) as [[a | e |] w1]; cbn in *; [done | | done].
  eapply R_trans; [exact Hm | apply Hh].
Qed.

End Along.

(** With the supplement of a ticker in the cache, the Finnhub adapter asks
    Finnhub alone and leaves the entry as it is. *)
Lemma supplement_cached_no_fmp tk end_date period limit :
  preserves
    (fun w w' =>
       is_Some (cache_hit (financial_metrics_cache w !! ("fmp_supplement_" +:+ tk))) ->
       traffic (routed [Finnhub]) true w w'
       /\ financial_metrics_cache w' = financial_metrics_cache w)
    (_get_financial_metrics_finnhub tk end_date period limit).
Proof.
  set (R := fun w w' : World => _ -> _ /\ _).
  assert (R_refl : forall w, R w w).
  { intros w _. split; [apply traffic_refl | done]. }
  assert (R_trans : forall w1 w2 w3, R w1 w2 -> R w2 w3 -> R w1 w3).
  { intros w1 w2 w3 H12 H23 Hhit. destruct (H12 Hhit) as [T12 C12].
    destruct H23 as [T23 C23]; [by rewrite C12 |].
    split; [by eapply traffic_trans | congruence]. }
  assert (Hfinnhub : forall endpoint params,
             preserves R (_finnhub_request endpoint params 3)).
  { intros endpoint params w _. split.
    - apply traffic_finnhub_request. intros key Hkey. route.
    - apply (preserves_finnhub_request same_caches). }
  unfold _get_financial_metrics_finnhub.
  apply (along_try R R_trans); [| intros e; by apply (along_ret R R_refl)].
  apply (along_bind R R_trans); [apply Hfinnhub | intros metrics_data].
  destruct (negb _); [by apply (along_ret R R_refl) |].
  apply (along_bind R R_trans); [by apply (along_lift R R_refl) | intros metric].
  destruct (negb _); [by apply (along_ret R R_refl) |].
  apply (along_bind R R_trans); [apply Hfinnhub | intros profile_data].
  apply (along_bind R R_trans); [by apply (along_lift R R_refl) | intros mc].
  apply (along_bind R R_trans); [by apply (along_lift R R_refl) | intros currency].
  cbv zeta.
  apply (along_bind R R_trans); [by apply (along_lift R R_refl) | intros needs].
  apply (along_bind R R_trans).
  - destruct needs; [| by apply (along_ret R R_refl)].
    destruct FMP_API_KEY as [key |]; [| by apply (along_ret R R_refl)].
    intros w Hhit. unfold bind, _cache_get_financial_metrics.
    destruct Hhit as [d Hd]. rewrite Hd.
    apply cache_hit_Some in Hd as [_ Hne].
    destruct d as [| entry d]; [done |]. split; [apply traffic_refl | done].
  - intros supplement.
    apply (along_bind R R_trans); [by apply (along_lift R R_refl) | intros metrics].
    by apply (along_ret R R_refl).
Qed.

Lemma routed_without_fmp r :
  FMP_API_KEY = None -> routed [Finnhub; Fmp] r -> routed [Finnhub] r.
Proof.
  intros Hnone (p & Hp & Ha). exists Finnhub. split; [by repeat constructor |].
  destruct Ha as [endpoint params key Hin | tk range_param | endpoint tk key timeout Hkey
                  | path api_key method json_data].
  - by apply to_finnhub.
  - exfalso. inversion Hp as [| ? ? ? Hp1]; subst.
    inversion Hp1 as [| ? ? ? Hp2]; subst. inversion Hp2.
  - congruence.
  - exfalso. inversion Hp as [| ? ? ? Hp1]; subst.
    inversion Hp1 as [| ? ? ? Hp2]; subst. inversion Hp2.
Qed.

(** X7. The FMP quota is spared: with no FMP key configured,
    [get_financial_metrics] and [get_market_cap] send requests to Finnhub
    alone; and whatever the configuration, once the supplement of a ticker
    is cached, [_get_financial_metrics_finnhub] sends requests to Finnhub
    alone and leaves the financial-metrics cache as it is. *)
Theorem fmp_quota_spared :
  (FMP_API_KEY = None ->
   (forall tk end_date period limit api_key,
      preserves (traffic (routed [Finnhub]) true)
        (get_financial_metrics tk end_date period limit api_key))
   /\ (forall tk end_date api_key,
         preserves (traffic (routed [Finnhub]) true) (get_market_cap tk end_date api_key)))
  /\ (forall tk end_date period limit w,
        is_Some (cache_hit (financial_metrics_cache w !! ("fmp_supplement_" +:+ tk))) ->
        traffic (routed [Finnhub]) true w
          (snd (_get_financial_metrics_finnhub tk end_date period limit w))
        /\ financial_metrics_cache
             (snd (_get_financial_metrics_finnhub tk end_date period limit w))
           = financial_metrics_cache w).
Proof.
  split.
  - intros Hnone. split.
    + intros tk end_date period limit api_key.
      eapply preserves_traffic_weaken; [| | apply traffic_get_financial_metrics];
        [intros r; by apply routed_without_fmp | done].
    + intros tk end_date api_key.
      eapply preserves_traffic_weaken; [| | apply traffic_get_market_cap];
        [intros r; by apply routed_without_fmp | done].
  - intros tk end_date period limit w. apply supplement_cached_no_fmp.
Qed.

(** *** Code that only computes *)

Lemma bind_ret {A B} (a : A) (k : A -> M B) : bind (ret a) k = k a.
Proof. reflexivity. Qed.

Lemma unchanged_ret {A} (a : A) : preserves unchanged (ret a).
Proof. by intros w. Qed.

Lemma unchanged_raise {A} e : preserves unchanged (@raise A e).
Proof. by intros w. Qed.

Lemma unchanged_lift {A} (r : res A) : preserves unchanged (lift r).
Proof. by destruct r. Qed.

Lemma unchanged_bind {A B} (m : M A) (k : A -> M B) :
  preserves unchanged m -> (forall a, preserves unchanged (k a)) ->
  preserves unchanged (bind m k).
Proof.
  intros Hm Hk w. unfold bind. specialize (Hm w).
  destruct (m w) as [[a | e |] w1]; cbn in *; [| done | done].
  unfold unchanged in *. subst w1. apply Hk.
Qed.

Ltac pure_step :=
  lazymatch goal with
  | |- preserves unchanged (bind _ _) => apply unchanged_bind; [| intros ?]
  | |- preserves unchanged (if ?c then _ else _) => destruct c
  | |- preserves unchanged (match ?x with _ => _ end) => destruct x
  | |- preserves unchanged (let _ := _ in _) => cbv zeta
  | |- preserves unchanged (ret _) => apply unchanged_ret
  | |- preserves unchanged (raise _) => apply unchanged_raise
  | |- preserves unchanged (lift _) => apply unchanged_lift
  end.

(** A request in a [try] whose handler returns, followed by code that only
    computes: the call returns, and the request is all that happened. *)
Lemma try_request_then_compute {A} req (k : Response -> M A) (h : exn -> M A) w :
  (forall r, preserves unchanged (k r)) ->
  (forall r, total (k r)) ->
  (forall e, exists a, h e = ret a) ->
  exists a, try_except (bind (send req) k) h w = (Returns a, log_request req w).
Proof.
  intros Hpure Htotal Hh. unfold try_except, bind, send.
  destruct (http _ _) as [r | e].
  - specialize (Hpure r (log_request req w)). specialize (Htotal r (log_request req w)).
    destruct (k r (log_request req w)) as [[a | e |] w1]; cbn in *;
      unfold unchanged in Hpure; subst.
    + by exists a.
    + destruct (Hh e) as [a ->]. by exists a.
    + done.
  - destruct (Hh e) as [a ->]. by exists a.
Qed.

(** ** [get_prices]: dates that do not parse, Yahoo first, reversed windows *)

Lemma get_prices_yahoo_unparsed tk start_date end_date w :
  (exists x, strptime start_date = Err x) \/ (exists x, strptime end_date = Err x) ->
  _get_prices_yahoo tk start_date end_date w = (Returns [], w).
Proof.
  unfold _get_prices_yahoo. intros [[x Hx] | [x Hx]].
  - by rewrite Hx.
  - destruct (strptime start_date); by rewrite Hx.
Qed.

Lemma get_prices_finnhub_unparsed tk start_date end_date w :
  (exists x, strptime start_date = Err x) \/ (exists x, strptime end_date = Err x) ->
  _get_prices_finnhub tk start_date end_date w = (Returns [], w).
Proof.
  unfold _get_prices_finnhub. intros [[x Hx] | [x Hx]].
  - by rewrite Hx.
  - destruct (strptime start_date); by rewrite Hx.
Qed.

(** X8. When a date does not parse as [%Y-%m-%d] and the cache has nothing
    under the key, [get_prices] returns the empty list and does nothing
    else: no request goes out to Yahoo or Finnhub, no key is taken, nothing
    is cached, no error is raised. *)
Theorem get_prices_unparsed_date (tk start_date end_date : string) (api_key : option string)
    (w : World) :
  cache_hit (prices_cache w !! prices_cache_key tk start_date end_date) = None ->
  (exists x, strptime start_date = Err x) \/ (exists x, strptime end_date = Err x) ->
  get_prices tk start_date end_date api_key w = (Returns [], w).
Proof.
  intros Hmiss Hbad. rewrite get_prices_miss by done. unfold fetch_prices.
  erewrite bind_returns by (by apply get_prices_yahoo_unparsed).
  erewrite bind_returns by (by apply get_prices_finnhub_unparsed).
  reflexivity.
Qed.

(** After the chart request, [_get_prices_yahoo] only computes. *)
Lemma get_prices_yahoo_run tk start_date end_date d1 d2 w :
  strptime start_date = Ok d1 ->
  strptime end_date = Ok d2 ->
  exists prices,
    _get_prices_yahoo tk start_date end_date w
    = (Returns prices, log_request (yahoo_call tk (yahoo_range (d2 - d1))) w).
Proof.
  intros H1 H2. unfold _get_prices_yahoo. rewrite H1, H2. cbn [lift].
  rewrite bind_ret. cbv beta. rewrite bind_ret. cbv beta zeta.
  unfold requests_get.
  apply (try_request_then_compute (yahoo_call tk (yahoo_range (d2 - d1)))).
  - intros r. repeat pure_step.
  - intros r. totality.
  - intros e. by exists [].
Qed.

(** X9. Yahoo is asked first and, when it has prices, alone: on a cache
    miss with both dates parsed, if [_get_prices_yahoo] yields a non-empty
    list, [get_prices] returns it, having sent the one chart request (with
    the range picked from the span in days), cached the list under the key
    and done nothing else: Finnhub is not asked and no key is taken. *)
Theorem get_prices_yahoo_first (tk start_date end_date : string) (api_key : option string)
    (w : World) (d1 d2 : Z) (p : Price) (ps : list Price) :
  cache_hit (prices_cache w !! prices_cache_key tk start_date end_date) = None ->
  strptime start_date = Ok d1 ->
  strptime end_date = Ok d2 ->
  fst (_get_prices_yahoo tk start_date end_date w) = Returns (p :: ps) ->
  get_prices tk start_date end_date api_key w
  = (Returns (p :: ps),
     set_prices_cache
       (<[prices_cache_key tk start_date end_date := p :: ps]> (prices_cache w))
       (log_request (yahoo_call tk (yahoo_range (d2 - d1))) w)).
Proof.
  intros Hmiss H1 H2 Hyahoo. rewrite get_prices_miss by done. unfold fetch_prices.
  destruct (get_prices_yahoo_run tk start_date end_date d1 d2 w H1 H2) as [prices Hrun].
  rewrite Hrun in Hyahoo. cbn in Hyahoo. simplify_eq.
  erewrite bind_returns by exact Hrun.
  erewrite bind_returns by reflexivity.
  reflexivity.
Qed.

(** *** String order *)

Lemma string_compare_le_trans (a b c : string) :
  String.compare a b <> Gt -> String.compare b c <> Gt -> String.compare a c <> Gt.
Proof.
  revert b c. induction a as [| x a IH]; intros [| y b] [| z c]; cbn; try done.
  unfold Ascii.compare.
  destruct (N.compare_spec (N_of_ascii x) (N_of_ascii y)) as [Hxy | Hxy | Hxy];
    destruct (N.compare_spec (N_of_ascii y) (N_of_ascii z)) as [Hyz | Hyz | Hyz];
    try done.
  - rewrite Hxy, Hyz, N.compare_refl. apply IH.
  - rewrite Hxy. intros _ _. by rewrite (proj2 (N.compare_lt_iff _ _) Hyz).
  - rewrite <- Hyz. intros _ _. by rewrite (proj2 (N.compare_lt_iff _ _) Hxy).
  - intros _ _. by rewrite (proj2 (N.compare_lt_iff _ _) (N.lt_trans _ _ _ Hxy Hyz)).
Qed.

(** Nothing lies in a window whose end is before its start. *)
Lemma reversed_window_empty start_date end_date prices :
  PyStr.lt end_date start_date = true ->
  within_window start_date end_date prices ->
  prices = [].
Proof.
  intros Hrev Hin. destruct prices as [| p prices]; [done |].
  apply Forall_cons in Hin as [[H1 H2] _]. exfalso.
  unfold PyStr.lt, PyStr.le, String.ltb, String.leb in *.
  assert (Hle : String.compare start_date end_date <> Gt).
  { apply (string_compare_le_trans _ (time p)).
    - by destruct (String.compare start_date (time p)).
    - by destruct (String.compare (time p) end_date). }
  rewrite String.compare_antisym in Hle.
  by destruct (String.compare end_date start_date).
Qed.

Section Reversed.

Hypothesis strptime_no_underscore : forall s d, strptime s = Ok d -> no_underscore s.

(** X10. A window whose end date is before its start date (as strings)
    yields no price: in a process whose cache was changed only through the
    module's functions, with dates free of underscores, [get_prices] returns
    the empty list, raises nothing and caches nothing. *)
Theorem get_prices_reversed_window (tk start_date end_date : string)
    (api_key : option string) (w : World) :
  reachable w ->
  no_underscore start_date ->
  no_underscore end_date ->
  PyStr.lt end_date start_date = true ->
  fst (get_prices tk start_date end_date api_key w) = Returns []
  /\ prices_cache (snd (get_prices tk start_date end_date api_key w)) = prices_cache w.
Proof.
  intros Hr Hs He Hrev.
  pose proof (reachable_prices_cache_windowed strptime_no_underscore w Hr) as Hinv.
  destruct (cache_hit (prices_cache w !! prices_cache_key tk start_date end_date))
    as [d |] eqn:Hhit.
  - apply cache_hit_Some in Hhit as [Hhit Hne].
    apply Hinv in Hhit; [| done | done].
    by apply (reversed_window_empty _ _ _ Hrev) in Hhit.
  - rewrite get_prices_miss by done.
    destruct (fetch_prices_outcome (prices_cache_key tk start_date end_date)
                tk start_date end_date w)
      as (l & w1 & E & _ & _ & _ & Hcache).
    rewrite E. cbn [fst snd].
    apply fetch_prices_within in E as [Hin _].
    apply (reversed_window_empty _ _ _ Hrev) in Hin. subst l.
    split; [done |]. by destruct Hcache as [[_ Hc] | [Hne _]].
Qed.

End Reversed.

(** ** How many records the metrics adapters return *)

Lemma build_FinancialMetrics_ticker tk report_period period currency mc field m :
  build_FinancialMetrics tk report_period period currency mc field = Ok m ->
  ticker m = tk.
Proof.
  unfold build_FinancialMetrics. intros H.
  repeat match type of H with
         | res_bind ?r _ = Ok _ => destruct r; cbn [res_bind] in H; [| done]
         end.
  by simplify_eq.
Qed.

Lemma fmp_records_shape tk end_date period keymetrics income profile ratios :
  forall i l,
    fmp_records tk end_date period keymetrics income profile i ratios = Ok l ->
    length l = length ratios /\ Forall (fun m => ticker m = tk) l.
Proof.
  induction ratios as [| ratio rest IH]; intros i l H; cbn [fmp_records] in H.
  - by simplify_eq.
  - destruct (fmp_record _ _ _ _ _ _ _ _) as [m |] eqn:Hm; cbn [res_bind] in H; [| done].
    destruct (fmp_records _ _ _ _ _ _ _ rest) as [l' |] eqn:Hl; cbn [res_bind] in H; [| done].
    simplify_eq. destruct (IH _ _ Hl) as [Hlen Hall]. split; [cbn; by rewrite Hlen |].
    constructor; [| done].
    unfold fmp_record in Hm.
    repeat match type of Hm with
           | res_bind ?r _ = Ok _ => destruct r; cbn [res_bind] in Hm; [| done]
           end.
    by eapply build_FinancialMetrics_ticker.
Qed.

Lemma slice_to_length {A} (limit : Z) (l : list A) :
  0 <= limit -> Z.of_nat (length (Py.slice_to limit l)) <= limit.
Proof.
  intros H. unfold Py.slice_to. destruct (Z.ltb_spec limit 0); [lia |].
  rewrite length_take. lia.
Qed.

(** X11. The Finnhub metrics adapter returns at most one record, whatever
    [limit] asks for, and the FMP adapter at most [limit] records (for a
    [limit] that is not negative), one per row of the ratios answer that it
    read; every record carries the ticker that was asked for. *)
Theorem financial_metrics_adapters_sizes :
  (forall tk end_date period limit,
     yields (fun l => (length l <= 1)%nat /\ Forall (fun m => ticker m = tk) l)
       (_get_financial_metrics_finnhub tk end_date period limit))
  /\ (forall tk end_date period limit,
        yields (fun l => (0 <= limit -> Z.of_nat (length l) <= limit)
                         /\ Forall (fun m => ticker m = tk) l)
          (_get_financial_metrics_fmp tk end_date period limit)).
Proof.
  split.
  - intros tk end_date period limit. unfold _get_financial_metrics_finnhub.
    apply yields_try; [| intros e; apply yields_ret; by split; [cbn; lia |]].
    repeat (lazymatch goal with
            | |- yields _ (bind (lift (build_FinancialMetrics _ _ _ _ _ _)) _) => fail
            | |- yields _ (bind _ _) => apply yields_bind; intros ?
            | |- yields _ (if ?c then _ else _) => destruct c
            | |- yields _ (let _ := _ in _) => cbv zeta
            | |- yields _ (ret []) => apply yields_ret; by split; [cbn; lia |]
            end).
    intros w l w' E. unfold bind in E.
    destruct (build_FinancialMetrics _ _ _ _ _ _) as [m |] eqn:Hm; cbn in E; [| done].
    unfold ret in E. simplify_eq. split; [cbn; lia |].
    constructor; [by eapply build_FinancialMetrics_ticker | done].
  - intros tk end_date period limit. unfold _get_financial_metrics_fmp.
    assert (Hnil : forall w l w', @ret (list FinancialMetrics) [] w = (Returns l, w') ->
                     (0 <= limit -> Z.of_nat (length l) <= limit)
                     /\ Forall (fun m => ticker m = tk) l).
    { intros w l w' E. unfold ret in E. simplify_eq. split; [cbn; lia | done]. }
    destruct FMP_API_KEY as [key |]; [| exact Hnil].
    destruct (String.eqb key ""); [exact Hnil |].
    apply yields_try; [| intros e; exact Hnil].
    repeat (lazymatch goal with
            | |- yields _ (bind _ _) => apply yields_bind; intros ?
            | |- yields _ (if ?c then _ else _) => destruct c
            | |- yields _ (match ?x with _ => _ end) => destruct x
            | |- yields _ (ret []) => exact Hnil
            end).
    all: apply yields_lift; intros records Hrec.
    all: apply fmp_records_shape in Hrec as [Hlen Hall]; split; [| done].
    all: intros Hlimit; rewrite Hlen; by apply slice_to_length.
Qed.

(** ** The feeds without a start date *)

Lemma unchanged_diverge {A} : preserves unchanged (@diverge A).
Proof. by intros w. Qed.

Lemma snd_bind_unchanged {A B} (m : M A) (k : A -> M B) w :
  (forall a, preserves unchanged (k a)) -> snd (bind m k w) = snd (m w).
Proof.
  intros Hk. unfold bind. destruct (m w) as [[a | e |] w1]; cbn; [| done | done].
  apply Hk.
Qed.

Lemma make_api_request_at_most url headers method json_data w :
  (length (http_log (snd (_make_api_request url headers method json_data 3 w)))
   <= length (http_log w) + 4)%nat.
Proof.
  unfold _make_api_request.
  destruct (make_api_attempts_envelope url headers method json_data 3
              (Z.to_nat (3 + 1)) 0 w ltac:(lia) ltac:(lia))
    as (sent & Hsent & Hlog & _).
  cbv zeta in Hlog. rewrite Hlog, length_app, length_replicate. lia.
Qed.

Lemma feed_loop_single_page {A} (date_of : A -> string) response_model page_url headers
    start_date limit fuel all_records current_end_date w :
  given start_date = None ->
  let once := feed_loop date_of response_model page_url headers start_date limit
                1 all_records current_end_date w in
  feed_loop date_of response_model page_url headers start_date limit
    (S fuel) all_records current_end_date w = once
  /\ fst once <> OutOfFuel
  /\ (length (http_log (snd once)) <= length (http_log w) + 4)%nat.
Proof.
  intros Hgiven once.
  destruct (feed_loop_pass date_of response_model page_url headers start_date limit
              all_records current_end_date w)
    as [(o & w' & Ho & _ & Hstop) | (n & r & first & others & start & w1 & _ & _ & _ & Hs & _)];
    [| congruence].
  split; [| split].
  - subst once. by rewrite !Hstop.
  - subst once. by rewrite Hstop.
  - subst once. cbn [feed_loop]. cbv zeta. rewrite snd_bind_unchanged.
    + apply make_api_request_at_most.
    + intros response. rewrite Hgiven.
      repeat (pure_step || apply unchanged_diverge).
Qed.

(** X12. Without a start date ([None] or the empty string) the feeds do
    not page: [get_insider_trades] and [get_company_news] end after one pass
    of their loop, whatever the provider answers and however many records it
    has, having sent at most four requests (one and three retries after
    429). *)
Theorem feeds_single_page_without_start_date :
  (forall fuel tk end_date start_date limit api_key w,
     given start_date = None ->
     let once := get_insider_trades 1 tk end_date start_date limit api_key w in
     get_insider_trades (S fuel) tk end_date start_date limit api_key w = once
     /\ fst once <> OutOfFuel
     /\ (length (http_log (snd once)) <= length (http_log w) + 4)%nat)
  /\ (forall fuel tk end_date start_date limit api_key w,
        given start_date = None ->
        let once := get_company_news 1 tk end_date start_date limit api_key w in
        get_company_news (S fuel) tk end_date start_date limit api_key w = once
        /\ fst once <> OutOfFuel
        /\ (length (http_log (snd once)) <= length (http_log w) + 4)%nat).
Proof.
  split; intros fuel tk end_date start_date limit api_key w Hgiven once; subst once.
  - destruct (cache_hit (insider_trades_cache w !! feed_cache_key tk start_date end_date limit))
      as [d |] eqn:Hhit.
    + rewrite !(get_insider_trades_hit _ _ _ _ _ _ _ d Hhit). cbn. split; [done |].
      split; [done | lia].
    + rewrite !get_insider_trades_miss by done. unfold fetch_insider_trades.
      destruct (feed_loop_single_page filing_date InsiderTradeResponse
                  (insider_trades_url tk start_date limit)
                  (financial_datasets_headers api_key) start_date limit fuel [] end_date w
                  Hgiven)
        as (Hsame & Hfuel & Hlog).
      cbv zeta in Hsame, Hfuel, Hlog. unfold bind. rewrite Hsame.
      destruct (feed_loop _ _ _ _ _ _ 1 _ _ w) as [[[| t l] | e |] w1]; cbn in *; done.
  - destruct (cache_hit (company_news_cache w !! feed_cache_key tk start_date end_date limit))
      as [d |] eqn:Hhit.
    + rewrite !(get_company_news_hit _ _ _ _ _ _ _ d Hhit). cbn. split; [done |].
      split; [done | lia].
    + rewrite !get_company_news_miss by done. unfold fetch_company_news.
      destruct (feed_loop_single_page date CompanyNewsResponse
                  (company_news_url tk start_date limit)
                  (financial_datasets_headers api_key) start_date limit fuel [] end_date w
                  Hgiven)
        as (Hsame & Hfuel & Hlog).
      cbv zeta in Hsame, Hfuel, Hlog. unfold bind. rewrite Hsame.
      destruct (feed_loop _ _ _ _ _ _ 1 _ _ w) as [[[| t l] | e |] w1]; cbn in *; done.
Qed.

(** ** Line items *)

(** X13. What [search_line_items] returns is a prefix of the provider's
    answer: a non-empty result is the first [limit] entries of the
    [search_results] of a 200 answer to the POST it sent, so it has at most
    [limit] entries (for a [limit] that is not negative). The call takes no
    Finnhub key and leaves every cache as it is. *)
Theorem search_line_items_prefix (tk : string) (line_items : list string)
    (end_date period : string) (limit : Z) (api_key : option string)
    (w w' : World) (items : list LineItem) :
  search_line_items tk line_items end_date period limit api_key w = (Returns items, w') ->
  same_caches w w'
  /\ _finnhub_key_index w' = _finnhub_key_index w
  /\ (0 <= limit -> Z.of_nat (length items) <= limit)
  /\ (items <> [] ->
      exists n r results,
        http n (api_request "https://api.financialdatasets.ai/financials/search/line-items"
                  (financial_datasets_headers api_key) "POST"
                  (Some (JDict [("tickers", JList [JStr tk]);
                                ("line_items", JList (map JStr line_items));
                                ("end_date", JStr end_date);
                                ("period", JStr period);
                                ("limit", JInt limit)])))
        = Responded r
        /\ status_code r = 200
        /\ (let? data := response_json r in LineItemResponse data) = Ok results
        /\ items = Py.slice_to limit results).
Proof.
  intros Hrun.
  pose proof (preserves_search_line_items same_caches tk line_items end_date period limit
                api_key w) as Hcaches.
  assert (Hidx : preserves (traffic (fun _ => True) false)
                   (search_line_items tk line_items end_date period limit api_key)).
  { unfold search_line_items, status_of. follow_traffic.
    all: by apply traffic_make_api_request. }
  specialize (Hidx w). rewrite Hrun in Hcaches, Hidx. cbn [snd] in Hcaches, Hidx.
  split; [exact Hcaches |]. split; [by apply Hidx |].
  unfold search_line_items in Hrun. cbv zeta in Hrun. unfold bind at 1 in Hrun.
  destruct (_make_api_request _ _ _ _ _ w) as [[[r |] | e |] w1] eqn:E; [| done | done | done].
  unfold status_of, bind, ret in Hrun.
  destruct (negb (status_code r =? 200)) eqn:Hs.
  { simplify_eq. split; [cbn; lia | done]. }
  destruct (let? data := response_json r in LineItemResponse data)
    as [[| first others] | e] eqn:Hparse; simplify_eq.
  - split; [cbn; lia | done].
  - split; [apply slice_to_length |]. intros _.
    unfold _make_api_request in E. apply make_api_attempts_answer in E as [n Hn].
    exists n, r, (first :: others). split; [exact Hn |].
    split; [by apply negb_false_iff, Z.eqb_eq in Hs |]. done.
  - split; [cbn; lia | done].
Qed.

(** ** Market capitalisation *)

Lemma finnhub_attempts_answered n endpoint params keys_tried w key r data :
  key_at (_finnhub_key_index w) = Some key ->
  http (length (http_log w)) (finnhub_call endpoint params key) = Responded r ->
  status_code r = 200 ->
  body r = Some data ->
  Py.is_dict data && match Py.get data "error" with Ok e => Py.truthy e | Err _ => false end
  = false ->
  _finnhub_attempts (S n) endpoint params keys_tried w
  = (Returns data,
     log_request (finnhub_call endpoint params key)
       (set_key_index (_finnhub_key_index w + 1) w)).
Proof.
  intros Hkey Hr Hs Hbody Herr.
  assert (Hne : FINNHUB_KEYS <> []).
  { intros Hnil. unfold key_at in Hkey. rewrite Hnil in Hkey. by rewrite lookup_nil in Hkey. }
  cbn [_finnhub_attempts].
  erewrite bind_returns by (by apply next_key_step).
  rewrite requests_get_finnhub.
  set (w0 := set_key_index _ w).
  unfold bind at 1. unfold try_except. unfold bind at 1. unfold send.
  change (length (http_log w0)) with (length (http_log w)).
  rewrite Hr, Hs. cbn [Z.eqb Pos.eqb].
  unfold bind, response_json. rewrite Hbody. cbn [lift of_option]. unfold ret.
  by rewrite Herr.
Qed.

(** X14. Finnhub reports the market capitalisation in millions and
    [get_market_cap] returns it in units: when the profile request, sent
    with the key the rotation hands out, is answered 200 with a JSON object
    without a true [error] entry whose [marketCapitalization] is an integer
    z other than 0, the result is z * 1000000, and that one request and the
    key it took are all that happened: no fallback is asked and nothing is
    cached. *)
Theorem get_market_cap_from_finnhub (tk end_date : string) (api_key : option string)
    (w : World) (key : string) (r : Response) (d : list (string * json)) (z : Z) :
  key_at (_finnhub_key_index w) = Some key ->
  http (length (http_log w)) (finnhub_call "stock/profile2" [("symbol", tk)] key)
  = Responded r ->
  status_code r = 200 ->
  body r = Some (JDict d) ->
  match Py.assoc "error" d with Some e => Py.truthy e | None => false end = false ->
  Py.assoc "marketCapitalization" d = Some (JInt z) ->
  z <> 0 ->
  get_market_cap tk end_date api_key w
  = (Returns (JInt (z * 1000000)),
     log_request (finnhub_call "stock/profile2" [("symbol", tk)] key)
       (set_key_index (_finnhub_key_index w + 1) w)).
Proof.
  intros Hkey Hr Hs Hbody Herr Hmc Hz.
  assert (Hne : FINNHUB_KEYS <> []).
  { intros Hnil. unfold key_at in Hkey. rewrite Hnil in Hkey. by rewrite lookup_nil in Hkey. }
  assert (Hn : exists n, Z.to_nat (3 * Z.of_nat (length FINNHUB_KEYS)) = S n).
  { destruct FINNHUB_KEYS as [| k0 ks]; [done |]. exists (Z.to_nat (3 * Z.of_nat (length (k0 :: ks))) - 1)%nat.
    cbn [length]. lia. }
  destruct Hn as [n Hn].
  assert (Hd : d <> []) by (intros ->; done).
  assert (Hfinnhub : _get_market_cap_finnhub tk w
                     = (Returns (JInt (z * 1000000)),
                        log_request (finnhub_call "stock/profile2" [("symbol", tk)] key)
                          (set_key_index (_finnhub_key_index w + 1) w))).
  { unfold _get_market_cap_finnhub, try_except, _finnhub_request. rewrite Hn.
    erewrite bind_returns; cycle 1.
    { apply (finnhub_attempts_answered n _ _ _ w key r (JDict d)); try done.
      cbn. destruct (Py.assoc "error" d); by rewrite ?Herr. }
    cbn [Py.truthy]. destruct d as [| kv d']; [done |].
    unfold Py.get, Py.get_default, Py.getitem. rewrite Hmc. cbn [lift of_option].
    rewrite bind_ret. cbn [Py.truthy].
    destruct (Z.eqb_spec z 0) as [| _]; [done |]. cbn [negb].
    rewrite bind_ret. reflexivity. }
  assert (Ht : negb (Py.truthy (JInt (z * 1000000))) = false).
  { cbn [Py.truthy]. destruct (Z.eqb_spec (z * 1000000) 0) as [| _]; [lia | done]. }
  unfold get_market_cap. erewrite bind_returns by exact Hfinnhub.
  rewrite Ht, bind_ret. cbv beta. by rewrite Ht.
Qed.

Lemma always_returns_get_market_cap_fmp tk : always_returns (_get_market_cap_fmp tk).
Proof.
  unfold _get_market_cap_fmp.
  destruct FMP_API_KEY as [key |]; [| apply always_returns_ret].
  destruct (String.eqb key ""); [apply always_returns_ret |].
  apply try_except_always_returns; [totality | intros; apply always_returns_ret].
Qed.

Lemma bind_bind_returns {A B C} (m : M A) (k1 : A -> M B) (k2 : B -> M C) w a w' :
  m w = (Returns a, w') -> bind (bind m k1) k2 w = bind (k1 a) k2 w'.
Proof. intros H. unfold bind. by rewrite H. Qed.

Lemma bind_bind_raises {A B C} (m : M A) (k1 : A -> M B) (k2 : B -> M C) w e w' :
  m w = (Raises e, w') -> bind (bind m k1) k2 w = (Raises e, w').
Proof. intros H. unfold bind. by rewrite H. Qed.

(** X15. [get_market_cap] returns a value or [None] whatever the providers
    do, transport failures included; the one exception it can raise is the
    validation error of [get_financial_metrics] on a cached entry that is
    not a list of dumped records. It leaves the prices, insider-trades and
    news caches as they are. *)
Theorem get_market_cap_outcome (tk end_date : string) (api_key : option string)
    (w : World) :
  ((exists v, fst (get_market_cap tk end_date api_key w) = Returns v)
   \/ (fst (get_market_cap tk end_date api_key w) = Raises ValidationError
       /\ exists d,
            cache_hit (financial_metrics_cache w
                         !! financial_metrics_cache_key tk "ttm" end_date 10) = Some d
            /\ load_financial_metrics d = Err ValidationError))
  /\ prices_cache (snd (get_market_cap tk end_date api_key w)) = prices_cache w
  /\ insider_trades_cache (snd (get_market_cap tk end_date api_key w))
     = insider_trades_cache w
  /\ company_news_cache (snd (get_market_cap tk end_date api_key w)) = company_news_cache w.
Proof.
  unfold get_market_cap.
  destruct (run_adapter same_caches (_get_market_cap_finnhub tk) w
              (always_returns_get_market_cap_finnhub tk)
              (preserves_get_market_cap_finnhub same_caches tk))
    as (v1 & w1 & E1 & (P1 & M1 & T1 & N1)).
  erewrite bind_returns by exact E1.
  assert (Hfmp : forall v w2,
             prices_cache w2 = prices_cache w ->
             insider_trades_cache w2 = insider_trades_cache w ->
             company_news_cache w2 = company_news_cache w ->
             let run := (if negb (Py.truthy v) then _get_market_cap_fmp tk else ret v) w2 in
             (exists v', fst run = Returns v')
             /\ prices_cache (snd run) = prices_cache w
             /\ insider_trades_cache (snd run) = insider_trades_cache w
             /\ company_news_cache (snd run) = company_news_cache w).
  { intros v w2 Hp Hi Hn. cbv zeta. destruct (negb (Py.truthy v)).
    - destruct (run_adapter same_caches (_get_market_cap_fmp tk) w2
                  (always_returns_get_market_cap_fmp tk)
                  (preserves_get_market_cap_fmp same_caches tk))
        as (v2 & w3 & E2 & (P2 & M2 & T2 & N2)).
      rewrite E2. cbn. split; [by eexists |]. repeat split; congruence.
    - unfold ret. cbn. split; [by eexists | done]. }
  destruct (negb (Py.truthy v1)).
  - pose proof (get_financial_metrics_other_caches tk end_date "ttm" 10 api_key w1)
      as (Hp & Hi & Hn). cbv zeta in Hp, Hi, Hn.
    destruct (get_financial_metrics_outcome tk end_date "ttm" 10 api_key w1)
      as [[metrics Hm] | (Hraise & d & Hhit & Hload)].
    + destruct (get_financial_metrics tk end_date "ttm" 10 api_key w1) as [o w2] eqn:E2.
      cbn in Hm, Hp, Hi, Hn. subst o.
      erewrite bind_bind_returns by exact E2.
      destruct metrics as [| first rest]; rewrite bind_ret; cbv beta.
      * destruct (Hfmp v1 w2) as (Hv & Hrest); [congruence | congruence | congruence |].
        cbv zeta in Hv, Hrest. split; [by left | exact Hrest].
      * destruct (Hfmp (market_cap_of first) w2) as (Hv & Hrest);
          [congruence | congruence | congruence |].
        cbv zeta in Hv, Hrest. split; [by left | exact Hrest].
    + destruct (get_financial_metrics tk end_date "ttm" 10 api_key w1) as [o w2] eqn:E2.
      cbn in Hraise, Hp, Hi, Hn. subst o.
      erewrite bind_bind_raises by exact E2. cbn [fst snd].
      split; [| repeat split; congruence].
      right. split; [done |]. exists d. by rewrite <- M1.
  - rewrite bind_ret. cbv beta.
    destruct (Hfmp v1 w1) as (Hv & Hrest); [done | done | done |].
    cbv zeta in Hv, Hrest. split; [by left | exact Hrest].
Qed.

(** ** What the aggregate depends on *)

Lemma signal_count_upper name (l l' : list N8n.AgentResult) :
  map (fun r => PyStr.upper (N8n.signal r)) l = map (fun r => PyStr.upper (N8n.signal r)) l' ->
  N8n.signal_count name l = N8n.signal_count name l'.
Proof.
  unfold N8n.signal_count. intros H. f_equal. revert l' H.
  induction l as [| r l IH]; intros [| r' l'] H; cbn [map] in H; try done.
  injection H as Hhd Htl.
  cbn [List.filter]. rewrite Hhd.
  destruct (String.eqb _ name); cbn [length]; by rewrite (IH l').
Qed.

Lemma signal_count_permutation name (l l' : list N8n.AgentResult) :
  l ≡ₚ l' -> N8n.signal_count name l = N8n.signal_count name l'.
Proof.
  unfold N8n.signal_count. intros H. f_equal.
  induction H as [| x l1 l2 H IH | x y l1 | l1 l2 l3 H12 IH12 H23 IH23].
  - done.
  - cbn [List.filter]. destruct (String.eqb _ name); cbn [length]; by rewrite IH.
  - cbn [List.filter]. by destruct (String.eqb _ name), (String.eqb _ name).
  - by rewrite IH12.
Qed.

(** X16. The aggregate depends on the agents' results only through their
    signals read in upper case and their confidences: letter case, agent
    names and reasoning do not matter. And the aggregated signal does not
    depend on the order of the results (the confidence may, through the
    order in which the floats are summed). *)
Theorem aggregate_signals_depends_on (py_sum : list float -> float) :
  (forall l l' : list N8n.AgentResult,
     map (fun r => PyStr.upper (N8n.signal r)) l
     = map (fun r => PyStr.upper (N8n.signal r)) l' ->
     map N8n.confidence l = map N8n.confidence l' ->
     N8n.aggregate_signals py_sum l = N8n.aggregate_signals py_sum l')
  /\ (forall l l' : list N8n.AgentResult,
        l ≡ₚ l' ->
        fst (N8n.aggregate_signals py_sum l) = fst (N8n.aggregate_signals py_sum l')).
Proof.
  split.
  - intros l l' Hs Hc. unfold N8n.aggregate_signals.
    assert (Hlen : length l = length l').
    { apply (f_equal (@length _)) in Hc. by rewrite !length_map in Hc. }
    rewrite !(signal_count_upper _ l l' Hs), Hc, Hlen.
    destruct l as [| r l], l' as [| r' l']; try done.
  - intros l l' Hp. unfold N8n.aggregate_signals.
    rewrite !(signal_count_permutation _ l l' Hp).
    destruct l as [| r l], l' as [| r' l'].
    + done.
    + by apply Permutation_nil_cons in Hp.
    + symmetry in Hp. by apply Permutation_nil_cons in Hp.
    + cbv zeta.
      destruct (_ && _); [done |]. by destruct (_ && _).
Qed.

(** ** Each getter writes its own entry *)

Lemma insert_elsewhere {V} (c : gmap string V) key data k :
  k <> key -> <[key := data]> c !! k = c !! k.
Proof. intros H. by rewrite lookup_insert_ne. Qed.

(** X17. A getter changes no cache entry but its own: [get_prices] at most
    the prices entry under its key, [get_insider_trades] and
    [get_company_news] at most their entry under theirs, and
    [get_financial_metrics] at most the financial-metrics entries under its
    key and under the ticker's supplement key; the other caches are left as
    they are. *)
Theorem getters_write_their_own_entry :
  (forall tk start_date end_date api_key w,
     let w' := snd (get_prices tk start_date end_date api_key w) in
     (forall k, k <> prices_cache_key tk start_date end_date ->
        prices_cache w' !! k = prices_cache w !! k)
     /\ financial_metrics_cache w' = financial_metrics_cache w
     /\ insider_trades_cache w' = insider_trades_cache w
     /\ company_news_cache w' = company_news_cache w)
  /\ (forall tk end_date period limit api_key w,
        let w' := snd (get_financial_metrics tk end_date period limit api_key w) in
        (forall k, k <> financial_metrics_cache_key tk period end_date limit ->
           k <> "fmp_supplement_" +:+ tk ->
           financial_metrics_cache w' !! k = financial_metrics_cache w !! k)
        /\ prices_cache w' = prices_cache w
        /\ insider_trades_cache w' = insider_trades_cache w
        /\ company_news_cache w' = company_news_cache w)
  /\ (forall fuel tk end_date start_date limit api_key w,
        let w' := snd (get_insider_trades fuel tk end_date start_date limit api_key w) in
        (forall k, k <> feed_cache_key tk start_date end_date limit ->
           insider_trades_cache w' !! k = insider_trades_cache w !! k)
        /\ prices_cache w' = prices_cache w
        /\ financial_metrics_cache w' = financial_metrics_cache w
        /\ company_news_cache w' = company_news_cache w)
  /\ (forall fuel tk end_date start_date limit api_key w,
        let w' := snd (get_company_news fuel tk end_date start_date limit api_key w) in
        (forall k, k <> feed_cache_key tk start_date end_date limit ->
           company_news_cache w' !! k = company_news_cache w !! k)
        /\ prices_cache w' = prices_cache w
        /\ financial_metrics_cache w' = financial_metrics_cache w
        /\ insider_trades_cache w' = insider_trades_cache w).
Proof.
  split; [| split; [| split]].
  - intros tk start_date end_date api_key w. cbv zeta.
    destruct (cache_hit (prices_cache w !! prices_cache_key tk start_date end_date))
      as [d |] eqn:Hhit.
    + by rewrite (get_prices_hit _ _ _ _ _ d Hhit).
    + rewrite get_prices_miss by done.
      destruct (fetch_prices_outcome (prices_cache_key tk start_date end_date)
                  tk start_date end_date w)
        as (l & w1 & E & Hm & Hi & Hn & [[_ Hc] | [_ Hc]]); rewrite E; cbn [snd];
        (split; [| done]); intros k Hk; rewrite Hc; [done | by apply insert_elsewhere].
  - intros tk end_date period limit api_key w. cbv zeta.
    destruct (cache_hit (financial_metrics_cache w
                           !! financial_metrics_cache_key tk period end_date limit))
      as [d |] eqn:Hhit.
    + rewrite (get_financial_metrics_hit _ _ _ _ _ _ d Hhit).
      by destruct (load_financial_metrics d).
    + rewrite get_financial_metrics_miss by done. unfold fetch_financial_metrics.
      destruct (run_adapter (same_caches_but ("fmp_supplement_" +:+ tk))
                  (_get_financial_metrics_finnhub tk end_date period limit) w
                  (always_returns_get_financial_metrics_finnhub _ _ _ _)
                  (preserves_get_financial_metrics_finnhub _ _ _ _ _
                     (fun data w0 => same_caches_but_set _ data w0)))
        as (l1 & w1 & E1 & (P1 & M1 & T1 & N1)).
      erewrite bind_returns by exact E1.
      destruct l1 as [| m1 l1].
      * destruct (run_adapter same_caches
                    (_get_financial_metrics_fmp tk end_date period limit) w1
                    (always_returns_get_financial_metrics_fmp _ _ _ _)
                    (preserves_get_financial_metrics_fmp same_caches _ _ _ _))
          as (l2 & w2 & E2 & (P2 & M2 & T2 & N2)).
        erewrite bind_returns by exact E2.
        destruct l2 as [| m2 l2]; cbn.
        -- split; [| repeat split; congruence].
           intros k _ Hk. rewrite M2. by apply M1.
        -- split; [| repeat split; congruence].
           intros k Hk Hs. rewrite insert_elsewhere by done. rewrite M2. by apply M1.
      * erewrite bind_returns by reflexivity. cbn.
        split; [| repeat split; congruence].
        intros k Hk Hs. rewrite insert_elsewhere by done. by apply M1.
  - intros fuel tk end_date start_date limit api_key w. cbv zeta.
    destruct (cache_hit (insider_trades_cache w !! feed_cache_key tk start_date end_date limit))
      as [d |] eqn:Hhit.
    + by rewrite (get_insider_trades_hit _ _ _ _ _ _ _ d Hhit).
    + rewrite get_insider_trades_miss by done.
      destruct (fetch_insider_trades fuel (feed_cache_key tk start_date end_date limit)
                  tk end_date start_date limit api_key w) as [o w1] eqn:E.
      apply fetch_insider_trades_outcome in E
        as (Hp & Hm & Hn & [[_ Hc] | (trades & _ & _ & Hc)]); cbn [snd];
        (split; [| done]); intros k Hk; rewrite Hc; [done | by apply insert_elsewhere].
  - intros fuel tk end_date start_date limit api_key w. cbv zeta.
    destruct (cache_hit (company_news_cache w !! feed_cache_key tk start_date end_date limit))
      as [d |] eqn:Hhit.
    + by rewrite (get_company_news_hit _ _ _ _ _ _ _ d Hhit).
    + rewrite get_company_news_miss by done.
      destruct (fetch_company_news fuel (feed_cache_key tk start_date end_date limit)
                  tk end_date start_date limit api_key w) as [o w1] eqn:E.
      apply fetch_company_news_outcome in E
        as (Hp & Hm & Hi & [[_ Hc] | (news & _ & _ & Hc)]); cbn [snd];
        (split; [| done]); intros k Hk; rewrite Hc; [done | by apply insert_elsewhere].
Qed.

End Properties.

(** * Runs on the sample surroundings *)

(** C5 at the sample pool of three keys. *)
Lemma key_rotation_round_robin_holds :
  @FINNHUB_KEYS Sample.env <> []
  /\ exists keys w',
       @acquire_keys Sample.env 4 initial_world = (Returns keys, w')
       /\ take 3 keys = ["k1"; "k2"; "k3"]
       /\ keys !! 3%nat = keys !! 0%nat.
Proof.
  split; [done |].
  destruct (@key_rotation_round_robin Sample.env initial_world)
    as (keys & w' & Hrun & _ & _ & Hrot & Hwrap & _); [done |].
  exists keys, w'. split; [exact Hrun |]. split; [exact Hrot | exact Hwrap].
Defined.

(** C6 on a provider that answers 429 to everything: three sleeps of 60, 90
    and 120, then the fourth 429 is returned. *)
Lemma linear_backoff_schedule_holds :
  exists w',
    @_make_api_request Sample.throttled "u" [] "GET" None 3 initial_world
    = (Returns (Some {| status_code := 429; text := ""; body := Some JNull |}), w')
    /\ rev (take 3 (sleep_log w')) = [60; 90; 120].
Proof.
  destruct (@linear_backoff_schedule Sample.throttled "u" [] "GET" None 3 3 initial_world
              {| status_code := 429; text := ""; body := Some JNull |})
    as (w' & Hrun & Hsl & _); [lia | | reflexivity | by right |].
  - intros i Hi. eexists. split; [reflexivity | reflexivity].
  - exists w'. split; [exact Hrun | exact Hsl].
Defined.

(** C10, the claim as stated fails: with one bullish and one bearish vote of
    confidence 1.0 the result is "NEUTRAL" with confidence 0.5, while no
    agent voted neutral, so the weight by the count of the returned signal
    would give 0.0. *)
Lemma aggregate_signals_tie_weight :
  N8n.aggregate_signals N8n.sum_left Sample.split_votes = ("NEUTRAL", 0.5%float)
  /\ N8n.signal_count "NEUTRAL" Sample.split_votes = 0
  /\ snd (N8n.aggregate_signals N8n.sum_left Sample.split_votes)
     <> N8n.chosen_count_confidence N8n.sum_left Sample.split_votes.
Proof.
  split; [by vm_compute |]. split; [by vm_compute |].
  intros H. apply (f_equal (fun x => PrimFloat.eqb x 0.5%float)) in H.
  vm_compute in H. discriminate.
Qed.

(** C7, the code at the failing input: Finnhub reports a normalized P/E of 0
    and a debt-to-equity of 0; the record gets the trailing P/E, 15, and an
    unknown debt-to-equity. *)
Theorem finnhub_mapping_skips_zero :
  exists m w',
    @_get_financial_metrics_finnhub Sample.env Sample.lib
      (Sample.finnhub_only Sample.zero_first_metric Sample.full_profile)
      "ACME" "2024-01-10" "ttm" 10 initial_world
    = (Returns [m], w')
    /\ Py.get Sample.zero_first_metric "peNormalizedAnnual" = Ok (JInt 0)
    /\ metric_value m price_to_earnings_ratio = Some 15%float
    /\ Py.get Sample.zero_first_metric "totalDebt/totalEquityQuarterly" = Ok (JInt 0)
    /\ metric_value m debt_to_equity = None.
Proof.
  eexists _, _. split; [vm_compute; reflexivity |].
  repeat split; vm_compute; reflexivity.
Qed.

(** C8, the code at the failing input: the profile has no
    [marketCapitalization]; [_get_market_cap_finnhub] returns [None], the
    record built by [_get_financial_metrics_finnhub] has [market_cap] 0.0. *)
Theorem finnhub_metrics_market_cap_zero :
  exists m w',
    @_get_financial_metrics_finnhub Sample.env Sample.lib
      (Sample.finnhub_only Sample.zero_first_metric Sample.bare_profile)
      "ACME" "2024-01-10" "ttm" 10 initial_world
    = (Returns [m], w')
    /\ Py.get Sample.bare_profile "marketCapitalization" = Ok JNull
    /\ market_cap m = Some zero
    /\ fst (@_get_market_cap_finnhub Sample.env
              (Sample.finnhub_only Sample.zero_first_metric Sample.bare_profile)
              "ACME" initial_world)
       = Returns JNull.
Proof.
  eexists _, _. split; [vm_compute; reflexivity |].
  repeat split; vm_compute; reflexivity.
Qed.

(** ** The feeds on the sample providers *)

Lemma stuck_feed_answer url headers w :
  exists w',
    @_make_api_request Sample.stuck_feed url headers "GET" None 3 w
    = (Returns (Some {| status_code := 200; text := "";
                        body := Some (JDict [("insider_trades",
                                               JList [Sample.trade "2024-01-05";
                                                      Sample.trade "2024-01-05"])]) |}), w').
Proof.
  destruct (make_api_attempts_run (net := Sample.stuck_feed) url headers "GET" None 3 0
              (Z.to_nat (3 + 1)) 0 w
              {| status_code := 200; text := "";
                 body := Some (JDict [("insider_trades",
                                        JList [Sample.trade "2024-01-05";
                                               Sample.trade "2024-01-05"])]) |})
    as (w' & Hrun & _);
    [vm_compute; lia | lia | intros i Hi; lia | reflexivity | by left |].
  by exists w'.
Qed.

Lemma stuck_feed_loops fuel :
  forall page_url headers all_records current_end_date w,
    fst (@feed_loop Sample.stuck_feed InsiderTrade filing_date
           (@InsiderTradeResponse Sample.lib) page_url headers (Some "2024-01-01") 2
           fuel all_records current_end_date w)
    = OutOfFuel.
Proof.
  induction fuel as [| fuel IH]; intros page_url headers all_records current_end_date w;
    [done |].
  cbn [feed_loop]. cbv zeta.
  destruct (stuck_feed_answer (page_url current_end_date) headers w) as [w' E].
  erewrite bind_returns by exact E. cbv beta iota.
  change (negb (status_code _ =? 200)) with false. cbv iota.
  apply IH.
Qed.

Lemma stuck_news_answer url headers w :
  exists w',
    @_make_api_request Sample.stuck_news url headers "GET" None 3 w
    = (Returns (Some {| status_code := 200; text := "";
                        body := Some (JDict [("news",
                                               JList [Sample.news_item "2024-01-05";
                                                      Sample.news_item "2024-01-05"])]) |}), w').
Proof.
  destruct (make_api_attempts_run (net := Sample.stuck_news) url headers "GET" None 3 0
              (Z.to_nat (3 + 1)) 0 w
              {| status_code := 200; text := "";
                 body := Some (JDict [("news",
                                        JList [Sample.news_item "2024-01-05";
                                               Sample.news_item "2024-01-05"])]) |})
    as (w' & Hrun & _);
    [vm_compute; lia | lia | intros i Hi; lia | reflexivity | by left |].
  by exists w'.
Qed.

Lemma stuck_news_loops fuel :
  forall page_url headers all_records current_end_date w,
    fst (@feed_loop Sample.stuck_news CompanyNews date
           (@CompanyNewsResponse Sample.lib) page_url headers (Some "2024-01-01") 2
           fuel all_records current_end_date w)
    = OutOfFuel.
Proof.
  induction fuel as [| fuel IH]; intros page_url headers all_records current_end_date w;
    [done |].
  cbn [feed_loop]. cbv zeta.
  destruct (stuck_news_answer (page_url current_end_date) headers w) as [w' E].
  erewrite bind_returns by exact E. cbv beta iota.
  change (negb (status_code _ =? 200)) with false. cbv iota.
  apply IH.
Qed.

(** C3, the claim as stated fails: the provider answers every request with a
    full page of two records dated 2024-01-05, so from the second pass on the
    page's oldest day equals the cursor; neither getter ends, with whatever
    fuel, and no error is raised. *)
Lemma stalled_cursor_never_ends :
  ~ (exists fuel,
       fst (get_insider_trades (env := Sample.env) (lib := Sample.lib)
              (net := Sample.stuck_feed)
              fuel "ACME" "2024-01-10" (Some "2024-01-01") 2 None initial_world)
       <> OutOfFuel)
  /\ ~ (exists fuel,
          fst (get_company_news (env := Sample.env) (lib := Sample.lib)
                 (net := Sample.stuck_news)
                 fuel "ACME" "2024-01-10" (Some "2024-01-01") 2 None initial_world)
          <> OutOfFuel).
Proof.
  split; intros [fuel Hend]; apply Hend; clear Hend.
  - rewrite get_insider_trades_miss by reflexivity.
    unfold fetch_insider_trades, bind.
    pose proof (stuck_feed_loops fuel
                  (insider_trades_url "ACME" (Some "2024-01-01") 2)
                  (financial_datasets_headers (env := Sample.env) None)
                  [] "2024-01-10" initial_world) as Hloop.
    destruct (feed_loop _ _ _ _ _ _ _ _ _ initial_world) as [o w1]. cbn in Hloop. by subst o.
  - rewrite get_company_news_miss by reflexivity.
    unfold fetch_company_news, bind.
    pose proof (stuck_news_loops fuel
                  (company_news_url "ACME" (Some "2024-01-01") 2)
                  (financial_datasets_headers (env := Sample.env) None)
                  [] "2024-01-10" initial_world) as Hloop.
    destruct (feed_loop _ _ _ _ _ _ _ _ _ initial_world) as [o w1]. cbn in Hloop. by subst o.
Qed.

Lemma paged_rank_other cursor : cursor <> "2024-01-08" -> Sample.paged_rank cursor = 1%nat.
Proof. intros H. unfold Sample.paged_rank. by destruct (String.eqb_spec cursor "2024-01-08"). Qed.

(** C3 on the sample providers. On providers that page, both getters end
    within two passes. On the provider that repeats a full page dated
    2024-01-05, a pass entered with the cursor 2024-01-05 goes round again
    with the cursor 2024-01-05, and the getter does not end with a hundred
    passes of fuel. *)
Lemma pagination_passes_holds :
  fst (get_insider_trades (env := Sample.env) (lib := Sample.lib) (net := Sample.paged_feed)
         2 "ACME" "2024-01-10" (Some "2024-01-01") 2 None initial_world)
  <> OutOfFuel
  /\ fst (get_company_news (env := Sample.env) (lib := Sample.lib) (net := Sample.paged_news)
            2 "ACME" "2024-01-10" (Some "2024-01-01") 2 None initial_world)
     <> OutOfFuel
  /\ (exists w1,
        feed_loop (net := Sample.stuck_feed) filing_date
          (InsiderTradeResponse (PyLib := Sample.lib))
          (insider_trades_url "ACME" (Some "2024-01-01") 2)
          (financial_datasets_headers (env := Sample.env) None) (Some "2024-01-01") 2
          2 [] "2024-01-05" initial_world
        = feed_loop (net := Sample.stuck_feed) filing_date
            (InsiderTradeResponse (PyLib := Sample.lib))
            (insider_trades_url "ACME" (Some "2024-01-01") 2)
            (financial_datasets_headers (env := Sample.env) None) (Some "2024-01-01") 2
            1
            [Build_InsiderTrade "2024-01-05" (Sample.trade "2024-01-05");
             Build_InsiderTrade "2024-01-05" (Sample.trade "2024-01-05")]
            "2024-01-05" w1)
  /\ fst (get_insider_trades (env := Sample.env) (lib := Sample.lib)
            (net := Sample.stuck_feed)
            100 "ACME" "2024-01-10" (Some "2024-01-01") 2 None initial_world)
     = OutOfFuel.
Proof.
  split; [| split; [| split]].
  - destruct (@pagination_passes Sample.env Sample.lib Sample.paged_feed) as (_ & Htrades & _).
    apply (Htrades Sample.paged_rank "ACME" "2024-01-10" (Some "2024-01-01") 2 None
             initial_world).
    intros n cur r first others Hresp Hs Hparse Hfull.
    unfold http, Sample.paged_feed in Hresp.
    destruct (PyStr.contains _ _) eqn:Hc; unfold Sample.reply in Hresp; simplify_eq;
      cbn in Hparse; simplify_eq; [exfalso; vm_compute in Hfull; by apply Hfull |].
    rewrite (paged_rank_other cur); [vm_compute; lia |].
    intros ->. vm_compute in Hc. discriminate.
  - destruct (@pagination_passes Sample.env Sample.lib Sample.paged_news)
      as (_ & _ & Hnews & _).
    apply (Hnews Sample.paged_rank "ACME" "2024-01-10" (Some "2024-01-01") 2 None
             initial_world).
    intros n cur r first others Hresp Hs Hparse Hfull.
    unfold http, Sample.paged_news in Hresp.
    destruct (PyStr.contains _ _) eqn:Hc; unfold Sample.reply in Hresp; simplify_eq;
      cbn in Hparse; simplify_eq; [exfalso; vm_compute in Hfull; by apply Hfull |].
    rewrite (paged_rank_other cur); [vm_compute; lia |].
    intros ->. vm_compute in Hc. discriminate.
  - destruct (proj1 (@pagination_passes Sample.env Sample.lib Sample.stuck_feed)
                InsiderTrade filing_date (InsiderTradeResponse (PyLib := Sample.lib))
                (insider_trades_url "ACME" (Some "2024-01-01") 2)
                (financial_datasets_headers (env := Sample.env) None)
                (Some "2024-01-01") 2)
      as (_ & _ & Hon & _).
    destruct (stuck_feed_answer
                (insider_trades_url "ACME" (Some "2024-01-01") 2 "2024-01-05")
                (financial_datasets_headers (env := Sample.env) None) initial_world)
      as [w1 E].
    exists w1.
    apply (Hon [] "2024-01-05" initial_world _ w1
             (Build_InsiderTrade "2024-01-05" (Sample.trade "2024-01-05"))
             [Build_InsiderTrade "2024-01-05" (Sample.trade "2024-01-05")]
             "2024-01-01" E);
      reflexivity || (vm_compute; discriminate).
  - destruct (@pagination_passes Sample.env Sample.lib Sample.stuck_feed)
      as (_ & _ & _ & Hstuck & _).
    apply (Hstuck "ACME" "2024-01-10" (Some "2024-01-01") "2024-01-01" 2 None initial_world).
    + reflexivity.
    + reflexivity.
    + intros n cur.
      exists {| status_code := 200; text := "";
                body := Some (JDict [("insider_trades",
                                       JList [Sample.trade "2024-01-05";
                                              Sample.trade "2024-01-05"])]) |},
        (Build_InsiderTrade "2024-01-05" (Sample.trade "2024-01-05")),
        [Build_InsiderTrade "2024-01-05" (Sample.trade "2024-01-05")].
      split; [reflexivity |]. split; [reflexivity |]. split; [reflexivity |].
      split; [vm_compute; discriminate | reflexivity].
Defined.

(** ** The getters on the sample providers *)

(** C1 with every provider down: [get_prices] returns the empty list, the
    cache stays empty, and the next call goes out to the providers again. *)
Lemma empty_result_never_cached_holds :
  exists w',
    get_prices (env := Sample.env) (lib := Sample.lib) (net := Sample.all_down)
      "AAPL" "2024-01-05" "2024-01-10" None initial_world = (Returns [], w')
    /\ prices_cache w' = prices_cache initial_world
    /\ (length (http_log w')
        < length (http_log
            (snd (get_prices (env := Sample.env) (lib := Sample.lib) (net := Sample.all_down)
                    "AAPL" "2024-01-05" "2024-01-10" None w'))))%nat.
Proof.
  exists (snd (get_prices (env := Sample.env) (lib := Sample.lib) (net := Sample.all_down)
                 "AAPL" "2024-01-05" "2024-01-10" None initial_world)).
  assert (Hrun : get_prices (env := Sample.env) (lib := Sample.lib) (net := Sample.all_down)
                   "AAPL" "2024-01-05" "2024-01-10" None initial_world
                 = (Returns [],
                    snd (get_prices (env := Sample.env) (lib := Sample.lib)
                           (net := Sample.all_down)
                           "AAPL" "2024-01-05" "2024-01-10" None initial_world)))
    by (vm_compute; reflexivity).
  split; [exact Hrun |].
  destruct (@empty_result_never_cached Sample.env Sample.lib Sample.all_down) as (Hprices & _).
  destruct (Hprices _ _ _ _ _ _ Hrun) as (Hcache & _ & Hsends).
  split; [exact Hcache |].
  apply (Hsends (Sample.ordinal 2024 1 5) (Sample.ordinal 2024 1 10)); vm_compute; reflexivity.
Defined.


(** C4, the claim as stated fails: when the connection fails, the three
    getters that go through [_make_api_request] raise to the caller. *)
Lemma transport_failure_reaches_caller :
  fst (search_line_items (env := Sample.env) (lib := Sample.lib) (net := Sample.refused)
         "AAPL" ["revenue"] "2024-01-10" "ttm" 10 None initial_world)
  = Raises ConnectionError
  /\ fst (get_insider_trades (env := Sample.env) (lib := Sample.lib) (net := Sample.refused)
            1 "AAPL" "2024-01-10" None 1000 None initial_world)
     = Raises ConnectionError
  /\ fst (get_company_news (env := Sample.env) (lib := Sample.lib) (net := Sample.refused)
            1 "AAPL" "2024-01-10" None 1000 None initial_world)
     = Raises ConnectionError.
Proof. repeat split; vm_compute; reflexivity. Qed.

(** C4 on the sample providers: with every provider answering 500 the
    line-items search returns a list, and with every connection failing
    [get_prices] still returns one while [get_insider_trades] raises. The
    line-items search raises the timeout that follows a 429 answer, and
    [get_insider_trades] the connection failure that strikes its second
    page. *)
Lemma upstream_failures_and_the_caller_holds :
  (exists items,
     fst (search_line_items (env := Sample.env) (lib := Sample.lib) (net := Sample.all_down)
            "AAPL" ["revenue"] "2024-01-10" "ttm" 10 None initial_world)
     = Returns items)
  /\ (exists prices,
        fst (get_prices (env := Sample.env) (lib := Sample.lib) (net := Sample.refused)
               "AAPL" "2024-01-05" "2024-01-10" None initial_world)
        = Returns prices)
  /\ fst (get_insider_trades (env := Sample.env) (lib := Sample.lib) (net := Sample.refused)
            1 "AAPL" "2024-01-10" None 1000 None initial_world)
     = Raises ConnectionError
  /\ fst (search_line_items (env := Sample.env) (lib := Sample.lib)
            (net := Sample.throttled_then_unreachable)
            "AAPL" ["revenue"] "2024-01-10" "ttm" 10 None initial_world)
     = Raises RequestsTimeout
  /\ fst (get_insider_trades (env := Sample.env) (lib := Sample.lib)
            (net := Sample.page_then_refused)
            2 "ACME" "2024-01-10" (Some "2024-01-01") 2 None initial_world)
     = Raises ConnectionError.
Proof.
  split; [| split; [| split; [| split]]].
  - destruct (@upstream_failures_and_the_caller Sample.env Sample.lib Sample.all_down)
      as (_ & _ & Hresp & _).
    destruct Hresp as (Hitems & _); [intros n req; by eexists |].
    apply Hitems.
  - destruct (@upstream_failures_and_the_caller Sample.env Sample.lib Sample.refused)
      as (Hprices & _).
    apply Hprices.
  - destruct (@upstream_failures_and_the_caller Sample.env Sample.lib Sample.refused)
      as (_ & _ & _ & _ & _ & Htrades & _).
    apply (Htrades 1%nat "AAPL" "2024-01-10" None 1000 None initial_world
             0%nat [] "2024-01-10" initial_world 0%nat ConnectionError).
    + reflexivity.
    + constructor.
    + lia.
    + intros i Hi. lia.
    + reflexivity.
    + lia.
  - destruct (@upstream_failures_and_the_caller Sample.env Sample.lib
                Sample.throttled_then_unreachable)
      as (_ & _ & _ & _ & Hitems & _).
    apply (Hitems "AAPL" ["revenue"] "2024-01-10" "ttm" 10 None initial_world
             1%nat RequestsTimeout).
    + lia.
    + intros i Hi. destruct i as [| i]; [| lia].
      eexists. split; reflexivity.
    + reflexivity.
  - destruct (@upstream_failures_and_the_caller Sample.env Sample.lib
                Sample.page_then_refused)
      as (_ & _ & _ & _ & _ & Htrades & _).
    pose (page_url := insider_trades_url "ACME" (Some "2024-01-01") 2).
    pose (hs := financial_datasets_headers (env := Sample.env) None).
    pose (t := Build_InsiderTrade "2024-01-05" (Sample.trade "2024-01-05")).
    pose (r := {| status_code := 200; text := "";
                  body := Some (JDict [("insider_trades",
                                         JList [Sample.trade "2024-01-05";
                                                Sample.trade "2024-01-05"])]) |}).
    pose (w1 := snd (_make_api_request (net := Sample.page_then_refused)
                       (page_url "2024-01-10") hs "GET" None 3 initial_world)).
    apply (Htrades 2%nat "ACME" "2024-01-10" (Some "2024-01-01") 2 None initial_world
             1%nat [t; t] "2024-01-05" w1 0%nat ConnectionError).
    + reflexivity.
    + apply (feed_reaches_next (net := Sample.page_then_refused) filing_date
               (InsiderTradeResponse (PyLib := Sample.lib)) page_url hs
               (Some "2024-01-01") 2
               0 [] "2024-01-10" initial_world [] "2024-01-10" initial_world r w1 t [t]
               "2024-01-01").
      * constructor.
      * vm_compute. reflexivity.
      * reflexivity.
      * reflexivity.
      * reflexivity.
      * vm_compute. discriminate.
      * reflexivity.
    + lia.
    + intros i Hi. lia.
    + vm_compute. reflexivity.
    + lia.
Defined.

Lemma digit_not_underscore c : Sample.is_digit c = true -> Ascii.eqb c "_" = false.
Proof.
  destruct c as [b0 b1 b2 b3 b4 b5 b6 b7].
  destruct b0, b1, b2, b3, b4, b5, b6, b7; vm_compute; congruence.
Qed.

Lemma hyphen_not_underscore c : Ascii.eqb c "-" = true -> Ascii.eqb c "_" = false.
Proof. intros H%Ascii.eqb_eq. by subst c. Qed.

(** The sample [strptime] accepts no underscore. *)
Lemma iso_strptime_no_underscore s d : Sample.iso_strptime s = Ok d -> no_underscore s.
Proof.
  unfold Sample.iso_strptime, no_underscore. intros H.
  rewrite <- (string_of_list_ascii_of_string s).
  destruct (list_ascii_of_string s)
    as [| y1 [| y2 [| y3 [| y4 [| h1 [| m1 [| m2 [| h2 [| d1 [| d2 [| x l]]]]]]]]]]];
    try done.
  destruct (forallb Sample.is_digit [y1; y2; y3; y4; m1; m2; d1; d2]) eqn:Hd;
    cbn [andb] in H; [| done].
  destruct (Ascii.eqb h1 "-") eqn:H1; cbn [andb] in H; [| done].
  destruct (Ascii.eqb h2 "-") eqn:H2; cbn [andb] in H; [| done].
  cbn [forallb] in Hd. repeat (apply andb_true_iff in Hd as [?%digit_not_underscore Hd]).
  apply hyphen_not_underscore in H1, H2.
  cbn [string_of_list_ascii PyStr.count].
  repeat match goal with Hx : Ascii.eqb _ "_" = false |- _ => rewrite Hx; clear Hx end.
  done.
Qed.

(** Outside dates the key of [get_prices] is shared: that of
    [get_prices("X_0_0", "2024-01-05", "2024-01-10")] is also that of
    [get_prices("X", "0", "0_2024-01-05_2024-01-10")], whose second and third
    arguments are no dates; after the first call the second is served the
    first one's record. *)
Lemma get_prices_shared_key :
  exists p w1 w2,
    get_prices (env := Sample.env) (lib := Sample.lib) (net := Sample.yahoo_up)
      "X_0_0" "2024-01-05" "2024-01-10" None initial_world = (Returns [p], w1)
    /\ get_prices (env := Sample.env) (lib := Sample.lib) (net := Sample.yahoo_up)
         "X" "0" "0_2024-01-05_2024-01-10" None w1 = (Returns [p], w2)
    /\ time p = "2024-01-07"
    /\ Sample.iso_strptime "0" = Err ValueError
    /\ Sample.iso_strptime "0_2024-01-05_2024-01-10" = Err ValueError.
Proof.
  eexists _, _, _. split; [vm_compute; reflexivity |].
  split; [vm_compute; reflexivity |].
  split; [reflexivity |]. split; reflexivity.
Qed.

(** C9 with Yahoo up: the first call for 2024-01-05 .. 2024-01-10 returns
    the record of 2024-01-07 from Yahoo, the second call returns it from the
    cache, and it lies in the window. *)
Lemma get_prices_within_window_holds :
  exists p,
    fst (get_prices (env := Sample.env) (lib := Sample.lib) (net := Sample.yahoo_up)
           "AAPL" "2024-01-05" "2024-01-10" None initial_world)
    = Returns [p]
    /\ fst (get_prices (env := Sample.env) (lib := Sample.lib) (net := Sample.yahoo_up)
              "AAPL" "2024-01-05" "2024-01-10" None
              (snd (get_prices (env := Sample.env) (lib := Sample.lib)
                      (net := Sample.yahoo_up)
                      "AAPL" "2024-01-05" "2024-01-10" None initial_world)))
       = Returns [p]
    /\ http_log (snd (get_prices (env := Sample.env) (lib := Sample.lib)
                        (net := Sample.yahoo_up)
                        "AAPL" "2024-01-05" "2024-01-10" None
                        (snd (get_prices (env := Sample.env) (lib := Sample.lib)
                                (net := Sample.yahoo_up)
                                "AAPL" "2024-01-05" "2024-01-10" None initial_world))))
       = http_log (snd (get_prices (env := Sample.env) (lib := Sample.lib)
                          (net := Sample.yahoo_up)
                          "AAPL" "2024-01-05" "2024-01-10" None initial_world))
    /\ time p = "2024-01-07"
    /\ within_window "2024-01-05" "2024-01-10" [p].
Proof.
  eexists. split; [vm_compute; reflexivity |].
  split; [vm_compute; reflexivity |].
  split; [vm_compute; reflexivity |].
  split; [reflexivity |].
  destruct (@get_prices_within_window Sample.env Sample.lib Sample.yahoo_up
              iso_strptime_no_underscore "AAPL" "2024-01-05" "2024-01-10" None
              (snd (get_prices (env := Sample.env) (lib := Sample.lib)
                      (net := Sample.yahoo_up)
                      "AAPL" "2024-01-05" "2024-01-10" None initial_world))
              738890 738895)
    as (prices & Hret & Hin).
  - apply (reachable_get_prices "AAPL" "2024-01-05" "2024-01-10" None initial_world).
    constructor.
  - vm_compute. reflexivity.
  - vm_compute. reflexivity.
  - vm_compute in Hret. injection Hret as <-. exact Hin.
Defined.

(** ** More runs on the sample surroundings *)

Lemma sample_keys_distinct : NoDup (@FINNHUB_KEYS Sample.env).
Proof.
  by apply (bool_decide_unpack _).
Qed.

(** X2 with three keys and every answer a 429: nine requests, three sleeps
    of five seconds. *)
Lemma finnhub_request_all_throttled_holds :
  exists w',
    _finnhub_request (env := Sample.env) (net := Sample.throttled) "quote" [] 3 initial_world
    = (Returns JNull, w')
    /\ length (http_log w') = 9%nat
    /\ _finnhub_key_index w' = 9
    /\ sleep_log w' = [5; 5; 5].
Proof.
  destruct (finnhub_request_all_throttled (env := Sample.env) (net := Sample.throttled)
              "quote" [] 3 initial_world)
    as (w' & Hrun & Hlog & Hidx & Hsl).
  - exact sample_keys_distinct.
  - done.
  - lia.
  - intros n req. eexists. split; reflexivity.
  - exists w'. split; [exact Hrun |]. split; [exact Hlog |]. split; [exact Hidx | exact Hsl].
Defined.

(** X3 on Finnhub alone: the profile returned is the body of the 200 answer
    to the one request sent. *)
Lemma finnhub_request_returns_body_holds :
  exists req rest r,
    http_log (snd (_finnhub_request (env := Sample.env)
                     (net := Sample.finnhub_only Sample.zero_first_metric Sample.full_profile)
                     "stock/profile2" [("symbol", "ACME")] 3 initial_world))
    = req :: rest
    /\ Sample.finnhub_only Sample.zero_first_metric Sample.full_profile (length rest) req
       = Responded r
    /\ status_code r = 200
    /\ body r = Some Sample.full_profile.
Proof.
  destruct (finnhub_request_returns_body (env := Sample.env)
              (net := Sample.finnhub_only Sample.zero_first_metric Sample.full_profile)
              "stock/profile2" [("symbol", "ACME")] 3 initial_world
              (snd (_finnhub_request (env := Sample.env)
                      (net := Sample.finnhub_only Sample.zero_first_metric
                                Sample.full_profile)
                      "stock/profile2" [("symbol", "ACME")] 3 initial_world))
              Sample.full_profile)
    as (req & rest & r & Hlog & Hr & Hs & Hb & _).
  - vm_compute. reflexivity.
  - done.
  - by exists req, rest, r.
Defined.

(** X8 on a start date that is no date: nothing happens. *)
Lemma get_prices_unparsed_date_holds :
  get_prices (env := Sample.env) (lib := Sample.lib) (net := Sample.yahoo_up)
    "AAPL" "yesterday" "2024-01-10" None initial_world
  = (Returns [], initial_world).
Proof.
  apply (get_prices_unparsed_date (env := Sample.env) (lib := Sample.lib)
           (net := Sample.yahoo_up)).
  - reflexivity.
  - left. exists ValueError. reflexivity.
Defined.

(** X9 with Yahoo up: one chart request over five days, one cache entry. *)
Lemma get_prices_yahoo_first_holds :
  exists p,
    get_prices (env := Sample.env) (lib := Sample.lib) (net := Sample.yahoo_up)
      "AAPL" "2024-01-05" "2024-01-10" None initial_world
    = (Returns [p],
       set_prices_cache
         (<[prices_cache_key "AAPL" "2024-01-05" "2024-01-10" := [p]]> ∅)
         (log_request (yahoo_call "AAPL" "5d") initial_world))
    /\ time p = "2024-01-07".
Proof.
  assert (Hyahoo : exists p,
            fst (_get_prices_yahoo (lib := Sample.lib) (net := Sample.yahoo_up)
                   "AAPL" "2024-01-05" "2024-01-10" initial_world)
            = Returns [p] /\ time p = "2024-01-07")
    by (eexists; split; vm_compute; reflexivity).
  destruct Hyahoo as (p & Hyahoo & Htime). exists p. split; [| exact Htime].
  apply (get_prices_yahoo_first (env := Sample.env) (lib := Sample.lib)
           (net := Sample.yahoo_up) "AAPL" "2024-01-05" "2024-01-10" None initial_world
           (Sample.ordinal 2024 1 5) (Sample.ordinal 2024 1 10)).
  - reflexivity.
  - vm_compute. reflexivity.
  - vm_compute. reflexivity.
  - exact Hyahoo.
Defined.

(** X10 with Yahoo up and the window turned round: no price. *)
Lemma get_prices_reversed_window_holds :
  fst (get_prices (env := Sample.env) (lib := Sample.lib) (net := Sample.yahoo_up)
         "AAPL" "2024-01-10" "2024-01-05" None initial_world)
  = Returns []
  /\ prices_cache
       (snd (get_prices (env := Sample.env) (lib := Sample.lib) (net := Sample.yahoo_up)
               "AAPL" "2024-01-10" "2024-01-05" None initial_world))
     = prices_cache initial_world.
Proof.
  apply (get_prices_reversed_window (env := Sample.env) (lib := Sample.lib)
           (net := Sample.yahoo_up) iso_strptime_no_underscore).
  - constructor.
  - reflexivity.
  - reflexivity.
  - reflexivity.
Defined.

(** X13 with three results on offer and a limit of two. *)
Lemma search_line_items_prefix_holds :
  exists items,
    fst (search_line_items (env := Sample.env) (lib := Sample.lib)
           (net := Sample.line_items_up)
           "ACME" ["revenue"] "2024-01-10" "ttm" 2 None initial_world)
    = Returns items
    /\ length items = 2%nat
    /\ same_caches initial_world
         (snd (search_line_items (env := Sample.env) (lib := Sample.lib)
                 (net := Sample.line_items_up)
                 "ACME" ["revenue"] "2024-01-10" "ttm" 2 None initial_world)).
Proof.
  assert (Hrun : exists items,
            search_line_items (env := Sample.env) (lib := Sample.lib)
              (net := Sample.line_items_up)
              "ACME" ["revenue"] "2024-01-10" "ttm" 2 None initial_world
            = (Returns items,
               snd (search_line_items (env := Sample.env) (lib := Sample.lib)
                      (net := Sample.line_items_up)
                      "ACME" ["revenue"] "2024-01-10" "ttm" 2 None initial_world))
            /\ length items = 2%nat)
    by (eexists; split; vm_compute; reflexivity).
  destruct Hrun as (items & Hrun & Hlen). exists items.
  destruct (search_line_items_prefix (env := Sample.env) (lib := Sample.lib)
              (net := Sample.line_items_up) _ _ _ _ _ _ _ _ _ Hrun)
    as (Hcaches & _).
  split; [by rewrite Hrun |]. split; [exact Hlen | exact Hcaches].
Defined.

(** X14 on Finnhub alone: a profile of 3000 millions gives 3000000000. *)
Lemma get_market_cap_from_finnhub_holds :
  exists w',
    get_market_cap (env := Sample.env) (lib := Sample.lib)
      (net := Sample.finnhub_only Sample.zero_first_metric Sample.full_profile)
      "ACME" "2024-01-10" None initial_world
    = (Returns (JInt 3000000000), w')
    /\ length (http_log w') = 1%nat
    /\ financial_metrics_cache w' = ∅.
Proof.
  eexists. split.
  - apply (get_market_cap_from_finnhub (env := Sample.env) (lib := Sample.lib)
             (net := Sample.finnhub_only Sample.zero_first_metric Sample.full_profile)
             "ACME" "2024-01-10" None initial_world "k1"
             {| status_code := 200; text := ""; body := Some Sample.full_profile |}
             [("marketCapitalization", JInt 3000); ("currency", JStr "USD")] 3000);
      reflexivity || done.
  - split; reflexivity.
Defined.

(** X16 on one vote each way: the same aggregate in lower case under other
    agent names, and the same signal in the other order. *)
Lemma aggregate_signals_depends_on_holds :
  N8n.aggregate_signals N8n.sum_left Sample.split_votes_lower
  = N8n.aggregate_signals N8n.sum_left Sample.split_votes
  /\ fst (N8n.aggregate_signals N8n.sum_left (rev Sample.split_votes))
     = fst (N8n.aggregate_signals N8n.sum_left Sample.split_votes).
Proof.
  destruct (aggregate_signals_depends_on N8n.sum_left) as [Hdep Hperm]. split.
  - apply Hdep; reflexivity.
  - apply Hperm. apply Permutation_rev.
Defined.
